(** * research-agent-api: retrieval, grading and answering pipeline

    A shallow embedding of the Python services
    [src/services/retrieval_service.py], [src/services/llm_service.py],
    [src/services/graph_service.py], [src/services/memory_service.py] and of
    the handlers of [src/routers/query_router.py] that call them.

    Conventions of the embedding.
    - Python [str] is [string]; the text is read as ASCII (whitespace,
      lower-casing and digits are the ASCII ones).
    - Python [float] is [pyfloat]: a finite value is kept as the rational it
      denotes (rounding to binary64 is not modelled), and the two infinities
      and nan are separate values, because [float()] accepts their spellings.
    - A Python exception is a value of [exn]; a call that can raise returns
      [result]; code that mutates the service singletons runs in the monad
      [M], whose state survives an exception, as Python's does.
    - Third-party objects (text splitter, FAISS, BM25, the ensemble retriever,
      the two chat back-ends) are the fields of the interface [ThirdParty];
      [Demo] gives a concrete instance on which the properties are run.
    - Logging is not modelled. *)

From Stdlib Require Import ZArith QArith String Ascii List Bool Lia.
From Stdlib Require Import Sorting.Sorted Sorting.Permutation.
From stdpp Require Import base option gmap strings.

Import ListNotations.
Local Open Scope list_scope.
Local Open Scope string_scope.

(** ** Python built-ins used by the services *)

Module Py.

(** [str.isspace] on ASCII: TAB..CR, FS..US and the space. *)
Definition isspace (c : ascii) : bool :=
  let n := nat_of_ascii c in
  ((9 <=? n)%nat && (n <=? 13)%nat) || ((28 <=? n)%nat && (n <=? 32)%nat).

Definition isdigit (c : ascii) : bool :=
  let n := nat_of_ascii c in (48 <=? n)%nat && (n <=? 57)%nat.

Definition digit_val (c : ascii) : Z := Z.of_nat (nat_of_ascii c - 48).

Definition lower_char (c : ascii) : ascii :=
  let n := nat_of_ascii c in
  if (65 <=? n)%nat && (n <=? 90)%nat then ascii_of_nat (n + 32) else c.

(** [s.lower()] *)
Fixpoint lower (s : string) : string :=
  match s with
  | EmptyString => EmptyString
  | String c s' => String (lower_char c) (lower s')
  end.

(** [s.lstrip(chars)] for a predicate on characters. *)
Fixpoint lstrip_by (p : ascii -> bool) (s : string) : string :=
  match s with
  | String c s' => if p c then lstrip_by p s' else s
  | EmptyString => EmptyString
  end.

(** [s.rstrip(chars)]: a character goes when everything after it goes. *)
Fixpoint rstrip_by (p : ascii -> bool) (s : string) : string :=
  match s with
  | String c s' =>
      match rstrip_by p s' with
      | EmptyString => if p c then EmptyString else String c EmptyString
      | r => String c r
      end
  | EmptyString => EmptyString
  end.

Definition strip_by (p : ascii -> bool) (s : string) : string :=
  rstrip_by p (lstrip_by p s).

(** [s.strip()] *)
Definition strip (s : string) : string := strip_by isspace s.

(** [s.strip(chars)] *)
Definition strip_chars (chars : list ascii) (s : string) : string :=
  strip_by (fun c => existsb (Ascii.eqb c) chars) s.

(** [s.split()]: the maximal runs of non-whitespace characters. *)
Fixpoint split_ws_aux (cur : string) (s : string) : list string :=
  match s with
  | EmptyString => if String.eqb cur "" then [] else [cur]
  | String c s' =>
      if isspace c
      then (if String.eqb cur "" then split_ws_aux "" s'
            else cur :: split_ws_aux "" s')
      else split_ws_aux (cur ++ String c "") s'
  end.

Definition split_ws (s : string) : list string := split_ws_aux "" s.

(** If [s] starts with [pre], what follows it. *)
Fixpoint drop_prefix (pre s : string) : option string :=
  match pre with
  | EmptyString => Some s
  | String a pre' =>
      match s with
      | String b s' => if Ascii.eqb a b then drop_prefix pre' s' else None
      | EmptyString => None
      end
  end.

(** [s.split(sep)] for a separator of one or two characters, scanning
    from the left for non-overlapping occurrences; empty fields are kept. *)
Fixpoint split1_aux (sep : ascii) (cur : string) (s : string) : list string :=
  match s with
  | EmptyString => [cur]
  | String c s' =>
      if Ascii.eqb c sep then cur :: split1_aux sep "" s'
      else split1_aux sep (cur ++ String c "") s'
  end.

Definition split1 (sep : ascii) (s : string) : list string :=
  split1_aux sep "" s.

Fixpoint split2_aux (a b : ascii) (cur : string) (s : string) : list string :=
  match s with
  | EmptyString => [cur]
  | String c s' =>
      match s' with
      | String d s'' =>
          if Ascii.eqb c a && Ascii.eqb d b
          then cur :: split2_aux a b "" s''
          else split2_aux a b (cur ++ String c "") s'
      | EmptyString => [cur ++ String c ""]
      end
  end.

Definition split2 (a b : ascii) (s : string) : list string :=
  split2_aux a b "" s.

(** [sep.join(parts)] *)
Fixpoint join (sep : string) (parts : list string) : string :=
  match parts with
  | [] => ""
  | [p] => p
  | p :: rest => p ++ sep ++ join sep rest
  end.

(** [sub in s] *)
Fixpoint contains (sub s : string) : bool :=
  match drop_prefix sub s with
  | Some _ => true
  | None =>
      match s with
      | String _ s' => contains sub s'
      | EmptyString => false
      end
  end.

(** [s[:n]] for [n >= 0] *)
Definition prefix (n : nat) (s : string) : string := substring 0 n s.

(** [l[-1]] of a non-empty list, as [s.split(sep)] always is. *)
Definition last_field (l : list string) : string := List.last l "".

Definition nl : ascii := ascii_of_nat 10.
Definition dquote : ascii := ascii_of_nat 34.
Definition nl2 : string := String nl (String nl "").

(** *** float *)

Inductive pyfloat : Type :=
| Fin (q : Q)
| Inf (negative : bool)
| Nan.

(** [a < b] on floats; any comparison with nan is [False]. *)
Definition lt (a b : pyfloat) : bool :=
  match a, b with
  | Nan, _ | _, Nan => false
  | Fin x, Fin y => if Qlt_le_dec x y then true else false
  | Fin _, Inf neg => negb neg
  | Inf neg, Fin _ => neg
  | Inf n1, Inf n2 => n1 && negb n2
  end.

(** [a > b] *)
Definition gt (a b : pyfloat) : bool := lt b a.

Definition is_nan (a : pyfloat) : bool :=
  match a with Nan => true | _ => false end.

Definition one : pyfloat := Fin 1.
Definition half : pyfloat := Fin (1 # 2).

(** [float(s)], after the grammar of the language reference:
    [sign] (inf | infinity | nan | number [exponent]), where
    number is digitpart [.] | [digitpart] . digitpart, and a digitpart is
    digits with single underscores between them. *)

Fixpoint digitpart_tail (acc : Z) (count : nat) (s : string)
  : Z * nat * string :=
  match s with
  | String c s' =>
      if isdigit c then digitpart_tail (10 * acc + digit_val c) (S count) s'
      else if Ascii.eqb c "_" then
        match s' with
        | String d s'' =>
            if isdigit d
            then digitpart_tail (10 * acc + digit_val d) (S count) s''
            else (acc, count, s)
        | EmptyString => (acc, count, s)
        end
      else (acc, count, s)
  | EmptyString => (acc, count, s)
  end.

Definition digitpart (s : string) : option (Z * nat * string) :=
  match s with
  | String c s' =>
      if isdigit c then Some (digitpart_tail (digit_val c) 1 s') else None
  | EmptyString => None
  end.

(** mantissa, number of fraction digits, rest *)
Definition number (s : string) : option (Z * nat * string) :=
  match digitpart s with
  | Some (i, _, rest) =>
      match rest with
      | String "." after =>
          match digitpart after with
          | Some (f, k, rest') => Some ((i * 10 ^ Z.of_nat k + f)%Z, k, rest')
          | None => Some (i, 0%nat, after)
          end
      | _ => Some (i, 0%nat, rest)
      end
  | None =>
      match s with
      | String "." after =>
          match digitpart after with
          | Some (f, k, rest') => Some (f, k, rest')
          | None => None
          end
      | _ => None
      end
  end.

Definition sign (s : string) : bool * string :=
  match s with
  | String "-" s' => (true, s')
  | String "+" s' => (false, s')
  | _ => (false, s)
  end.

(** exponent value and rest; [None] when an [e] is not followed by digits *)
Definition exponent (s : string) : option (Z * string) :=
  match s with
  | String c s' =>
      if Ascii.eqb (lower_char c) "e" then
        let '(neg, s'') := sign s' in
        match digitpart s'' with
        | Some (e, _, rest) => Some (if neg then (- e)%Z else e, rest)
        | None => None
        end
      else Some (0%Z, s)
  | EmptyString => Some (0%Z, s)
  end.

Definition scale (m e : Z) : Q :=
  if (0 <=? e)%Z then inject_Z (m * 10 ^ e)%Z
  else Qmake m (Z.to_pos (10 ^ (- e))%Z).

Definition float_of_str (raw : string) : option pyfloat :=
  let '(neg, s) := sign (strip raw) in
  let name := lower s in
  if String.eqb name "inf" || String.eqb name "infinity" then Some (Inf neg)
  else if String.eqb name "nan" then Some Nan
  else
    match number s with
    | Some (m, k, rest) =>
        match exponent rest with
        | Some (e, EmptyString) =>
            let q := scale m (e - Z.of_nat k)%Z in
            Some (Fin (if neg then Qopp q else q))
        | _ => None
        end
    | None => None
    end.

End Py.

(** ** Exceptions, results and the service monad *)

Inductive exn : Type :=
| ValueError (msg : string)
| RuntimeError (msg : string)
| TypeError (msg : string)
| AttributeError (msg : string)
| HTTPException (status_code : Z) (detail : string)
| ExternalError (msg : string).   (* raised inside a third-party client *)

Inductive result (A : Type) : Type :=
| Ok (a : A)
| Raise (e : exn).

Arguments Ok {A} a.
Arguments Raise {A} e.

Definition is_ok {A} (r : result A) : bool :=
  match r with Ok _ => true | Raise _ => false end.

(** A computation over a state [S]: the state is threaded through, and an
    exception leaves the mutations done so far in place. *)
Definition Comp (S A : Type) : Type := S -> result A * S.

Definition ret {S A} (a : A) : Comp S A := fun s => (Ok a, s).

Definition raise {S A} (e : exn) : Comp S A := fun s => (Raise e, s).

Definition bind {S A B} (m : Comp S A) (k : A -> Comp S B) : Comp S B :=
  fun s =>
    match m s with
    | (Ok a, s') => k a s'
    | (Raise e, s') => (Raise e, s')
    end.

(** [try: m  except Exception as e: h e] *)
Definition try_except {S A} (m : Comp S A) (h : exn -> Comp S A) : Comp S A :=
  fun s =>
    match m s with
    | (Ok a, s') => (Ok a, s')
    | (Raise e, s') => h e s'
    end.

Definition gets {S A} (f : S -> A) : Comp S A := fun s => (Ok (f s), s).

Definition modify {S} (f : S -> S) : Comp S unit := fun s => (Ok tt, f s).

Declare Scope comp_scope.
Delimit Scope comp_scope with comp.
Notation "x <- m ;; k" := (bind m (fun x => k))
  (at level 100, m at next level, right associativity) : comp_scope.
Notation "m ;;; k" := (bind m (fun _ => k))
  (at level 100, right associativity) : comp_scope.

(** ** Data of the services *)

(** langchain's [Document] *)
Record Document : Type := mkDocument {
  page_content : string;
  metadata : gmap string string
}.

(** An entry of the list [RetrievalPipeline.retrieve] returns, and of
    [state["documents"]]. *)
Record Doc : Type := mkDoc {
  content : string;
  source : string;
  score : Py.pyfloat
}.

(** An entry of [state["graded_docs"]]. The loop of [grade_documents] writes
    the keys content, source, grade, original_score; its handler writes
    content, source, score, grade. *)
Record GradedDoc : Type := mkGraded {
  g_content : string;
  g_source : string;
  grade : Py.pyfloat;
  original_score : option Py.pyfloat;
  g_score : option Py.pyfloat
}.

(** The state dictionary threaded through [GraphService]. *)
Record QueryState : Type := mkState {
  question : string;
  documents : list Doc;
  rewritten_question : option string;
  graded_docs : option (list GradedDoc);
  answer : option string;
  thread_id : string;
  relevant_docs : option (list GradedDoc)
}.

Inductive BaseMessage : Type :=
| HumanMessage (content : string)
| AIMessage (content : string).

Definition message_content (m : BaseMessage) : string :=
  match m with HumanMessage c | AIMessage c => c end.

(** What a chat model is sent. *)
Inductive ChatMessage : Type :=
| SystemMessage (content : string)
| UserMessage (content : string).     (* {"role": "user", "content": ...} *)

Inductive ConfigValue : Type :=
| CfgFloat (q : Q)
| CfgInt (z : Z)
| CfgTags (tags : list string)
| CfgCallbacks.                       (* [tracing_service.get_handler()] *)

Definition Config : Type := list (string * ConfigValue).

(** The two chat clients of [LLMService]. *)
Inductive ChatModel : Type :=
| ChatTogether     (* primary, meta-llama/Llama-3.3-70B-Instruct-Turbo *)
| ChatOpenAI.      (* backup, gpt-4o-mini *)

Record LLMService : Type := mkLLM {
  _primary_llm : option ChatModel;
  _backup_llm : option ChatModel
}.

Record MemoryService : Type := mkMemory {
  conversations : gmap string (list BaseMessage)
}.

Inductive QueryType : Type := MEMORY | VECTORSTORE | GENERAL.

Record DocumentReference : Type := mkRef {
  ref_source : string;
  relevance_score : Py.pyfloat;
  snippet : string
}.

Record QueryResponse : Type := mkResponse {
  resp_answer : string;
  references : list DocumentReference;
  resp_thread_id : option string
}.

Record QueryRequest : Type := mkRequest {
  req_question : string;
  req_thread_id : option string
}.

(** [l.sort(key=key, reverse=True)] and [sorted(l, key=key, reverse=True)]:
    the stable arrangement by descending key. It is the one Python returns
    whenever [<] is a total preorder on the keys, that is when no key is nan. *)
Section Sort.

Context {A : Type} (key : A -> Py.pyfloat).

Fixpoint insert_desc (x : A) (l : list A) : list A :=
  match l with
  | [] => [x]
  | y :: l' =>
      if Py.lt (key x) (key y) then y :: insert_desc x l' else x :: l
  end.

Definition sort_desc (l : list A) : list A := fold_right insert_desc [] l.

End Sort.

(** [o is not None] *)
Definition is_some {A} (o : option A) : bool :=
  match o with Some _ => true | None => false end.

Local Open Scope comp_scope.

(** ** What lies outside the repository

    The third-party packages and network services behind the code, as an
    interface. [World] is the state of everything reached through them; a call
    into it may change it and may raise. *)

Record VectorStoreRetriever (FAISS : Type) : Type := mkVectorRetriever {
  vr_store : FAISS;
  search_type : string;
  search_k : nat
}.

Record EnsembleRetriever (FAISS BM25Retriever : Type) : Type := mkEnsemble {
  retrievers : VectorStoreRetriever FAISS * BM25Retriever;
  weights : Q * Q
}.

Arguments mkVectorRetriever {FAISS}.
Arguments mkEnsemble {FAISS BM25Retriever}.
Arguments retrievers {FAISS BM25Retriever}.
Arguments weights {FAISS BM25Retriever}.

Class ThirdParty : Type := {
  World : Type;
  (** [ChatTogether(...)] and [ChatOpenAI(...)] *)
  construct : ChatModel -> Comp World unit;
  (** [model.invoke(messages, config=config)], already turned into text by
      [str(response.content)] *)
  chat_invoke : ChatModel -> list ChatMessage -> Config -> Comp World string;
  (** [str(e)] *)
  str_exn : exn -> string;
  (** [f"{x:.2f}"] *)
  format_2f : Py.pyfloat -> string;
  Embeddings : Type;
  FAISS : Type;
  BM25Retriever : Type;
  (** [text_splitter.split_documents] *)
  split_documents : list Document -> Comp World (list Document);
  (** [OpenAIEmbeddings(api_key=...)] *)
  OpenAIEmbeddings_init : Comp World Embeddings;
  FAISS_from_documents : list Document -> Embeddings -> Comp World FAISS;
  (** [BM25Retriever.from_documents(doc_splits, similarity_top_k=6)] *)
  BM25_from_documents : list Document -> nat -> Comp World BM25Retriever;
  (** The fused ranking the ensemble retriever computes for a query: the
      documents of both sub-rankings, each with its weighted fused score, best
      first. *)
  ensemble_ranking :
    EnsembleRetriever FAISS BM25Retriever -> string ->
    Comp World (list (Document * Py.pyfloat));
  (** [router_chain.invoke], [memory_chain.invoke] (response type, content)
      and [str(uuid.uuid4())] of the query router *)
  router_chain : string -> Comp World QueryType;
  memory_chain : string -> string -> Comp World (string * string);
  uuid4 : Comp World string
}.

Section Services.

Context `{TP : ThirdParty}.

Definition Ext (A : Type) : Type := Comp World A.

(** [ensemble_retriever.invoke(question)] hands back the documents of the
    ranking, without their scores. *)
Definition ensemble_invoke (e : EnsembleRetriever FAISS BM25Retriever)
    (question : string) : Ext (list Document) :=
  ranking <- ensemble_ranking e question ;; ret (map fst ranking).

(** *** The service singletons *)

Record RetrievalPipeline : Type := mkPipeline {
  vectorstore : option FAISS;
  keyword_retriever : option BM25Retriever;
  ensemble_retriever : option (EnsembleRetriever FAISS BM25Retriever);
  pipeline_documents : list Document;
  embeddings : option Embeddings
}.

Record App : Type := mkApp {
  world : World;
  llm_service : LLMService;
  memory_service : MemoryService;
  retrieval_pipeline : RetrievalPipeline
}.

Definition M (A : Type) : Type := Comp App A.

(** A call into the outside world from the services. *)
Definition ext {A} (c : Ext A) : M A :=
  fun app =>
    let '(r, w) := c (world app) in
    (r, mkApp w (llm_service app) (memory_service app) (retrieval_pipeline app)).

Definition update_llm (f : LLMService -> LLMService) : M unit :=
  modify (fun app =>
    mkApp (world app) (f (llm_service app)) (memory_service app)
          (retrieval_pipeline app)).

Definition update_memory (f : MemoryService -> MemoryService) : M unit :=
  modify (fun app =>
    mkApp (world app) (llm_service app) (f (memory_service app))
          (retrieval_pipeline app)).

Definition update_pipeline (f : RetrievalPipeline -> RetrievalPipeline)
  : M unit :=
  modify (fun app =>
    mkApp (world app) (llm_service app) (memory_service app)
          (f (retrieval_pipeline app))).

(** *** llm_service.py *)

Definition system_prompt : string :=
  "You are a Research Paper Agent, build for research paper chatbot." ++
  String Py.nl
  "Always maintain a professional, academic tone while being helpful and clear.".

(** [LLMService.setup_llm]: each constructor under its own [try]; a
    failure leaves [None]. *)
Definition setup_llm : M unit :=
  try_except
    (ext (construct ChatTogether) ;;;
     update_llm (fun s => mkLLM (Some ChatTogether) (_backup_llm s)))
    (fun _ => update_llm (fun s => mkLLM None (_backup_llm s))) ;;;
  try_except
    (ext (construct ChatOpenAI) ;;;
     update_llm (fun s => mkLLM (_primary_llm s) (Some ChatOpenAI)))
    (fun _ => update_llm (fun s => mkLLM (_primary_llm s) None)).

Definition probe_messages : list ChatMessage := [UserMessage "test"].

(** The property [LLMService.llm]. *)
Definition llm : M ChatModel :=
  s <- gets llm_service ;;
  (if negb (is_some (_primary_llm s)) && negb (is_some (_backup_llm s))
   then setup_llm else ret tt) ;;;
  s <- gets llm_service ;;
  responsive <-
    match _primary_llm s with
    | Some primary =>
        try_except
          (ext (chat_invoke primary probe_messages []) ;;; ret (Some primary))
          (fun _ => ret None)
    | None => ret None
    end ;;
  match responsive with
  | Some primary => ret primary
  | None =>
      s <- gets llm_service ;;
      match _backup_llm s with
      | Some backup => ret backup
      | None => raise (RuntimeError "No LLM service available")
      end
  end.

(** [LLMService.invoke] *)
Definition invoke (prompt : string) (config : option Config) : M string :=
  try_except
    (let messages := [SystemMessage system_prompt; UserMessage prompt] in
     let invoke_config := default [] config in
     current_llm <- llm ;;
     response_text <- ext (chat_invoke current_llm messages invoke_config) ;;
     ret response_text)
    (fun e => raise e).

(** *** memory_service.py *)

Definition add_message (thread_id : string) (message : BaseMessage) : M unit :=
  update_memory (fun m =>
    let convs := conversations m in
    let convs :=
      match convs !! thread_id with
      | None => <[thread_id := []]> convs
      | Some _ => convs
      end in
    mkMemory (alter (fun l => l ++ [message])%list thread_id convs)).

(** [l[start:]] *)
Definition slice_from {A} (start : Z) (l : list A) : list A :=
  if (start <? 0)%Z
  then skipn (length l - Z.to_nat (- start)) l
  else skipn (Z.to_nat start) l.

Definition get_messages (thread_id : string) (last_k : option Z)
  : M (list BaseMessage) :=
  m <- gets memory_service ;;
  let messages := default [] (conversations m !! thread_id) in
  match last_k with
  | Some k => if (k =? 0)%Z then ret messages
              else ret (slice_from (- k) messages)
  | None => ret messages
  end.

Definition clear_thread (thread_id : string) : M unit :=
  update_memory (fun m =>
    match conversations m !! thread_id with
    | Some _ => mkMemory (delete thread_id (conversations m))
    | None => m
    end).

Definition thread_exists (thread_id : string) : M bool :=
  m <- gets memory_service ;;
  ret (is_some (conversations m !! thread_id)).

(** *** retrieval_service.py *)

Definition empty_pipeline : RetrievalPipeline :=
  mkPipeline None None None [] None.

(** [RetrievalPipeline.reset] *)
Definition reset : M unit :=
  update_pipeline (fun _ => empty_pipeline).

(** [RetrievalPipeline.rebuild] *)
Definition rebuild (docs : list Document) : M unit :=
  reset ;;;
  doc_splits <- ext (split_documents docs) ;;
  emb <- ext OpenAIEmbeddings_init ;;
  update_pipeline (fun p =>
    mkPipeline (vectorstore p) (keyword_retriever p) (ensemble_retriever p)
               (pipeline_documents p) (Some emb)) ;;;
  vs <- ext (FAISS_from_documents doc_splits emb) ;;
  update_pipeline (fun p =>
    mkPipeline (Some vs) (keyword_retriever p) (ensemble_retriever p)
               (pipeline_documents p) (embeddings p)) ;;;
  kw <- ext (BM25_from_documents doc_splits 6) ;;
  update_pipeline (fun p =>
    mkPipeline (vectorstore p) (Some kw) (ensemble_retriever p)
               (pipeline_documents p) (embeddings p)) ;;;
  let vector_retriever := mkVectorRetriever vs "similarity" 6 in
  update_pipeline (fun p =>
    mkPipeline (vectorstore p) (keyword_retriever p)
               (Some (mkEnsemble (vector_retriever, kw) (7 # 10, 3 # 10)%Q))
               (pipeline_documents p) (embeddings p)) ;;;
  update_pipeline (fun p =>
    mkPipeline (vectorstore p) (keyword_retriever p) (ensemble_retriever p)
               docs (embeddings p)).

(** [RetrievalPipeline.has_documents] *)
Definition has_documents (p : RetrievalPipeline) : bool :=
  (0 <? length (pipeline_documents p))%nat
  && is_some (vectorstore p)
  && is_some (ensemble_retriever p).

Definition research_terms : list string :=
  ["study"; "research"; "method"; "result"; "conclusion";
   "analysis"; "finding"; "data"; "experiment"].

(** The test of the inner loop of [retrieve] on one paragraph. *)
Definition relevant_paragraph (question paragraph : string) : bool :=
  let question_words : gset string :=
    list_to_set (Py.split_ws (Py.lower question)) in
  let paragraph_words : gset string :=
    list_to_set (Py.split_ws (Py.lower paragraph)) in
  (1 <? size (question_words ∩ paragraph_words))%nat
  || existsb (fun term => Py.contains term (Py.lower paragraph))
             research_terms.

(** [[p.strip() for p in content.split('\n\n') if p.strip()]] *)
Definition paragraphs_of (content : string) : list string :=
  List.filter (fun p => negb (String.eqb p ""))
         (map Py.strip (Py.split2 Py.nl Py.nl content)).

(** [for paragraph in paragraphs: if ...: relevant_parts.append(paragraph)] *)
Fixpoint relevant_parts_loop (question : string) (paragraphs : list string)
    (relevant_parts : list string) : list string :=
  match paragraphs with
  | [] => relevant_parts
  | paragraph :: rest =>
      if relevant_paragraph question paragraph
      then relevant_parts_loop question rest
             (relevant_parts ++ [paragraph])%list
      else relevant_parts_loop question rest relevant_parts
  end.

Definition source_of (doc : Document) : string :=
  default "Unknown source" (metadata doc !! "source").

(** [for doc in docs: ...] of [retrieve], with its accumulator
    [relevant_content] *)
Fixpoint retrieve_loop (question : string) (docs : list Document)
    (relevant_content : list Doc) : list Doc :=
  match docs with
  | [] => relevant_content
  | doc :: rest =>
      let score := Py.one in
      let content := page_content doc in
      let source := source_of doc in
      let paragraphs := paragraphs_of content in
      let relevant_parts := relevant_parts_loop question paragraphs [] in
      match relevant_parts with
      | [] => retrieve_loop question rest relevant_content
      | _ :: _ =>
          let snippet := Py.join Py.nl2 relevant_parts in
          retrieve_loop question rest
            (relevant_content ++ [mkDoc snippet source score])%list
      end
  end.

Definition not_ready : exn :=
  ValueError
    "No documents are currently loaded. Please upload documents first.".

(** [RetrievalPipeline.retrieve] *)
Definition retrieve (question : string) : M (list Doc) :=
  p <- gets retrieval_pipeline ;;
  if negb (has_documents p) then raise not_ready
  else
    docs <-
      match ensemble_retriever p with
      | Some e => ext (ensemble_invoke e question)
      | None => raise (AttributeError "'NoneType' object has no attribute 'invoke'")
      end ;;
    let relevant_content := retrieve_loop question docs [] in
    match relevant_content with
    | _ :: _ => ret relevant_content
    | [] =>
        match docs with
        | first :: _ =>
            ret [mkDoc (Py.prefix 1000 (page_content first))
                       (source_of first) Py.one]
        | [] => ret []
        end
    end.

(** [RetrievalPipeline.query] *)
Definition query (question : string) : M (list Doc) := retrieve question.

(** *** graph_service.py *)

Definition quoted (s : string) : string :=
  String Py.dquote s ++ String Py.dquote "".

Definition lines (l : list string) : string := Py.join (String Py.nl "") l.

Definition rewrite_prompt (question : string) : string :=
  lines
    ["Rewrite this research question to be more specific and focused: "
       ++ quoted question;
     "            ";
     "            Rules:";
     "            1. Keep it concise";
     "            2. Use technical terminology";
     "            3. Focus on specific aspects";
     "            4. Maintain clarity";
     "            ";
     "            Return ONLY the rewritten question, nothing else."].

Definition grade_prompt (question content : string) : string :=
  lines
    ["Rate the relevance of this document excerpt to the question: "
       ++ quoted question;
     "";
     "                Document content:";
     "                " ++ Py.prefix 1000 content ++ "...";
     "";
     "                Rate from 0-1 where:";
     "                0: Not relevant at all";
     "                0.5: Somewhat relevant";
     "                1: Highly relevant";
     "";
     "                Return ONLY the numerical score (e.g., 0.7)."].

Definition answer_prompt (question context : string) : string :=
  lines
    ["Based on these research paper excerpts, answer this question: "
       ++ quoted question;
     "";
     "            Context from papers:";
     "            " ++ context;
     "";
     "            Instructions:";
     "            1. Only use information from the provided excerpts";
     "            2. Cite specific papers when making claims";
     "            3. If information is incomplete or unclear, acknowledge it";
     "            4. Focus on key findings and conclusions";
     "            5. Be concise but thorough";
     "            6. Include clear references to papers";
     "";
     "            Answer:"].

Definition with_rewritten (state : QueryState) (r : string) : QueryState :=
  mkState (question state) (documents state) (Some r) (graded_docs state)
          (answer state) (thread_id state) (relevant_docs state).

Definition with_graded (state : QueryState) (g : list GradedDoc)
  : QueryState :=
  mkState (question state) (documents state) (rewritten_question state)
          (Some g) (answer state) (thread_id state) (relevant_docs state).

(** [GraphService.rewrite_question] *)
Definition rewrite_question (state : QueryState) : M QueryState :=
  try_except
    (rewritten <- invoke (rewrite_prompt (question state))
                         (Some [("temperature", CfgFloat (3 # 10))]) ;;
     let rewritten :=
       Py.strip (Py.strip_chars [Py.dquote] (Py.strip rewritten)) in
     ret (with_rewritten state rewritten))
    (fun _ => ret (with_rewritten state (question state))).

(** The grade of one document, given the text the Oracle answered:
    [try: grade = float(response.strip())  except: grade = doc['score']] *)
Definition grade_of (doc : Doc) (response : string) : Py.pyfloat :=
  match Py.float_of_str (Py.strip response) with
  | Some grade => grade
  | None => score doc
  end.

(** [for doc in state["documents"]: ...] of [grade_documents], with its
    accumulator [graded_docs] *)
Fixpoint grade_loop (question : string) (docs : list Doc)
    (graded : list GradedDoc) : M (list GradedDoc) :=
  match docs with
  | [] => ret graded
  | doc :: rest =>
      response <- invoke (grade_prompt question (content doc))
                         (Some [("temperature", CfgFloat (1 # 10))]) ;;
      let grade := grade_of doc response in
      grade_loop question rest
        (graded ++ [mkGraded (content doc) (source doc) grade
                             (Some (score doc)) None])%list
  end.

(** [state["rewritten_question"] or state["question"]] *)
Definition grading_question (state : QueryState) : string :=
  match rewritten_question state with
  | Some r => if String.eqb r "" then question state else r
  | None => question state
  end.

(** [GraphService.grade_documents] *)
Definition grade_documents (state : QueryState) : M QueryState :=
  try_except
    (let question := grading_question state in
     graded <- grade_loop question (documents state) [] ;;
     let graded := sort_desc grade graded in
     ret (with_graded state graded))
    (fun _ =>
       ret (with_graded state
              (map (fun doc => mkGraded (content doc) (source doc)
                                        (score doc) None (Some (score doc)))
                   (documents state)))).

(** The selection of [generate_answer]:
    [[doc for doc in graded_docs if doc["grade"] > 0.5]], and
    [graded_docs[:2]] when that is empty. *)
Definition select_relevant (graded : list GradedDoc) : list GradedDoc :=
  let relevant := List.filter (fun doc => Py.gt (grade doc) Py.half) graded in
  match relevant with
  | [] => firstn 2 graded
  | _ :: _ => relevant
  end.

Definition answer_context (relevant : list GradedDoc) : string :=
  Py.join Py.nl2
    (map (fun doc => "From " ++ g_source doc ++ " (relevance: "
                     ++ format_2f (grade doc) ++ "):"
                     ++ String Py.nl (g_content doc))
         relevant).

(** [GraphService.generate_answer] *)
Definition generate_answer (state : QueryState) : M QueryState :=
  try_except
    (graded <-
       match graded_docs state with
       | Some g => ret g
       | None => raise (TypeError "'NoneType' object is not iterable")
       end ;;
     let relevant := select_relevant graded in
     let context := answer_context relevant in
     answer <- invoke (answer_prompt (question state) context)
                      (Some [("temperature", CfgFloat (2 # 10));
                             ("max_tokens", CfgInt 1000)]) ;;
     ret (mkState (question state) (documents state)
                  (rewritten_question state) (graded_docs state)
                  (Some answer) (thread_id state) (Some relevant)))
    (fun e => raise e).

(** [GraphService.process_state] *)
Definition process_state (state : QueryState) : M QueryState :=
  try_except
    (state <- rewrite_question state ;;
     state <- grade_documents state ;;
     state <- generate_answer state ;;
     ret state)
    (fun e => raise e).

(** *** query_router.py *)

Definition role_line (m : BaseMessage) : string :=
  match m with
  | HumanMessage c => "User: " ++ c
  | AIMessage c => "Assistant: " ++ c
  end.

(** [handle_memory_question]: response, source, response type *)
Definition handle_memory_question (question thread_id : string)
  : M (string * string * string) :=
  messages <- get_messages thread_id None ;;
  let history := lines (map role_line messages) in
  memory_result <- ext (memory_chain question history) ;;
  add_message thread_id (HumanMessage question) ;;;
  add_message thread_id (AIMessage (snd memory_result)) ;;;
  ret (snd memory_result, "memory", fst memory_result).

(** [handle_general_question]: response, source *)
Definition handle_general_question (question thread_id : string)
  : M (string * string) :=
  response <- invoke question
                (Some [("callbacks", CfgCallbacks);
                       ("tags", CfgTags ["general"; "llm"; "direct"])]) ;;
  add_message thread_id (HumanMessage question) ;;;
  add_message thread_id (AIMessage response) ;;;
  ret (response, "general").

(** [doc["source"].split('/')[-1]] *)
Definition basename (source : string) : string :=
  Py.last_field (Py.split1 "/" source).

Definition fallback_context (docs : list Doc) : string :=
  Py.join Py.nl2
    (map (fun doc => "From " ++ source doc ++ ":"
                     ++ String Py.nl (content doc))
         docs).

Definition focused_question (question : string) : string :=
  "Based ONLY on the provided research papers, answer the following question: "
  ++ question ++
  String Py.nl
  "        Please provide a clear and concise answer, focusing on key findings and conclusions.".

Definition fallback_prompt (question : string) (docs : list Doc) : string :=
  "Context from papers:" ++ String Py.nl (fallback_context docs)
  ++ Py.nl2 ++ "Question: " ++ focused_question question.

Definition fallback_references (docs : list Doc) : list DocumentReference :=
  map (fun doc => mkRef (basename (source doc)) (score doc)
                        (Py.prefix 500 (content doc)))
      docs.

(** [handle_research_fallback] *)
Definition handle_research_fallback (question : string) (docs : list Doc)
    (thread_id : string) : M QueryResponse :=
  try_except
    (answer <- invoke (fallback_prompt question docs)
                      (Some [("temperature", CfgFloat (2 # 10))]) ;;
     let references := fallback_references docs in
     add_message thread_id (HumanMessage question) ;;;
     add_message thread_id (AIMessage answer) ;;;
     ret (mkResponse answer references (Some thread_id)))
    (fun e => raise e).

Definition graded_references (docs : list GradedDoc)
  : list DocumentReference :=
  map (fun doc => mkRef (basename (g_source doc)) (grade doc)
                        (Py.prefix 500 (g_content doc)))
      docs.

Definition no_documents_answer : string :=
  "I cannot answer research questions as no documents have been loaded. Please upload some research papers first.".

Definition nothing_found_answer : string :=
  "I couldn't find any relevant information in the documents.".

(** The inner [try] of the vectorstore branch of [query]: the graph run and,
    when anything in it raises, the fallback. *)
Definition answer_with_graph (question : string) (retrieved_docs : list Doc)
    (state : QueryState) (thread_id : string) : M QueryResponse :=
  try_except
    (graph_result <- process_state state ;;
     let references :=
       match relevant_docs graph_result with
       | Some ((_ :: _) as docs) => graded_references docs
       | _ => []
       end in
     add_message thread_id (HumanMessage question) ;;;
     answer <-
       match answer graph_result with
       | Some a => ret a
       | None => raise (ExternalError "ValidationError: content of AIMessage")
       end ;;
     add_message thread_id (AIMessage answer) ;;;
     ret (mkResponse answer (sort_desc relevance_score references)
                     (Some thread_id)))
    (fun graph_error =>
       handle_research_fallback question retrieved_docs thread_id).

(** The vectorstore branch of [query]. *)
Definition query_vectorstore (question thread_id : string) : M QueryResponse :=
  p <- gets retrieval_pipeline ;;
  if negb (has_documents p)
  then ret (mkResponse no_documents_answer [] (Some thread_id))
  else
    try_except
      (let state := mkState question [] None None None thread_id None in
       retrieved_docs <- retrieve question ;;
       match retrieved_docs with
       | [] => ret (mkResponse nothing_found_answer [] (Some thread_id))
       | _ :: _ =>
           let state :=
             mkState question
                     (map (fun doc => mkDoc (content doc) (source doc) (score doc))
                          retrieved_docs)
                     None None None thread_id None in
           answer_with_graph question retrieved_docs state thread_id
       end)
      (fun e => raise (HTTPException 400 (str_exn e))).

(** The endpoint [query] of the router, [POST /api/query]. *)
Definition router_query (request : QueryRequest) : M QueryResponse :=
  try_except
    (thread_id <-
       match req_thread_id request with
       | Some t => if String.eqb t "" then ext uuid4 else ret t
       | None => ext uuid4
       end ;;
     route <- ext (router_chain (req_question request)) ;;
     match route with
     | MEMORY =>
         result <- handle_memory_question (req_question request) thread_id ;;
         ret (mkResponse (fst (fst result)) [] (Some thread_id))
     | GENERAL =>
         result <- handle_general_question (req_question request) thread_id ;;
         ret (mkResponse (fst result) [] (Some thread_id))
     | VECTORSTORE => query_vectorstore (req_question request) thread_id
     end)
    (fun e => raise (HTTPException 400 (str_exn e))).

Record ResetResponse : Type := mkReset {
  reset_status : string;
  reset_message : string;
  reset_thread_id : string
}.

(** The endpoint [reset_thread], [POST /api/thread/reset]. *)
Definition reset_thread (thread_id : string) : M ResetResponse :=
  try_except
    (known <- thread_exists thread_id ;;
     if negb known
     then raise (HTTPException 404 ("Thread " ++ thread_id ++ " not found"))
     else
       clear_thread thread_id ;;;
       ret (mkReset "success" "Thread reset successfully" thread_id))
    (fun e =>
       match e with
       | HTTPException _ _ => raise e
       | _ => raise (HTTPException 500 (str_exn e))
       end).

Record ThreadStatus : Type := mkStatus {
  status_thread_id : string;
  message_count : nat;
  has_history : bool;
  status_messages : list (string * string)
}.

Definition status_entry (msg : BaseMessage) : string * string :=
  match msg with
  | HumanMessage c => ("human", c)
  | AIMessage c => ("ai", c)
  end.

(** The endpoint [get_thread_status], [GET /api/thread/status/{thread_id}]. *)
Definition get_thread_status (thread_id : string) : M ThreadStatus :=
  try_except
    (messages <- get_messages thread_id None ;;
     ret (mkStatus thread_id (length messages) (0 <? length messages)%nat
                   (map status_entry messages)))
    (fun e => raise (HTTPException 500 (str_exn e))).

End Services.

(** ** A concrete outside world

    A stateless third party, given by what a chat model answers to a list of
    messages and by the fused ranking of the ensemble retriever. The document
    stores keep the chunks they were built from. *)

Module Demo.

Definition exn_text (e : exn) : string :=
  match e with
  | ValueError m | RuntimeError m | TypeError m | AttributeError m
  | ExternalError m => m
  | HTTPException _ d => d
  end.

Definition third_party
    (chat : ChatModel -> list ChatMessage -> result string)
    (ranking : string -> list (Document * Py.pyfloat)) : ThirdParty :=
  {| World := unit;
     construct := fun _ => ret tt;
     chat_invoke := fun model messages _ w => (chat model messages, w);
     str_exn := exn_text;
     format_2f := fun _ => "n.nn";
     Embeddings := unit;
     FAISS := list Document;
     BM25Retriever := list Document;
     split_documents := fun docs => ret docs;
     OpenAIEmbeddings_init := ret tt;
     FAISS_from_documents := fun docs _ => ret docs;
     BM25_from_documents := fun docs _ => ret docs;
     ensemble_ranking := fun _ question => ret (ranking question);
     router_chain := fun _ => ret VECTORSTORE;
     memory_chain := fun _ _ => ret ("history", "");
     uuid4 := ret "00000000-0000-4000-8000-000000000000" |}.

(** An Oracle that grades a chunk about attention 0.9, a chunk about the
    weather 5, answers any other grading prompt with prose, fails on the
    synthesis prompt of [generate_answer] and serves everything else. Both
    back-ends behave alike. *)
Definition oracle (model : ChatModel) (messages : list ChatMessage)
  : result string :=
  match messages with
  | [UserMessage _] => Ok "pong"
  | [SystemMessage _; UserMessage prompt] =>
      if Py.contains "Rate the relevance" prompt then
        if Py.contains "attention" prompt then Ok "0.9"
        else if Py.contains "weather" prompt then Ok " 5 "
        else Ok "I am not sure."
      else if Py.contains "Based on these research paper excerpts" prompt
      then Raise (ExternalError "synthesis unavailable")
      else Ok "An answer drawn from the papers."
  | _ => Raise (ExternalError "bad request")
  end.

(** A primary back-end that answers the liveness probe and nothing else, next
    to a backup that serves every request. *)
Definition probe_only_primary (model : ChatModel)
    (messages : list ChatMessage) : result string :=
  match model, messages with
  | ChatTogether, [UserMessage _] => Ok "pong"
  | ChatTogether, _ => Raise (ExternalError "context length exceeded")
  | ChatOpenAI, _ => Ok "served by the backup"
  end.

Definition paper (text src : string) : Document :=
  mkDocument text {[ "source" := src ]}.

Definition attention_paper : Document :=
  paper "Transformers use self-attention mechanisms." "papers/attention.pdf".

Definition survey_paper : Document :=
  paper ("We study attention in depth." ++ Py.nl2 ++ "Thanks to our families.")
        "papers/survey.pdf".

Definition weather_paper : Document :=
  paper "Tomorrow the weather stays mild." "papers/weather.pdf".

(** Both sub-rankings put the attention paper first, the survey second and
    the weather paper third; with weights 0.7 and 0.3 reciprocal-rank fusion
    scores rank [r] as 0.7/(60+r) + 0.3/(60+r). *)
Definition ranking (question : string) : list (Document * Py.pyfloat) :=
  [(attention_paper, Py.Fin (1 # 61)); (survey_paper, Py.Fin (1 # 62));
   (weather_paper, Py.Fin (1 # 63))].

Definition tp : ThirdParty := third_party oracle ranking.

Definition tp_probe_only : ThirdParty := third_party probe_only_primary ranking.

Definition both_llms : LLMService := mkLLM (Some ChatTogether) (Some ChatOpenAI).

(** The application before any upload or message. *)
Definition fresh (T : ThirdParty) (w : @World T) : @App T :=
  mkApp w both_llms (mkMemory ∅) empty_pipeline.

Definition app0 : @App tp := fresh tp tt.

Definition corpus : list Document :=
  [attention_paper; survey_paper; weather_paper].

(** After [rebuild corpus]. *)
Definition loaded : @App tp := snd (rebuild (TP := tp) corpus app0).

(** A thread with one exchange. *)
Definition chatted : @App tp :=
  snd ((add_message (TP := tp) "t1" (HumanMessage "hello") ;;;
        add_message "t1" (AIMessage "hi")) app0).

Definition question : string := "How does self-attention work?".

(** What [retrieve question] returns on [loaded]: the survey with its
    acknowledgements cut. *)
Definition survey_entry : Doc :=
  mkDoc "We study attention in depth." "papers/survey.pdf" Py.one.

(** Two retrieved entries to grade; the Oracle answers 0.9 for the first and
    prose for the second. *)
Definition to_grade : QueryState :=
  mkState "How do they work?"
          [mkDoc "Transformers use self-attention mechanisms."
                 "papers/attention.pdf" Py.one;
           mkDoc "Nothing of note." "papers/note.pdf" Py.one]
          None None None "t1" None.

(** One retrieved entry that the Oracle grades 5. *)
Definition to_grade_weather : QueryState :=
  mkState "How do they work?"
          [mkDoc "Tomorrow the weather stays mild." "papers/weather.pdf" Py.one]
          None None None "t1" None.

Definition graded (text src : string) (g : Py.pyfloat) : GradedDoc :=
  mkGraded text src g (Some Py.one) None.

End Demo.

(** * Properties *)

(** ** Order on floats and the descending sort *)

Lemma lt_asym (a b : Py.pyfloat) : Py.lt a b = true -> Py.lt b a = false.
Proof.
  destruct a as [x|n1|], b as [y|n2|]; simpl; try reflexivity;
    try discriminate.
  - destruct (Qlt_le_dec x y) as [Hxy|Hxy]; [|discriminate].
    intros _. destruct (Qlt_le_dec y x) as [Hyx|Hyx]; [|reflexivity].
    exfalso. apply (Qlt_irrefl x). now apply Qlt_trans with y.
  - now destruct n2.
  - now destruct n1.
  - destruct n1, n2; simpl; auto.
Qed.

(** On floats other than nan, "not below" is transitive. *)
Lemma not_lt_trans (a b c : Py.pyfloat) :
  Py.is_nan b = false ->
  Py.lt a b = false -> Py.lt b c = false -> Py.lt a c = false.
Proof.
  destruct a as [x|n1|], b as [y|n2|], c as [z|n3|]; simpl;
    try reflexivity; try discriminate; intros _;
    repeat match goal with
           | |- context [Qlt_le_dec ?p ?q] => destruct (Qlt_le_dec p q)
           | n : bool |- _ => destruct n
           end; simpl; try reflexivity; try discriminate.
  intros _ _. exfalso. apply (Qlt_irrefl x).
  apply Qlt_le_trans with z; [assumption|].
  now apply Qle_trans with y.
Qed.

Section SortFacts.

Context {A : Type} (key : A -> Py.pyfloat).

(** [x] is not below [y]. *)
Definition not_below (x y : A) : Prop := Py.lt (key x) (key y) = false.

(** Sorted by descending key: no element is below a later one. *)
Definition descending (l : list A) : Prop := StronglySorted not_below l.

Definition no_nan (l : list A) : Prop :=
  List.Forall (fun x => Py.is_nan (key x) = false) l.

Lemma insert_desc_perm (x : A) (l : list A) :
  Permutation (insert_desc key x l) (x :: l).
Proof.
  induction l as [|y l IH]; simpl.
  - apply Permutation_refl.
  - destruct (Py.lt (key x) (key y)).
    + apply Permutation_trans with (y :: x :: l).
      * now apply perm_skip.
      * apply perm_swap.
    + apply Permutation_refl.
Qed.

Lemma sort_desc_perm (l : list A) : Permutation (sort_desc key l) l.
Proof.
  induction l as [|x l IH]; simpl.
  - apply perm_nil.
  - apply Permutation_trans with (x :: sort_desc key l).
    + apply insert_desc_perm.
    + now apply perm_skip.
Qed.

Lemma sort_desc_length (l : list A) : length (sort_desc key l) = length l.
Proof. apply Permutation_length, sort_desc_perm. Qed.

Lemma sort_desc_In (x : A) (l : list A) : In x (sort_desc key l) <-> In x l.
Proof.
  split; apply Permutation_in;
    [|apply Permutation_sym]; apply sort_desc_perm.
Qed.

Lemma insert_desc_descending (x : A) (l : list A) :
  no_nan l -> descending l -> descending (insert_desc key x l).
Proof.
  unfold descending, no_nan.
  induction l as [|y l IH]; intros Hnan Hs; simpl.
  - repeat constructor.
  - apply StronglySorted_inv in Hs. destruct Hs as [Hs Hy].
    apply List.Forall_cons_iff in Hnan. destruct Hnan as [Hny Hnan].
    destruct (Py.lt (key x) (key y)) eqn:E.
    + constructor; [now apply IH|].
      apply (Permutation_Forall (Permutation_sym (insert_desc_perm x l))).
      constructor; [now apply lt_asym | exact Hy].
    + constructor; [now constructor|].
      constructor; [exact E|].
      rewrite List.Forall_forall in Hy |- *. intros z Hz.
      unfold not_below in *. apply not_lt_trans with (key y); auto.
Qed.

Lemma no_nan_perm (l l' : list A) : Permutation l l' -> no_nan l -> no_nan l'.
Proof. intros Hp. apply Permutation_Forall, Hp. Qed.

Lemma sort_desc_descending (l : list A) :
  no_nan l -> descending (sort_desc key l).
Proof.
  intros Hnan. induction l as [|x l IH]; simpl.
  - constructor.
  - apply List.Forall_cons_iff in Hnan. destruct Hnan as [_ Hnan].
    apply insert_desc_descending; [|now apply IH].
    apply (no_nan_perm l); [|exact Hnan].
    apply Permutation_sym, sort_desc_perm.
Qed.

(** In a descending list every element of a prefix is not below any element
    after it. *)
Lemma descending_prefix (n : nat) (l : list A) (x y : A) :
  descending l -> In x (firstn n l) -> In y (skipn n l) -> not_below x y.
Proof.
  unfold descending. revert n.
  induction l as [|z l IH]; intros n Hs Hx Hy.
  - rewrite firstn_nil in Hx. contradiction.
  - apply StronglySorted_inv in Hs. destruct Hs as [Hs Hz].
    destruct n as [|n]; simpl in Hx, Hy; [contradiction|].
    destruct Hx as [<-|Hx].
    + rewrite List.Forall_forall in Hz. apply Hz.
      rewrite <- (firstn_skipn n l). apply in_or_app. now right.
    + now apply (IH n).
Qed.

End SortFacts.

Section Properties.

Context `{TP : ThirdParty}.

Implicit Types (app : App) (question thread_id : string).

(** ** Index lifecycle *)

Lemma reset_spec app :
  reset app =
    (Ok tt, mkApp (world app) (llm_service app) (memory_service app)
                  empty_pipeline).
Proof. reflexivity. Qed.

Lemma retrieve_not_ready question app :
  has_documents (retrieval_pipeline app) = false ->
  retrieve question app = (Raise not_ready, app).
Proof.
  intros H. unfold retrieve, bind, gets. simpl. rewrite H. reflexivity.
Qed.

(** C5. Whatever the pipeline held before, after [reset()] a [query(...)]
    (an alias of [retrieve(...)]) raises the "no documents loaded" error and
    changes nothing, and a second [reset()] leaves the state as the first
    one did. *)
Theorem reset_then_query_not_ready app question :
  let after := snd (reset app) in
  fst (reset app) = Ok tt /\
  query question after = (Raise not_ready, after) /\
  retrieve question after = (Raise not_ready, after) /\
  reset after = (Ok tt, after).
Proof.
  rewrite reset_spec. simpl. repeat split.
Qed.

(** ** Conversation threads *)

Definition thread_not_found (thread_id : string) : exn :=
  HTTPException 404 ("Thread " ++ thread_id ++ " not found").

Lemma get_messages_unknown thread_id app :
  conversations (memory_service app) !! thread_id = None ->
  get_messages thread_id None app = (Ok [], app).
Proof.
  intros H. unfold get_messages, bind, gets. simpl. rewrite H. reflexivity.
Qed.

Lemma thread_status_unknown thread_id app :
  conversations (memory_service app) !! thread_id = None ->
  get_thread_status thread_id app =
    (Ok (mkStatus thread_id 0 false []), app).
Proof.
  intros H. unfold get_thread_status, try_except, bind.
  rewrite (get_messages_unknown _ _ H). reflexivity.
Qed.

Lemma reset_thread_unknown thread_id app :
  conversations (memory_service app) !! thread_id = None ->
  reset_thread thread_id app = (Raise (thread_not_found thread_id), app).
Proof.
  intros H.
  unfold reset_thread, try_except, bind, thread_exists, gets, ret. simpl.
  rewrite H. reflexivity.
Qed.

Lemma reset_thread_forgets thread_id app r app' :
  reset_thread thread_id app = (Ok r, app') ->
  conversations (memory_service app') !! thread_id = None.
Proof.
  unfold reset_thread, try_except, bind, thread_exists, gets, ret,
    clear_thread, update_memory, modify. simpl.
  destruct (conversations (memory_service app) !! thread_id) eqn:E; simpl.
  - rewrite E. intros [= _ <-]. simpl. apply lookup_delete_eq.
  - discriminate.
Qed.

(** C10. For a thread id that holds no message, [get_thread_status] succeeds
    with message_count 0, has_history false and no messages, while
    [reset_thread] raises the 404 "not found" error; and after a successful
    [reset_thread(t)] a second [reset_thread(t)] raises that 404 error. *)
Theorem unknown_thread_status_and_reset thread_id app :
  (conversations (memory_service app) !! thread_id = None ->
   get_messages thread_id None app = (Ok [], app) /\
   get_thread_status thread_id app =
     (Ok (mkStatus thread_id 0 false []), app) /\
   reset_thread thread_id app = (Raise (thread_not_found thread_id), app)) /\
  (forall r app',
     reset_thread thread_id app = (Ok r, app') ->
     reset_thread thread_id app' = (Raise (thread_not_found thread_id), app')).
Proof.
  split.
  - intros H. auto using get_messages_unknown, thread_status_unknown,
      reset_thread_unknown.
  - intros r app' H. apply reset_thread_unknown.
    exact (reset_thread_forgets _ _ _ _ H).
Qed.

(** ** Rebuilding the index *)

(** The pipeline [rebuild] leaves behind when nothing raises. *)
Definition rebuilt (docs : list Document) (emb : Embeddings) (vs : FAISS)
    (kw : BM25Retriever) : RetrievalPipeline :=
  mkPipeline (Some vs) (Some kw)
    (Some (mkEnsemble (mkVectorRetriever vs "similarity" 6, kw)
                      (7 # 10, 3 # 10)%Q))
    docs (Some emb).

(** [rebuild] has no failure of its own: it completes exactly when the
    splitter and the three constructors do. *)
Lemma rebuild_ok_iff docs app app' :
  rebuild docs app = (Ok tt, app') <->
  exists splits w1 emb w2 vs w3 kw w4,
    split_documents docs (world app) = (Ok splits, w1) /\
    OpenAIEmbeddings_init w1 = (Ok emb, w2) /\
    FAISS_from_documents splits emb w2 = (Ok vs, w3) /\
    BM25_from_documents splits 6 w3 = (Ok kw, w4) /\
    app' = mkApp w4 (llm_service app) (memory_service app)
                 (rebuilt docs emb vs kw).
Proof.
  unfold rebuild, bind, ext, reset, update_pipeline, modify. simpl.
  split.
  - destruct (split_documents docs (world app)) as [[splits|e] w1] eqn:E1;
      simpl; [|discriminate].
    destruct (OpenAIEmbeddings_init w1) as [[emb|e] w2] eqn:E2; simpl;
      [|discriminate].
    destruct (FAISS_from_documents splits emb w2) as [[vs|e] w3] eqn:E3;
      simpl; [|discriminate].
    destruct (BM25_from_documents splits 6 w3) as [[kw|e] w4] eqn:E4; simpl;
      [|discriminate].
    intros [= <-]. exists splits, w1, emb, w2, vs, w3, kw, w4.
    repeat split; assumption.
  - intros (splits&w1&emb&w2&vs&w3&kw&w4&H1&H2&H3&H4&->).
    rewrite H1. simpl. rewrite H2. simpl. rewrite H3. simpl. rewrite H4.
    reflexivity.
Qed.

Lemma has_documents_rebuilt docs emb vs kw :
  has_documents (rebuilt docs emb vs kw) = negb (Nat.eqb (length docs) 0).
Proof. unfold has_documents. simpl. destruct docs; reflexivity. Qed.

(** [rebuild] raises only what the splitter or one of the three constructors
    raises, and then leaves a pipeline without documents. *)
Lemma rebuild_raise_inv docs app e app' :
  rebuild docs app = (Raise e, app') ->
  has_documents (retrieval_pipeline app') = false /\
  (split_documents docs (world app) = (Raise e, world app') \/
   exists splits w1,
     split_documents docs (world app) = (Ok splits, w1) /\
     (OpenAIEmbeddings_init w1 = (Raise e, world app') \/
      exists emb w2,
        OpenAIEmbeddings_init w1 = (Ok emb, w2) /\
        (FAISS_from_documents splits emb w2 = (Raise e, world app') \/
         exists vs w3,
           FAISS_from_documents splits emb w2 = (Ok vs, w3) /\
           BM25_from_documents splits 6 w3 = (Raise e, world app')))).
Proof.
  unfold rebuild, bind, ext, reset, update_pipeline, modify. simpl.
  destruct (split_documents docs (world app)) as [[splits|e1] w1] eqn:E1;
    simpl.
  2:{ intros [= <- <-]. split; [reflexivity|]. left. reflexivity. }
  destruct (OpenAIEmbeddings_init w1) as [[emb|e2] w2] eqn:E2; simpl.
  2:{ intros [= <- <-]. split; [reflexivity|]. right.
      exists splits, w1. split; [reflexivity|]. left. exact E2. }
  destruct (FAISS_from_documents splits emb w2) as [[vs|e3] w3] eqn:E3; simpl.
  2:{ intros [= <- <-]. split; [reflexivity|]. right.
      exists splits, w1. split; [reflexivity|]. right.
      exists emb, w2. split; [exact E2|]. left. exact E3. }
  destruct (BM25_from_documents splits 6 w3) as [[kw|e4] w4] eqn:E4; simpl.
  2:{ intros [= <- <-]. split; [reflexivity|]. right.
      exists splits, w1. split; [reflexivity|]. right.
      exists emb, w2. split; [exact E2|]. right.
      exists vs, w3. split; [exact E3|exact E4]. }
  discriminate.
Qed.

(** The claim as the specification words it: rebuilding over zero documents
    is valid. *)
Definition rebuild_of_nothing_is_valid app : Prop :=
  exists app', rebuild [] app = (Ok tt, app').

(** C4, as amended. In every state [has_documents()] is: the document list is
    not empty, and the dense store and the ensemble retriever are
    constructed. When [rebuild(D)] completes, the store, the keyword
    retriever and the ensemble are constructed and the pipeline holds [D], so
    [has_documents()] is true exactly when [D] is not empty. [rebuild] has no
    case of its own for zero documents: [rebuild([])] completes exactly when
    the splitter and the three constructors accept the empty list, and then
    leaves a constructed but empty index for which [has_documents()] is
    false; otherwise it raises what the splitter or the constructor raised,
    and [has_documents()] is false as well. *)
Theorem rebuild_has_documents_iff_nonempty docs app :
  (forall p : RetrievalPipeline,
     has_documents p = true <->
     pipeline_documents p <> [] /\
     is_some (vectorstore p) = true /\
     is_some (ensemble_retriever p) = true) /\
  (forall app',
     rebuild docs app = (Ok tt, app') ->
     let p := retrieval_pipeline app' in
     (has_documents p = true <-> docs <> []) /\
     pipeline_documents p = docs /\
     is_some (vectorstore p) = true /\
     is_some (keyword_retriever p) = true /\
     is_some (ensemble_retriever p) = true) /\
  (rebuild_of_nothing_is_valid app <->
   exists splits w1 emb w2 vs w3 kw w4,
     split_documents [] (world app) = (Ok splits, w1) /\
     OpenAIEmbeddings_init w1 = (Ok emb, w2) /\
     FAISS_from_documents splits emb w2 = (Ok vs, w3) /\
     BM25_from_documents splits 6 w3 = (Ok kw, w4)) /\
  (forall app',
     rebuild [] app = (Ok tt, app') ->
     exists emb vs kw,
       retrieval_pipeline app' = rebuilt [] emb vs kw /\
       has_documents (retrieval_pipeline app') = false) /\
  (forall e app',
     rebuild docs app = (Raise e, app') ->
     has_documents (retrieval_pipeline app') = false /\
     (split_documents docs (world app) = (Raise e, world app') \/
      exists splits w1,
        split_documents docs (world app) = (Ok splits, w1) /\
        (OpenAIEmbeddings_init w1 = (Raise e, world app') \/
         exists emb w2,
           OpenAIEmbeddings_init w1 = (Ok emb, w2) /\
           (FAISS_from_documents splits emb w2 = (Raise e, world app') \/
            exists vs w3,
              FAISS_from_documents splits emb w2 = (Ok vs, w3) /\
              BM25_from_documents splits 6 w3 = (Raise e, world app'))))).
Proof.
  split; [|split; [|split; [|split]]].
  - intros p. unfold has_documents.
    destruct (pipeline_documents p) as [|d l]; simpl.
    + split; [discriminate|]. intros [H _]. now elim H.
    + destruct (is_some (vectorstore p)), (is_some (ensemble_retriever p));
        simpl; split; try discriminate; try tauto.
      intros _. repeat split. discriminate.
  - intros app' H. apply rebuild_ok_iff in H.
    destruct H as (splits&w1&emb&w2&vs&w3&kw&w4&_&_&_&_&->). simpl.
    rewrite has_documents_rebuilt.
    repeat split; try reflexivity.
    + destruct docs; [discriminate | intros _; discriminate].
    + destruct docs; [intros H; now elim H | reflexivity].
  - unfold rebuild_of_nothing_is_valid. split.
    + intros (app' & H). apply rebuild_ok_iff in H.
      destruct H as (splits&w1&emb&w2&vs&w3&kw&w4&H1&H2&H3&H4&_).
      exists splits, w1, emb, w2, vs, w3, kw, w4. auto.
    + intros (splits&w1&emb&w2&vs&w3&kw&w4&H1&H2&H3&H4).
      eexists. apply rebuild_ok_iff.
      exists splits, w1, emb, w2, vs, w3, kw, w4. eauto.
  - intros app' H. apply rebuild_ok_iff in H.
    destruct H as (splits&w1&emb&w2&vs&w3&kw&w4&_&_&_&_&->).
    exists emb, vs, kw. split; reflexivity.
  - apply rebuild_raise_inv.
Qed.

(** ** What [retrieve] returns *)

(** The two ways a paragraph qualifies. *)
Definition shares_two_words (question paragraph : string) : Prop :=
  exists w1 w2,
    w1 <> w2 /\
    In w1 (Py.split_ws (Py.lower question)) /\
    In w1 (Py.split_ws (Py.lower paragraph)) /\
    In w2 (Py.split_ws (Py.lower question)) /\
    In w2 (Py.split_ws (Py.lower paragraph)).

Definition has_research_term (paragraph : string) : Prop :=
  exists term,
    In term research_terms /\ Py.contains term (Py.lower paragraph) = true.

(** The paragraphs of a chunk that qualify, in their order. *)
Definition kept_paragraphs (question : string) (doc : Document) : list string :=
  List.filter (relevant_paragraph question) (paragraphs_of (page_content doc)).

(** The entry a chunk contributes: none when no paragraph qualifies. *)
Definition snippet_of (question : string) (doc : Document) : list Doc :=
  match kept_paragraphs question doc with
  | [] => []
  | (_ :: _) as parts => [mkDoc (Py.join Py.nl2 parts) (source_of doc) Py.one]
  end.

(** The entry that stands in when every chunk was dropped. *)
Definition introduction_of (doc : Document) : Doc :=
  mkDoc (Py.prefix 1000 (page_content doc)) (source_of doc) Py.one.

Lemma size_gt_one_iff (X : gset string) :
  (1 < size X)%nat <-> exists x y, x <> y /\ x ∈ X /\ y ∈ X.
Proof.
  split.
  - intros H.
    destruct (size_pos_elem_of X) as [x Hx]; [lia|].
    assert (Hsub : ({[x]} : gset string) ⊆ X) by set_solver.
    pose proof (size_difference X {[x]} Hsub) as Hd.
    rewrite size_singleton in Hd.
    destruct (size_pos_elem_of (X ∖ {[x]})) as [y Hy]; [lia|].
    apply elem_of_difference in Hy. destruct Hy as [Hy Hyx].
    rewrite elem_of_singleton in Hyx.
    exists x, y. repeat split; [congruence | exact Hx | exact Hy].
  - intros (x & y & Hne & Hx & Hy).
    assert (Hsub : ({[x]} ∪ {[y]} : gset string) ⊆ X).
    { intros z Hz. apply elem_of_union in Hz.
      rewrite !elem_of_singleton in Hz. destruct Hz as [->| ->]; assumption. }
    apply subseteq_size in Hsub.
    rewrite size_union in Hsub.
    + rewrite !size_singleton in Hsub. lia.
    + intros z Hzx Hzy. rewrite elem_of_singleton in Hzx, Hzy. congruence.
Qed.

Lemma relevant_paragraph_iff question paragraph :
  relevant_paragraph question paragraph = true <->
  shares_two_words question paragraph \/ has_research_term paragraph.
Proof.
  unfold relevant_paragraph.
  rewrite orb_true_iff, Nat.ltb_lt, size_gt_one_iff, existsb_exists.
  unfold shares_two_words, has_research_term.
  split; (intros [(x & y & H)|H]; [left; exists x, y|right; exact H]).
  - rewrite !elem_of_intersection, !elem_of_list_to_set, !list_elem_of_In
      in H.
    tauto.
  - rewrite !elem_of_intersection, !elem_of_list_to_set, !list_elem_of_In.
    tauto.
Qed.

Lemma relevant_parts_loop_filter question paragraphs acc :
  relevant_parts_loop question paragraphs acc =
    (acc ++ List.filter (relevant_paragraph question) paragraphs)%list.
Proof.
  revert acc. induction paragraphs as [|p ps IH]; intros acc; simpl.
  - now rewrite List.app_nil_r.
  - destruct (relevant_paragraph question p); rewrite IH.
    + rewrite <- List.app_assoc. reflexivity.
    + reflexivity.
Qed.

Lemma retrieve_loop_flat_map question docs acc :
  retrieve_loop question docs acc =
    (acc ++ flat_map (snippet_of question) docs)%list.
Proof.
  revert acc. induction docs as [|doc rest IH]; intros acc; simpl.
  - now rewrite List.app_nil_r.
  - rewrite relevant_parts_loop_filter. simpl.
    unfold snippet_of, kept_paragraphs.
    destruct (List.filter _ _); rewrite IH.
    + reflexivity.
    + rewrite <- List.app_assoc. reflexivity.
Qed.

(** What [retrieve] answers for the documents the ensemble handed back. *)
Definition retrieved (question : string) (docs : list Document) : list Doc :=
  match flat_map (snippet_of question) docs with
  | (_ :: _) as snippets => snippets
  | [] =>
      match docs with
      | first :: _ => [introduction_of first]
      | [] => []
      end
  end.

Lemma retrieve_ready question app e :
  has_documents (retrieval_pipeline app) = true ->
  ensemble_retriever (retrieval_pipeline app) = Some e ->
  retrieve question app =
    match ensemble_ranking e question (world app) with
    | (Ok ranking, w') =>
        (Ok (retrieved question (map fst ranking)),
         mkApp w' (llm_service app) (memory_service app)
               (retrieval_pipeline app))
    | (Raise err, w') =>
        (Raise err,
         mkApp w' (llm_service app) (memory_service app)
               (retrieval_pipeline app))
    end.
Proof.
  intros Hdocs He. unfold retrieve, bind, gets. simpl.
  rewrite Hdocs, He. simpl. unfold ext, ensemble_invoke, bind.
  destruct (ensemble_ranking e question (world app)) as [[ranking|err] w'];
    simpl; [|reflexivity].
  rewrite retrieve_loop_flat_map. simpl. unfold retrieved.
  destruct (flat_map _ _); [|reflexivity].
  destruct (map fst ranking); reflexivity.
Qed.

Lemma retrieve_ok_inv question app result app' :
  retrieve question app = (Ok result, app') ->
  exists e ranking,
    has_documents (retrieval_pipeline app) = true /\
    ensemble_retriever (retrieval_pipeline app) = Some e /\
    ensemble_ranking e question (world app) = (Ok ranking, world app') /\
    result = retrieved question (map fst ranking).
Proof.
  intros H.
  destruct (has_documents (retrieval_pipeline app)) eqn:Hdocs.
  2:{ rewrite retrieve_not_ready in H by assumption. discriminate. }
  destruct (ensemble_retriever (retrieval_pipeline app)) as [e|] eqn:He.
  2:{ unfold has_documents in Hdocs. rewrite He in Hdocs.
      rewrite andb_false_r in Hdocs. discriminate. }
  rewrite (retrieve_ready _ _ e Hdocs He) in H.
  destruct (ensemble_ranking e question (world app)) as [[ranking|err] w']
    eqn:Hr; [|discriminate].
  injection H as <- <-. exists e, ranking. auto.
Qed.

Lemma retrieved_scores question docs :
  Forall (fun entry => score entry = Py.one) (retrieved question docs).
Proof.
  assert (Hs : Forall (fun entry => score entry = Py.one)
                      (flat_map (snippet_of question) docs)).
  { apply List.Forall_forall. intros entry Hin. apply in_flat_map in Hin.
    destruct Hin as (doc & _ & Hin). unfold snippet_of in Hin.
    destruct (kept_paragraphs question doc); [contradiction|].
    destruct Hin as [<-|[]]. reflexivity. }
  unfold retrieved. destruct (flat_map _ _) as [|s ss]; [|exact Hs].
  destruct docs; repeat constructor.
Qed.

Lemma retrieved_nonempty question docs :
  docs <> [] -> retrieved question docs <> [].
Proof.
  intros Hne. unfold retrieved.
  destruct (flat_map _ _); [|discriminate].
  destruct docs; [contradiction|discriminate].
Qed.

(** C9. When the ensemble retriever hands back the documents [docs],
    [retrieve] answers with one entry per chunk that has a qualifying
    paragraph, in order, holding the qualifying paragraphs of the chunk joined
    by blank lines; a paragraph qualifies when it shares two distinct words
    with the question or contains one of the nine research terms; chunks
    without such a paragraph contribute nothing; when no chunk contributes,
    the answer is the single entry with the first 1000 characters of the first
    document; so the answer is non-empty whenever [docs] is. *)
Theorem retrieve_filters_paragraphs question app e ranking w' :
  has_documents (retrieval_pipeline app) = true ->
  ensemble_retriever (retrieval_pipeline app) = Some e ->
  ensemble_ranking e question (world app) = (Ok ranking, w') ->
  let docs := map fst ranking in
  exists result,
    retrieve question app =
      (Ok result,
       mkApp w' (llm_service app) (memory_service app)
             (retrieval_pipeline app)) /\
    retrieve_loop question docs [] = flat_map (snippet_of question) docs /\
    (forall doc,
       kept_paragraphs question doc = [] -> snippet_of question doc = []) /\
    (forall doc,
       kept_paragraphs question doc <> [] ->
       snippet_of question doc =
         [mkDoc (Py.join Py.nl2 (kept_paragraphs question doc))
                (source_of doc) Py.one]) /\
    (forall doc paragraph,
       In paragraph (kept_paragraphs question doc) <->
       In paragraph (paragraphs_of (page_content doc)) /\
       (shares_two_words question paragraph \/ has_research_term paragraph)) /\
    length research_terms = 9%nat /\
    (flat_map (snippet_of question) docs <> [] ->
     result = flat_map (snippet_of question) docs) /\
    (flat_map (snippet_of question) docs = [] ->
     forall first rest, docs = first :: rest ->
     result = [mkDoc (Py.prefix 1000 (page_content first))
                     (source_of first) Py.one]) /\
    (docs <> [] -> result <> []).
Proof.
  intros Hdocs He Hr docs.
  exists (retrieved question docs).
  split; [|split; [|split; [|split; [|split; [|split; [|split; [|split]]]]]]].
  - rewrite (retrieve_ready _ _ e Hdocs He), Hr. reflexivity.
  - apply (retrieve_loop_flat_map question docs []).
  - intros doc H. unfold snippet_of. now rewrite H.
  - intros doc H. unfold snippet_of.
    destruct (kept_paragraphs question doc); [contradiction|reflexivity].
  - intros doc paragraph. unfold kept_paragraphs.
    rewrite filter_In, relevant_paragraph_iff. reflexivity.
  - reflexivity.
  - intros H. unfold retrieved.
    destruct (flat_map _ _); [contradiction|reflexivity].
  - intros H first rest Hd. unfold retrieved. rewrite H, Hd. reflexivity.
  - apply retrieved_nonempty.
Qed.

(** ** The score of a retrieved entry *)

(** An entry carries the fused score when the ranking holds a document with
    the entry's source whose fused score is the entry's score. *)
Definition carries_fused_score (ranking : list (Document * Py.pyfloat))
    (entry : Doc) : Prop :=
  exists doc fused,
    In (doc, fused) ranking /\
    source entry = source_of doc /\
    score entry = fused.

(** C1, as amended. Every entry [retrieve] returns has the score 1.0,
    whatever fused score the ensemble retriever gave its chunk; the ensemble
    [rebuild] constructs blends the dense and the keyword retriever with
    weights 0.7 and 0.3. *)
Theorem retrieve_scores_are_one question app :
  (forall result app',
     retrieve question app = (Ok result, app') ->
     List.Forall (fun entry => score entry = Py.Fin 1) result) /\
  (forall docs app',
     rebuild docs app = (Ok tt, app') ->
     exists e,
       ensemble_retriever (retrieval_pipeline app') = Some e /\
       weights e = (7 # 10, 3 # 10)%Q).
Proof.
  split.
  - intros result app' H. apply retrieve_ok_inv in H.
    destruct H as (e & ranking & _ & _ & _ & ->).
    apply retrieved_scores.
  - intros docs app' H. apply rebuild_ok_iff in H.
    destruct H as (splits&w1&emb&w2&vs&w3&kw&w4&_&_&_&_&->).
    eexists. split; reflexivity.
Qed.

(** ** Selection *)

Definition above_half (doc : GradedDoc) : bool := Py.gt (grade doc) Py.half.

Lemma select_relevant_cases graded :
  select_relevant graded =
    if existsb above_half graded
    then List.filter above_half graded
    else firstn 2 graded.
Proof.
  unfold select_relevant. fold above_half.
  destruct (existsb above_half graded) eqn:E.
  - apply existsb_exists in E. destruct E as (d & Hin & Hd).
    assert (Hf : In d (List.filter above_half graded))
      by (apply filter_In; auto).
    destruct (List.filter above_half graded); [contradiction|reflexivity].
  - destruct (List.filter above_half graded) as [|d l] eqn:F; [reflexivity|].
    assert (Hf : In d (List.filter above_half graded))
      by (rewrite F; now left).
    apply filter_In in Hf. destruct Hf as [Hin Hd].
    assert (existsb above_half graded = true)
      by (apply existsb_exists; eauto).
    congruence.
Qed.

(** The claim as the specification words it, for a list without a chunk
    graded above 0.5: no chunk left out is graded higher than a chunk
    selected. *)
Definition selects_top_two (graded : list GradedDoc) : Prop :=
  forall kept dropped,
    In kept (select_relevant graded) ->
    In dropped graded -> ~ In dropped (select_relevant graded) ->
    Py.lt (grade kept) (grade dropped) = false.

(** C2, as amended. The selection of [generate_answer] keeps exactly the
    chunks graded above 0.5, in their order; when no chunk is graded above
    0.5 it keeps the first two chunks of the list as it stands (the whole
    list when it is shorter). These are the two best graded when the list is
    sorted by descending grade, not for every list. Grades 0.9, 0.3, 0.1
    select the first chunk alone; grades 0.3, 0.2 select both chunks. *)
Theorem select_relevant_threshold_or_top2 graded :
  ((exists doc, In doc graded /\ Py.gt (grade doc) Py.half = true) ->
   select_relevant graded =
     List.filter (fun doc => Py.gt (grade doc) Py.half) graded /\
   forall doc,
     In doc (select_relevant graded) <->
     In doc graded /\ Py.gt (grade doc) Py.half = true) /\
  ((forall doc, In doc graded -> Py.gt (grade doc) Py.half = false) ->
   select_relevant graded = firstn 2 graded /\
   length (select_relevant graded) = Nat.min 2 (length graded) /\
   (descending grade graded ->
    forall kept dropped,
      In kept (select_relevant graded) -> In dropped (skipn 2 graded) ->
      Py.lt (grade kept) (grade dropped) = false)) /\
  (forall a b c,
     grade a = Py.Fin (9 # 10) -> grade b = Py.Fin (3 # 10) ->
     grade c = Py.Fin (1 # 10) ->
     select_relevant [a; b; c] = [a]) /\
  (forall a b,
     grade a = Py.Fin (3 # 10) -> grade b = Py.Fin (2 # 10) ->
     select_relevant [a; b] = [a; b]).
Proof.
  split; [|split; [|split]].
  - intros (d & Hin & Hd).
    assert (E : existsb above_half graded = true)
      by (apply existsb_exists; eauto).
    rewrite select_relevant_cases, E. split; [reflexivity|].
    intros doc. apply filter_In.
  - intros Hnone.
    assert (E : existsb above_half graded = false).
    { destruct (existsb above_half graded) eqn:E; [|reflexivity].
      apply existsb_exists in E. destruct E as (d & Hin & Hd).
      unfold above_half in Hd. rewrite (Hnone d Hin) in Hd. discriminate. }
    rewrite select_relevant_cases, E.
    split; [reflexivity|]. split; [apply length_firstn|].
    intros Hsorted kept dropped Hk Hd.
    exact (descending_prefix grade 2 graded kept dropped Hsorted Hk Hd).
  - intros a b c Ha Hb Hc. unfold select_relevant. simpl.
    rewrite Ha, Hb, Hc. reflexivity.
  - intros a b Ha Hb. unfold select_relevant. simpl.
    rewrite Ha, Hb. reflexivity.
Qed.

(** ** Grading *)

Definition grading_config : option Config :=
  Some [("temperature", CfgFloat (1 # 10))].

(** The texts the Oracle answers to the grading prompts of [docs], asked one
    after the other. *)
Fixpoint oracle_grading (question : string) (docs : list Doc)
  : M (list string) :=
  match docs with
  | [] => ret []
  | doc :: rest =>
      response <- invoke (grade_prompt question (content doc))
                         grading_config ;;
      responses <- oracle_grading question rest ;;
      ret (response :: responses)
  end.

(** The graded entry of a document whose prompt was answered [response]. *)
Definition graded_entry (doc : Doc) (response : string) : GradedDoc :=
  mkGraded (content doc) (source doc) (grade_of doc response)
           (Some (score doc)) None.

Definition graded_entries (docs : list Doc) (responses : list string)
  : list GradedDoc :=
  map (fun p => graded_entry (fst p) (snd p)) (combine docs responses).

(** The entry the handler of [grade_documents] writes. *)
Definition ungraded_entry (doc : Doc) : GradedDoc :=
  mkGraded (content doc) (source doc) (score doc) None (Some (score doc)).

Lemma grade_loop_oracle question docs acc app :
  grade_loop question docs acc app =
    match oracle_grading question docs app with
    | (Ok responses, app') =>
        (Ok (acc ++ graded_entries docs responses)%list, app')
    | (Raise e, app') => (Raise e, app')
    end.
Proof.
  revert acc app. induction docs as [|doc rest IH]; intros acc app; simpl.
  - unfold ret, graded_entries. simpl. now rewrite List.app_nil_r.
  - cbv [bind]. fold grading_config.
    destruct (invoke _ grading_config app) as [[response|e] app1];
      [|reflexivity].
    rewrite IH.
    destruct (oracle_grading question rest app1) as [[responses|e] app2];
      [|reflexivity].
    unfold ret, graded_entries. simpl.
    rewrite <- List.app_assoc. reflexivity.
Qed.

Lemma oracle_grading_length question docs app responses app' :
  oracle_grading question docs app = (Ok responses, app') ->
  length responses = length docs.
Proof.
  revert app responses app'.
  induction docs as [|doc rest IH]; intros app responses app'; simpl.
  - intros [= <- _]. reflexivity.
  - cbv [bind].
    destruct (invoke _ grading_config app) as [[response|e] app1];
      [|discriminate].
    destruct (oracle_grading question rest app1) as [[rs|e] app2] eqn:E;
      [|discriminate].
    intros [= <- _]. simpl. f_equal. exact (IH _ _ _ E).
Qed.

Lemma grade_documents_oracle state app :
  grade_documents state app =
    match oracle_grading (grading_question state) (documents state) app with
    | (Ok responses, app') =>
        (Ok (with_graded state
               (sort_desc grade (graded_entries (documents state) responses))),
         app')
    | (Raise e, app') =>
        (Ok (with_graded state (map ungraded_entry (documents state))), app')
    end.
Proof.
  unfold grade_documents, try_except, bind.
  rewrite grade_loop_oracle.
  destruct (oracle_grading _ _ app) as [[responses|e] app']; reflexivity.
Qed.





(** ** The range of a grade *)

(** [0 <= x <= 1] *)
Definition in_unit_interval (x : Py.pyfloat) : Prop :=
  match x with
  | Py.Fin q => (0 <= q)%Q /\ (q <= 1)%Q
  | _ => False
  end.

(** The response either does not parse or parses to a number of [0,1]. *)
Definition graded_within_unit (response : string) : Prop :=
  forall g, Py.float_of_str (Py.strip response) = Some g -> in_unit_interval g.

Lemma grade_of_cases doc response :
  (Py.float_of_str (Py.strip response) = None /\
   grade_of doc response = score doc) \/
  Py.float_of_str (Py.strip response) = Some (grade_of doc response).
Proof.
  unfold grade_of. destruct (Py.float_of_str (Py.strip response)); auto.
Qed.

Lemma select_relevant_incl graded doc :
  In doc (select_relevant graded) -> In doc graded.
Proof.
  rewrite select_relevant_cases.
  destruct (existsb above_half graded).
  - intros H. apply filter_In in H. tauto.
  - rewrite <- (firstn_skipn 2 graded) at 2. intros H.
    apply in_or_app. now left.
Qed.

(** C8, as amended. The grade of a graded document is the number parsed from
    the Oracle's answer, or the chunk's retrieval score when the answer does
    not parse; nothing clamps it. So the grades, and the relevance scores of
    the references built from the selected chunks, lie in [0,1] whenever the
    retrieval scores do and every answer that parses gives a number of
    [0,1]. *)
Theorem grades_in_unit_when_answers_are state app state' app' :
  grade_documents state app = (Ok state', app') ->
  List.Forall (fun doc => in_unit_interval (score doc)) (documents state) ->
  (forall responses app1,
     oracle_grading (grading_question state) (documents state) app
       = (Ok responses, app1) ->
     List.Forall graded_within_unit responses) ->
  exists graded,
    graded_docs state' = Some graded /\
    List.Forall (fun g => in_unit_interval (grade g)) graded /\
    List.Forall (fun r => in_unit_interval (relevance_score r))
                (graded_references (select_relevant graded)).
Proof.
  intros H Hscores Hresp. rewrite grade_documents_oracle in H.
  assert (Hg : exists graded,
             graded_docs state' = Some graded /\
             List.Forall (fun g => in_unit_interval (grade g)) graded).
  { destruct (oracle_grading _ _ app) as [[responses|e] app1] eqn:E;
      injection H as <- <-; eexists; (split; [reflexivity|]).
    - specialize (Hresp _ _ eq_refl).
      apply (Permutation_Forall
               (Permutation_sym (sort_desc_perm grade _))).
      apply List.Forall_forall. intros g Hin.
      apply in_map_iff in Hin. destruct Hin as ([doc r] & <- & Hin).
      simpl.
      rewrite List.Forall_forall in Hscores, Hresp.
      destruct (grade_of_cases doc r) as [[_ ->]|Hp].
      + apply Hscores. eapply in_combine_l, Hin.
      + apply (Hresp r); [eapply in_combine_r, Hin | exact Hp].
    - apply List.Forall_forall. intros g Hin.
      apply in_map_iff in Hin. destruct Hin as (doc & <- & Hin). simpl.
      rewrite List.Forall_forall in Hscores. now apply Hscores. }
  destruct Hg as (graded & Hgd & Hall).
  exists graded. split; [exact Hgd|]. split; [exact Hall|].
  apply List.Forall_forall. intros r Hin.
  apply in_map_iff in Hin. destruct Hin as (g & <- & Hin). simpl.
  rewrite List.Forall_forall in Hall.
  apply Hall, select_relevant_incl, Hin.
Qed.

(** ** The Oracle *)

Definition with_world app (w : World) : App :=
  mkApp w (llm_service app) (memory_service app) (retrieval_pipeline app).

(** The messages [invoke] sends for a prompt. *)
Definition request_messages (prompt : string) : list ChatMessage :=
  [SystemMessage system_prompt; UserMessage prompt].

(** The one call [invoke] makes once a model is chosen. *)
Definition single_call (model : ChatModel) (prompt : string)
    (config : option Config) app (w : World) : result string * App :=
  let '(r, w') := chat_invoke model (request_messages prompt)
                              (default [] config) w in
  (r, with_world app w').

Lemma invoke_after_probe prompt config app primary backup :
  _primary_llm (llm_service app) = Some primary ->
  _backup_llm (llm_service app) = Some backup ->
  invoke prompt config app =
    match chat_invoke primary probe_messages [] (world app) with
    | (Ok _, w1) => single_call primary prompt config app w1
    | (Raise _, w1) => single_call backup prompt config app w1
    end.
Proof.
  intros Hp Hb. destruct app as [w [pl bl] m p]. simpl in Hp, Hb. subst.
  unfold single_call, with_world, request_messages.
  cbv [invoke llm try_except bind gets ret raise ext llm_service world
       memory_service retrieval_pipeline _primary_llm _backup_llm
       is_some negb andb].
  destruct (chat_invoke primary probe_messages [] w) as [[pong|e] w1].
  - destruct (chat_invoke primary _ _ w1) as [[r|e] w2]; reflexivity.
  - destruct (chat_invoke backup _ _ w1) as [[r|e'] w2]; reflexivity.
Qed.

(** The claim as the specification words it: [invoke] raises exactly when
    neither back-end can serve the request. *)
Definition raises_iff_no_backend_serves (prompt : string)
    (config : option Config) app : Prop :=
  is_ok (fst (invoke prompt config app)) = false <->
  forall model,
    is_ok (fst (chat_invoke model (request_messages prompt)
                            (default [] config) (world app))) = false.

(** What [invoke] does with both back-ends constructed: it first probes the
    primary with a test message; when the probe is answered the request goes
    to the primary, otherwise to the backup. The request is sent once, and
    [invoke] returns what that call returns and raises what it raises. *)
Theorem invoke_probes_then_calls_once prompt config app primary backup :
  _primary_llm (llm_service app) = Some primary ->
  _backup_llm (llm_service app) = Some backup ->
  (forall pong w1,
     chat_invoke primary probe_messages [] (world app) = (Ok pong, w1) ->
     invoke prompt config app = single_call primary prompt config app w1) /\
  (forall e w1,
     chat_invoke primary probe_messages [] (world app) = (Raise e, w1) ->
     invoke prompt config app = single_call backup prompt config app w1) /\
  ((forall model w,
      is_ok (fst (chat_invoke model (request_messages prompt)
                              (default [] config) w)) = false) ->
   is_ok (fst (invoke prompt config app)) = false).
Proof.
  intros Hp Hb. rewrite (invoke_after_probe _ _ _ _ _ Hp Hb).
  split; [|split].
  - intros pong w1 ->. reflexivity.
  - intros e w1 ->. reflexivity.
  - intros Hdown.
    destruct (chat_invoke primary probe_messages [] (world app))
      as [[pong|e] w1]; unfold single_call.
    + specialize (Hdown primary w1).
      destruct (chat_invoke primary _ _ w1) as [r w2]. exact Hdown.
    + specialize (Hdown backup w1).
      destruct (chat_invoke backup _ _ w1) as [r w2]. exact Hdown.
Qed.

(** ** Degrading to the single-shot fallback *)

(** The graph state the vectorstore branch starts from. *)
Definition initial_state (question : string) (retrieved_docs : list Doc)
    (thread_id : string) : QueryState :=
  mkState question
          (map (fun doc => mkDoc (content doc) (source doc) (score doc))
               retrieved_docs)
          None None None thread_id None.

Definition fallback_config : option Config :=
  Some [("temperature", CfgFloat (2 # 10))].

(** The two appends to the thread after an answer. *)
Definition remember (question answer thread_id : string) : M unit :=
  add_message thread_id (HumanMessage question) ;;;
  add_message thread_id (AIMessage answer).

Lemma rewrite_question_total state app :
  exists state' app', rewrite_question state app = (Ok state', app').
Proof.
  unfold rewrite_question, try_except, bind.
  destruct (invoke _ _ app) as [[r|e] app1]; eexists _, _; reflexivity.
Qed.

Lemma grade_documents_total state app :
  exists state' app', grade_documents state app = (Ok state', app').
Proof.
  rewrite grade_documents_oracle.
  destruct (oracle_grading _ _ app) as [[r|e] app1]; eexists _, _;
    reflexivity.
Qed.

(** Of the three stages only the synthesis can make the graph run raise. *)
Lemma process_state_raise_inv state app e app' :
  process_state state app = (Raise e, app') ->
  exists state1 app1 state2 app2,
    rewrite_question state app = (Ok state1, app1) /\
    grade_documents state1 app1 = (Ok state2, app2) /\
    generate_answer state2 app2 = (Raise e, app').
Proof.
  unfold process_state, try_except. cbv [bind].
  destruct (rewrite_question_total state app) as (s1 & a1 & E1).
  destruct (grade_documents_total s1 a1) as (s2 & a2 & E2).
  rewrite E1, E2.
  destruct (generate_answer s2 a2) as [[s3|e3] a3] eqn:E.
  - discriminate.
  - intros [= <- <-]. exists s1, a1, s2, a2. auto.
Qed.

Lemma handle_research_fallback_spec question docs thread_id app :
  handle_research_fallback question docs thread_id app =
    match invoke (fallback_prompt question docs) fallback_config app with
    | (Ok answer, app1) =>
        (Ok (mkResponse answer (fallback_references docs) (Some thread_id)),
         snd (remember question answer thread_id app1))
    | (Raise e, app1) => (Raise e, app1)
    end.
Proof.
  unfold handle_research_fallback, try_except. cbv [bind].
  fold fallback_config.
  destruct (invoke _ fallback_config app) as [[answer|e] app1]; reflexivity.
Qed.

Lemma answer_with_graph_raise question retrieved_docs state thread_id app e app1 :
  process_state state app = (Raise e, app1) ->
  answer_with_graph question retrieved_docs state thread_id app =
    handle_research_fallback question retrieved_docs thread_id app1.
Proof.
  intros H. unfold answer_with_graph, try_except. cbv [bind].
  rewrite H. reflexivity.
Qed.

Lemma query_vectorstore_graph question thread_id app retrieved_docs app1 :
  has_documents (retrieval_pipeline app) = true ->
  retrieve question app = (Ok retrieved_docs, app1) ->
  retrieved_docs <> [] ->
  query_vectorstore question thread_id app =
    match answer_with_graph question retrieved_docs
            (initial_state question retrieved_docs thread_id) thread_id app1
    with
    | (Ok response, app2) => (Ok response, app2)
    | (Raise e, app2) => (Raise (HTTPException 400 (str_exn e)), app2)
    end.
Proof.
  intros Hdocs Hr Hne. unfold query_vectorstore, try_except.
  cbv [bind gets]. rewrite Hdocs. simpl. rewrite Hr.
  destruct retrieved_docs as [|d ds]; [contradiction|]. reflexivity.
Qed.

Lemma router_query_vectorstore request thread_id app w0 :
  req_thread_id request = Some thread_id ->
  thread_id <> "" ->
  router_chain (req_question request) (world app) = (Ok VECTORSTORE, w0) ->
  router_query request app =
    match query_vectorstore (req_question request) thread_id
            (with_world app w0)
    with
    | (Ok response, app1) => (Ok response, app1)
    | (Raise e, app1) => (Raise (HTTPException 400 (str_exn e)), app1)
    end.
Proof.
  intros Ht Hne Hroute. unfold router_query, try_except.
  cbv [bind]. rewrite Ht.
  destruct (String.eqb_spec thread_id "") as [->|_]; [contradiction|].
  unfold ext, ret. rewrite Hroute. reflexivity.
Qed.

End Properties.

(** * The properties on the concrete world *)

Module Examples.

Import Demo.

(** C1: on the loaded corpus the survey comes back with score 1.0 while the
    ensemble fused it at 1/62, and no document of the ranking has the fused
    score 1.0. *)
Lemma retrieve_score_is_not_fused :
  retrieve (TP := tp) question loaded = (Ok [survey_entry], loaded) /\
  (exists e,
     ensemble_retriever (retrieval_pipeline loaded) = Some e /\
     ensemble_ranking (ThirdParty := tp) e question tt
       = (Ok (ranking question), tt)) /\
  In (survey_paper, Py.Fin (1 # 62)) (ranking question) /\
  ~ List.Forall (carries_fused_score (ranking question)) [survey_entry].
Proof.
  split; [vm_compute; reflexivity|].
  split; [eexists; split; reflexivity|].
  split; [right; left; reflexivity|].
  intros H. apply List.Forall_inv in H.
  destruct H as (doc & fused & Hin & _ & Hscore).
  simpl in Hin, Hscore.
  destruct Hin as [E|[E|[E|[]]]]; injection E as _ <-; discriminate Hscore.
Qed.

Lemma retrieve_scores_are_one_witness :
  retrieve (TP := tp) question loaded = (Ok [survey_entry], loaded) /\
  List.Forall (fun entry => score entry = Py.Fin 1) [survey_entry].
Proof.
  assert (H : retrieve (TP := tp) question loaded = (Ok [survey_entry], loaded))
    by (vm_compute; reflexivity).
  split; [exact H|].
  exact (proj1 (retrieve_scores_are_one (TP := tp) question loaded) _ _ H).
Defined.

Definition mediocre : list GradedDoc :=
  [graded "a" "a.pdf" (Py.Fin (4 # 10));
   graded "b" "b.pdf" (Py.Fin (3 # 10));
   graded "c" "c.pdf" (Py.Fin (2 # 10))].

Lemma select_relevant_threshold_or_top2_witness :
  select_relevant [graded "a" "a.pdf" (Py.Fin (9 # 10));
                   graded "b" "b.pdf" (Py.Fin (3 # 10));
                   graded "c" "c.pdf" (Py.Fin (1 # 10))]
    = [graded "a" "a.pdf" (Py.Fin (9 # 10))] /\
  select_relevant mediocre = firstn 2 mediocre /\
  (forall kept,
     In kept (select_relevant mediocre) ->
     Py.lt (grade kept) (Py.Fin (2 # 10)) = false).
Proof.
  pose proof (select_relevant_threshold_or_top2 mediocre)
    as (_ & Hlow & H1 & _).
  assert (Hnone : forall doc,
             In doc mediocre -> Py.gt (grade doc) Py.half = false)
    by (intros doc [<-|[<-|[<-|[]]]]; reflexivity).
  destruct (Hlow Hnone) as (Hfirst & _ & Htop).
  assert (Hsorted : descending grade mediocre)
    by (repeat constructor).
  split; [apply H1; reflexivity|]. split; [exact Hfirst|].
  intros kept Hk.
  apply (Htop Hsorted kept (graded "c" "c.pdf" (Py.Fin (2 # 10))) Hk).
  left. reflexivity.
Defined.

Definition graded_example : list GradedDoc :=
  [graded "Nothing of note." "papers/note.pdf" Py.one;
   graded "Transformers use self-attention mechanisms."
          "papers/attention.pdf" (Py.Fin (9 # 10))].


(** C8: the Oracle answers " 5 " for the weather chunk, and 5 is its grade. *)
Lemma grade_exceeds_one :
  grade_documents (TP := tp) to_grade_weather app0
    = (Ok (with_graded to_grade_weather
             [graded "Tomorrow the weather stays mild." "papers/weather.pdf"
                     (Py.Fin 5)]),
       app0) /\
  ~ in_unit_interval
      (grade (graded "Tomorrow the weather stays mild." "papers/weather.pdf"
                     (Py.Fin 5))).
Proof.
  split; [vm_compute; reflexivity|].
  simpl. intros [_ H]. apply H. reflexivity.
Qed.

Lemma grades_in_unit_when_answers_are_witness :
  grade_documents (TP := tp) to_grade app0
    = (Ok (with_graded to_grade graded_example), app0) /\
  exists gs,
    graded_docs (with_graded to_grade graded_example) = Some gs /\
    List.Forall (fun g => in_unit_interval (grade g)) gs /\
    List.Forall (fun r => in_unit_interval (relevance_score r))
                (graded_references (select_relevant gs)).
Proof.
  assert (H : grade_documents (TP := tp) to_grade app0
              = (Ok (with_graded to_grade graded_example), app0))
    by (vm_compute; reflexivity).
  split; [exact H|].
  apply (grades_in_unit_when_answers_are (TP := tp) to_grade app0 _ _ H).
  - repeat constructor; discriminate.
  - intros responses app1 Hrun.
    assert (E : responses = ["0.9"; "I am not sure."]).
    { vm_compute in Hrun. now injection Hrun as <- _. }
    subst responses.
    repeat constructor; intros g Hg; vm_compute in Hg;
      [injection Hg as <-; split; discriminate | discriminate Hg].
Defined.

(** C6. [invoke] does not fall back once the primary has answered its probe:
    with both back-ends constructed, a primary that answers the probe and
    then fails on the request makes [invoke] raise the primary's error,
    although the backup serves that very request. So [invoke] can raise while
    a back-end can serve the request, against the fallback its docstring and
    the module's promise. *)
Lemma invoke_raises_though_backup_serves :
  invoke (TP := tp_probe_only) "What is attention?" None
         (fresh tp_probe_only tt)
    = (Raise (ExternalError "context length exceeded"),
       fresh tp_probe_only tt) /\
  chat_invoke (ThirdParty := tp_probe_only) ChatOpenAI
              (request_messages "What is attention?") [] tt
    = (Ok "served by the backup", tt) /\
  ~ raises_iff_no_backend_serves (TP := tp_probe_only) "What is attention?"
      None (fresh tp_probe_only tt).
Proof.
  split; [reflexivity|]. split; [reflexivity|].
  intros [H _]. specialize (H eq_refl ChatOpenAI). discriminate H.
Qed.

Lemma invoke_probes_then_calls_once_witness :
  invoke (TP := tp_probe_only) "What is attention?" None
         (fresh tp_probe_only tt)
    = single_call (TP := tp_probe_only) ChatTogether "What is attention?"
                  None (fresh tp_probe_only tt) tt.
Proof.
  destruct (invoke_probes_then_calls_once (TP := tp_probe_only)
              "What is attention?" None (fresh tp_probe_only tt)
              ChatTogether ChatOpenAI eq_refl eq_refl) as (Hprobe & _ & _).
  apply (Hprobe "pong" tt). reflexivity.
Defined.

Definition request : QueryRequest := mkRequest question (Some "t1").

Lemma unknown_thread_status_and_reset_witness :
  get_thread_status (TP := tp) "t1" app0
    = (Ok (mkStatus "t1" 0 false []), app0) /\
  reset_thread (TP := tp) "t1" app0 = (Raise (thread_not_found "t1"), app0) /\
  reset_thread (TP := tp) "t1" chatted
    = (Ok (mkReset "success" "Thread reset successfully" "t1"), app0) /\
  reset_thread (TP := tp) "t1" (snd (reset_thread (TP := tp) "t1" chatted))
    = (Raise (thread_not_found "t1"),
       snd (reset_thread (TP := tp) "t1" chatted)).
Proof.
  destruct (unknown_thread_status_and_reset (TP := tp) "t1" app0)
    as [Hunknown _].
  destruct (Hunknown eq_refl) as (_ & Hstatus & Hreset).
  destruct (unknown_thread_status_and_reset (TP := tp) "t1" chatted)
    as [_ Htwice].
  split; [exact Hstatus|]. split; [exact Hreset|].
  split; [vm_compute; reflexivity|].
  apply (Htwice (mkReset "success" "Thread reset successfully" "t1")).
  reflexivity.
Defined.

Lemma rebuild_has_documents_iff_nonempty_witness :
  rebuild (TP := tp) corpus app0 = (Ok tt, loaded) /\
  has_documents (retrieval_pipeline loaded) = true /\
  rebuild_of_nothing_is_valid (TP := tp) app0 /\
  has_documents (retrieval_pipeline (fresh tp tt)) = false.
Proof.
  assert (Hrun : rebuild (TP := tp) corpus app0 = (Ok tt, loaded))
    by (vm_compute; reflexivity).
  assert (Hnone : rebuild (TP := tp) [] app0
                  = (Ok tt, mkApp (TP := tp) tt both_llms (mkMemory ∅)
                                  (rebuilt (TP := tp) [] tt [] [])))
    by (vm_compute; reflexivity).
  destruct (rebuild_has_documents_iff_nonempty (TP := tp) corpus app0)
    as (Hdef & Hdone & _).
  destruct (Hdone loaded Hrun) as (Hiff & _).
  destruct (rebuild_has_documents_iff_nonempty (TP := tp) [] app0)
    as (_ & _ & Hvalid & _).
  split; [exact Hrun|]. split; [apply Hiff; discriminate|]. split.
  - apply Hvalid. exists [], tt, tt, tt, [], tt, [], tt.
    repeat split.
  - destruct (has_documents (retrieval_pipeline (fresh tp tt))) eqn:E;
      [|reflexivity].
    apply Hdef in E. destruct E as (E & _). now elim E.
Defined.

Lemma retrieve_filters_paragraphs_witness :
  exists result,
    retrieve (TP := tp) question loaded = (Ok result, loaded) /\
    result = [survey_entry] /\
    kept_paragraphs question survey_paper = ["We study attention in depth."] /\
    result <> [].
Proof.
  destruct (retrieve_filters_paragraphs (TP := tp) question loaded _
              (ranking question) tt eq_refl eq_refl eq_refl)
    as (result & Hret & _ & _ & _ & _ & _ & Hsome & _ & Hne).
  exists result. split; [exact Hret|].
  split; [|split].
  - rewrite Hsome; [vm_compute; reflexivity | vm_compute; discriminate].
  - vm_compute; reflexivity.
  - apply Hne. discriminate.
Defined.

End Examples.

(** * Further properties of the services *)

Section Memory.

Context `{TP : ThirdParty}.

Implicit Types (app : App) (thread_id : string).

(** The messages stored for a thread, none when the thread is unknown. *)
Definition stored app thread_id : list BaseMessage :=
  default [] (conversations (memory_service app) !! thread_id).

Lemma add_message_lookup thread_id message app t :
  conversations (memory_service (snd (add_message thread_id message app))) !! t
  = if decide (thread_id = t)
    then Some (stored app thread_id ++ [message])%list
    else conversations (memory_service app) !! t.
Proof.
  unfold add_message, update_memory, modify, stored. simpl.
  destruct (conversations (memory_service app) !! thread_id) as [l|] eqn:E;
    case_decide as Ht; subst.
  - rewrite lookup_alter_eq, E. reflexivity.
  - rewrite lookup_alter_ne by assumption. reflexivity.
  - rewrite lookup_alter_eq, lookup_insert_eq. reflexivity.
  - rewrite lookup_alter_ne, lookup_insert_ne by assumption. reflexivity.
Qed.

Lemma add_message_frame thread_id message app :
  fst (add_message thread_id message app) = Ok tt /\
  world (snd (add_message thread_id message app)) = world app /\
  llm_service (snd (add_message thread_id message app)) = llm_service app /\
  retrieval_pipeline (snd (add_message thread_id message app))
    = retrieval_pipeline app.
Proof. repeat split. Qed.

Lemma stored_add_message thread_id message app t :
  stored (snd (add_message thread_id message app)) t
  = if decide (thread_id = t)
    then (stored app thread_id ++ [message])%list
    else stored app t.
Proof.
  unfold stored at 1. rewrite add_message_lookup.
  case_decide; reflexivity.
Qed.

Lemma thread_exists_spec thread_id app :
  thread_exists thread_id app
  = (Ok (is_some (conversations (memory_service app) !! thread_id)), app).
Proof. reflexivity. Qed.

Lemma get_messages_stored thread_id app :
  get_messages thread_id None app = (Ok (stored app thread_id), app).
Proof. reflexivity. Qed.

(** X1. Appending a message to a thread never fails; afterwards the thread
    exists and reads back as its former messages followed by the new one,
    whether or not it existed before, and every other thread reads as
    before. *)
Theorem add_message_then_get thread_id message app :
  let app1 := snd (add_message thread_id message app) in
  fst (add_message thread_id message app) = Ok tt /\
  (forall old,
     get_messages thread_id None app = (Ok old, app) ->
     get_messages thread_id None app1 = (Ok (old ++ [message])%list, app1)) /\
  thread_exists thread_id app1 = (Ok true, app1) /\
  (forall other last_k,
     other <> thread_id ->
     fst (get_messages other last_k app1) = fst (get_messages other last_k app)
     /\ fst (thread_exists other app1) = fst (thread_exists other app)).
Proof.
  intros app1. split; [reflexivity|]. split; [|split].
  - intros old H. rewrite get_messages_stored in H. injection H as <-.
    rewrite get_messages_stored. unfold app1.
    rewrite stored_add_message. case_decide; [reflexivity|contradiction].
  - rewrite thread_exists_spec. unfold app1. rewrite add_message_lookup.
    case_decide; [reflexivity|contradiction].
  - intros other last_k Hne.
    assert (E : conversations (memory_service app1) !! other
                = conversations (memory_service app) !! other).
    { unfold app1. rewrite add_message_lookup.
      case_decide; [congruence|reflexivity]. }
    unfold get_messages, thread_exists, bind, gets, ret.
    cbn beta iota. rewrite E.
    split; [|reflexivity].
    destruct last_k as [k|]; [|reflexivity].
    destruct (k =? 0)%Z; reflexivity.
Qed.

Lemma slice_from_app {A} (start : Z) (l : list A) :
  exists dropped, l = (dropped ++ slice_from start l)%list.
Proof.
  unfold slice_from. destruct (start <? 0)%Z.
  - exists (firstn (length l - Z.to_nat (- start)) l).
    symmetry. apply firstn_skipn.
  - exists (firstn (Z.to_nat start) l). symmetry. apply firstn_skipn.
Qed.

(** X2. With [last_k = k > 0], [get_messages] returns the last [min(k, n)]
    messages of the thread, in order; [last_k = 0] returns them all, as no
    [last_k] does; a negative [last_k = -j] returns the thread without its
    first [j] messages. *)
Theorem get_messages_last_k thread_id (k : Z) app :
  let all := stored app thread_id in
  ((0 < k)%Z ->
   exists dropped kept,
     all = (dropped ++ kept)%list /\
     length kept = Nat.min (Z.to_nat k) (length all) /\
     get_messages thread_id (Some k) app = (Ok kept, app)) /\
  get_messages thread_id (Some 0%Z) app = (Ok all, app) /\
  get_messages thread_id None app = (Ok all, app) /\
  ((k < 0)%Z ->
   get_messages thread_id (Some k) app
     = (Ok (skipn (Z.to_nat (- k)) all), app)).
Proof.
  intros all. split; [|split; [|split]].
  - intros Hk.
    exists (firstn (length all - Z.to_nat k) all),
           (skipn (length all - Z.to_nat k) all).
    split; [symmetry; apply firstn_skipn|]. split.
    + rewrite length_skipn. lia.
    + unfold get_messages, bind, gets, ret. cbn beta iota.
      fold (stored app thread_id). fold all.
      destruct (Z.eqb_spec k 0) as [->|_]; [lia|].
      unfold slice_from.
      destruct (Z.ltb_spec (- k) 0) as [_|Hge]; [|lia].
      rewrite Z.opp_involutive. reflexivity.
  - reflexivity.
  - reflexivity.
  - intros Hk. unfold get_messages, bind, gets, ret. cbn beta iota.
    fold (stored app thread_id). fold all.
    destruct (Z.eqb_spec k 0) as [->|_]; [lia|].
    unfold slice_from.
    destruct (Z.ltb_spec (- k) 0) as [Hlt|_]; [lia|]. reflexivity.
Qed.

Lemma clear_thread_forgets_only_that_thread_aux thread_id app :
  stored (snd (clear_thread thread_id app)) thread_id = [] /\
  forall other,
    other <> thread_id ->
    stored (snd (clear_thread thread_id app)) other = stored app other.
Proof.
  assert (E : forall t,
             conversations (memory_service (snd (clear_thread thread_id app)))
               !! t
             = if decide (thread_id = t) then None
               else conversations (memory_service app) !! t).
  { intros t. unfold clear_thread, update_memory, modify. simpl.
    destruct (conversations (memory_service app) !! thread_id) eqn:F; simpl;
      case_decide as Ht; subst.
    - apply lookup_delete_eq.
    - now apply lookup_delete_ne.
    - exact F.
    - reflexivity. }
  split.
  - unfold stored. rewrite E. case_decide; [reflexivity|contradiction].
  - intros other Hne. unfold stored. rewrite E.
    case_decide; [congruence|reflexivity].
Qed.

(** X3. [clear_thread] never fails; afterwards the thread does not exist and
    reads as empty, every other thread is as before, and clearing a thread
    that does not exist changes nothing at all. *)
Theorem clear_thread_forgets_only_that_thread thread_id app :
  let app1 := snd (clear_thread thread_id app) in
  fst (clear_thread thread_id app) = Ok tt /\
  thread_exists thread_id app1 = (Ok false, app1) /\
  get_messages thread_id None app1 = (Ok [], app1) /\
  (forall other,
     other <> thread_id -> stored app1 other = stored app other) /\
  (fst (thread_exists thread_id app) = Ok false -> app1 = app).
Proof.
  intros app1.
  assert (E : forall t,
             conversations (memory_service app1) !! t
             = if decide (thread_id = t) then None
               else conversations (memory_service app) !! t).
  { intros t. unfold app1, clear_thread, update_memory, modify. simpl.
    destruct (conversations (memory_service app) !! thread_id) eqn:F; simpl;
      case_decide as Ht; subst.
    - apply lookup_delete_eq.
    - now apply lookup_delete_ne.
    - exact F.
    - reflexivity. }
  split; [reflexivity|]. split; [|split; [|split]].
  - unfold thread_exists, bind, gets, ret. cbn beta iota. rewrite E.
    case_decide; [reflexivity|contradiction].
  - rewrite get_messages_stored. unfold stored. rewrite E.
    case_decide; [reflexivity|contradiction].
  - intros other Hne. unfold stored. rewrite E.
    case_decide; [congruence|reflexivity].
  - unfold thread_exists, bind, gets, ret. cbn beta iota.
    unfold app1, clear_thread, update_memory, modify. simpl.
    destruct (conversations (memory_service app) !! thread_id); simpl.
    + discriminate.
    + intros _. destruct app. reflexivity.
Qed.

End Memory.

Section Oracle.

Context `{TP : ThirdParty}.

Implicit Types (app : App) (prompt : string) (config : option Config).

Definition no_llm : exn := RuntimeError "No LLM service available".

Lemma setup_llm_spec app :
  setup_llm app =
    (Ok tt,
     mkApp (snd (construct ChatOpenAI (snd (construct ChatTogether (world app)))))
           (mkLLM
              (if is_ok (fst (construct ChatTogether (world app)))
               then Some ChatTogether else None)
              (if is_ok (fst (construct ChatOpenAI
                                (snd (construct ChatTogether (world app)))))
               then Some ChatOpenAI else None))
           (memory_service app) (retrieval_pipeline app)).
Proof.
  destruct app as [w [pl bl] m p].
  cbv [setup_llm try_except bind ext update_llm modify world llm_service
       memory_service retrieval_pipeline _primary_llm _backup_llm].
  destruct (construct ChatTogether w) as [[[]|e1] w1]; simpl;
    destruct (construct ChatOpenAI w1) as [[[]|e2] w2]; reflexivity.
Qed.

(** X4. [setup_llm] never raises. Each chat client is constructed under its
    own handler: a handle is set exactly when its constructor succeeds,
    whatever happened to the other one and whatever handle was there before;
    conversations and the index are untouched. *)
Theorem setup_llm_sets_what_constructs app :
  exists app',
    setup_llm app = (Ok tt, app') /\
    (_primary_llm (llm_service app') = Some ChatTogether <->
     is_ok (fst (construct ChatTogether (world app))) = true) /\
    (_primary_llm (llm_service app') = None <->
     is_ok (fst (construct ChatTogether (world app))) = false) /\
    (_backup_llm (llm_service app') = Some ChatOpenAI <->
     is_ok (fst (construct ChatOpenAI
                   (snd (construct ChatTogether (world app))))) = true) /\
    (_backup_llm (llm_service app') = None <->
     is_ok (fst (construct ChatOpenAI
                   (snd (construct ChatTogether (world app))))) = false) /\
    memory_service app' = memory_service app /\
    retrieval_pipeline app' = retrieval_pipeline app.
Proof.
  eexists. split; [apply setup_llm_spec|]. simpl.
  destruct (is_ok (fst (construct ChatTogether (world app))));
    destruct (is_ok (fst (construct ChatOpenAI _)));
    repeat split; intros; try reflexivity; try discriminate.
Qed.

(** What [invoke] does from the choice of the model on. *)
Lemma invoke_with_handle prompt config app :
  is_some (_primary_llm (llm_service app))
  || is_some (_backup_llm (llm_service app)) = true ->
  invoke prompt config app =
    match _primary_llm (llm_service app) with
    | Some primary =>
        match chat_invoke primary probe_messages [] (world app) with
        | (Ok _, w1) => single_call primary prompt config app w1
        | (Raise _, w1) =>
            match _backup_llm (llm_service app) with
            | Some backup => single_call backup prompt config app w1
            | None => (Raise no_llm, with_world app w1)
            end
        end
    | None =>
        match _backup_llm (llm_service app) with
        | Some backup => single_call backup prompt config app (world app)
        | None => (Raise no_llm, app)
        end
    end.
Proof.
  destruct app as [w [pl bl] m p]. simpl. intros H.
  unfold single_call, with_world, request_messages.
  cbv [invoke llm try_except bind gets ret raise ext llm_service world
       memory_service retrieval_pipeline _primary_llm _backup_llm].
  destruct pl as [primary|], bl as [backup|]; try discriminate H; simpl.
  - destruct (chat_invoke primary probe_messages [] w) as [[pong|e] w1].
    + destruct (chat_invoke primary _ _ w1) as [[r|e] w2]; reflexivity.
    + destruct (chat_invoke backup _ _ w1) as [[r|e'] w2]; reflexivity.
  - destruct (chat_invoke primary probe_messages [] w) as [[pong|e] w1].
    + destruct (chat_invoke primary _ _ w1) as [[r|e] w2]; reflexivity.
    + reflexivity.
  - destruct (chat_invoke backup _ _ w) as [[r|e] w1]; reflexivity.
Qed.

(** X5. With only the backup constructed, [invoke] sends no probe: the
    request goes straight to the backup. With only the primary constructed,
    the request goes to the primary when the probe is answered; when the probe
    fails, [invoke] raises "No LLM service available", not the error of the
    probe, and the request is never sent. *)
Theorem invoke_with_one_backend prompt config app :
  (forall backup,
     _primary_llm (llm_service app) = None ->
     _backup_llm (llm_service app) = Some backup ->
     invoke prompt config app
       = single_call backup prompt config app (world app)) /\
  (forall primary,
     _primary_llm (llm_service app) = Some primary ->
     _backup_llm (llm_service app) = None ->
     (forall pong w1,
        chat_invoke primary probe_messages [] (world app) = (Ok pong, w1) ->
        invoke prompt config app = single_call primary prompt config app w1) /\
     (forall e w1,
        chat_invoke primary probe_messages [] (world app) = (Raise e, w1) ->
        invoke prompt config app = (Raise no_llm, with_world app w1))).
Proof.
  split.
  - intros backup Hp Hb. rewrite invoke_with_handle, Hp, Hb.
    + reflexivity.
    + rewrite Hb. apply orb_true_r.
  - intros primary Hp Hb.
    assert (H : invoke prompt config app = _)
      by (apply invoke_with_handle; rewrite Hp; reflexivity).
    rewrite Hp, Hb in H. rewrite H.
    split; intros x w1 ->; reflexivity.
Qed.

Definition has_handle (s : LLMService) : bool :=
  is_some (_primary_llm s) || is_some (_backup_llm s).

Lemma invoke_no_handle prompt config app :
  has_handle (llm_service app) = false ->
  let app1 := snd (setup_llm app) in
  invoke prompt config app =
    if has_handle (llm_service app1)
    then invoke prompt config app1
    else (Raise no_llm, app1).
Proof.
  intros Hnone app1.
  destruct (has_handle (llm_service app1)) eqn:E.
  - rewrite (invoke_with_handle prompt config app1 E).
    unfold app1 in *. rewrite setup_llm_spec in *. simpl in *.
    destruct app as [w [pl bl] m p]. unfold has_handle in Hnone.
    simpl in Hnone.
    destruct pl, bl; try discriminate Hnone.
    unfold single_call, with_world, request_messages.
    cbv [invoke llm try_except bind gets ret raise ext llm_service world
         memory_service retrieval_pipeline _primary_llm _backup_llm
         is_some negb andb setup_llm update_llm modify].
    unfold has_handle in E.
    destruct (construct ChatTogether w) as [[[]|e1] w1]; simpl;
      destruct (construct ChatOpenAI w1) as [[[]|e2] w2]; simpl in *;
      try discriminate E.
    + destruct (chat_invoke ChatTogether probe_messages [] w2)
        as [[pong|e] w3].
      * destruct (chat_invoke ChatTogether _ _ w3) as [[r|e] w4];
          reflexivity.
      * destruct (chat_invoke ChatOpenAI _ _ w3) as [[r|e'] w4];
          reflexivity.
    + destruct (chat_invoke ChatTogether probe_messages [] w2)
        as [[pong|e] w3].
      * destruct (chat_invoke ChatTogether _ _ w3) as [[r|e] w4];
          reflexivity.
      * reflexivity.
    + destruct (chat_invoke ChatOpenAI _ _ w2) as [[r|e] w3]; reflexivity.
    + reflexivity.
  - unfold app1 in *. rewrite setup_llm_spec in *. simpl in *.
    destruct app as [w [pl bl] m p]. unfold has_handle in Hnone, E.
    simpl in Hnone, E.
    destruct pl, bl; try discriminate Hnone.
    cbv [invoke llm try_except bind gets ret raise ext llm_service world
         memory_service retrieval_pipeline _primary_llm _backup_llm
         is_some negb andb setup_llm update_llm modify].
    simpl.
    destruct (construct ChatTogether w) as [[[]|e1] w1]; simpl in *;
      destruct (construct ChatOpenAI w1) as [[[]|e2] w2]; simpl in *;
      try discriminate E.
    reflexivity.
Qed.

(** X6. With no client constructed, [invoke] first runs [setup_llm] again.
    If that constructs a client the call goes on as from the state it leaves;
    if both constructors fail again, [invoke] raises "No LLM service
    available" without sending anything to a model. *)
Theorem invoke_sets_up_when_no_client prompt config app :
  has_handle (llm_service app) = false ->
  let app1 := snd (setup_llm app) in
  invoke prompt config app =
    if has_handle (llm_service app1)
    then invoke prompt config app1
    else (Raise no_llm, app1).
Proof. exact (invoke_no_handle prompt config app). Qed.

Lemma invoke_frame prompt config app :
  memory_service (snd (invoke prompt config app)) = memory_service app /\
  retrieval_pipeline (snd (invoke prompt config app))
    = retrieval_pipeline app /\
  (has_handle (llm_service app) = true ->
   llm_service (snd (invoke prompt config app)) = llm_service app).
Proof.
  assert (Hs : forall model a w,
             memory_service (snd (single_call model prompt config a w))
               = memory_service a /\
             retrieval_pipeline (snd (single_call model prompt config a w))
               = retrieval_pipeline a /\
             llm_service (snd (single_call model prompt config a w))
               = llm_service a).
  { intros model a w. unfold single_call.
    destruct (chat_invoke model _ _ w) as [r w']. repeat split. }
  assert (Hh : forall a,
             has_handle (llm_service a) = true ->
             memory_service (snd (invoke prompt config a)) = memory_service a
             /\ retrieval_pipeline (snd (invoke prompt config a))
                = retrieval_pipeline a
             /\ llm_service (snd (invoke prompt config a)) = llm_service a).
  { intros a H. rewrite (invoke_with_handle prompt config a H).
    destruct (_primary_llm (llm_service a)) as [primary|].
    - destruct (chat_invoke primary probe_messages [] (world a))
        as [[pong|e] w1]; [apply Hs|].
      destruct (_backup_llm (llm_service a)); [apply Hs|repeat split].
    - destruct (_backup_llm (llm_service a)); [apply Hs|repeat split]. }
  destruct (has_handle (llm_service app)) eqn:E.
  - destruct (Hh app E) as (H1 & H2 & H3). auto.
  - rewrite (invoke_no_handle prompt config app E).
    pose proof (setup_llm_spec app) as Hset.
    destruct (has_handle (llm_service (snd (setup_llm app)))) eqn:E1.
    + destruct (Hh _ E1) as (H1 & H2 & _). rewrite H1, H2, Hset.
      split; [reflexivity|]. split; [reflexivity|discriminate].
    + rewrite Hset. simpl. split; [reflexivity|].
      split; [reflexivity|discriminate].
Qed.

(** X7. [invoke] touches neither the conversations nor the index, whatever
    it returns; and when a client is constructed it leaves the handles as
    they are, so a primary that failed its probe is probed again by the next
    call. *)
Theorem invoke_keeps_services prompt config app :
  memory_service (snd (invoke prompt config app)) = memory_service app /\
  retrieval_pipeline (snd (invoke prompt config app))
    = retrieval_pipeline app /\
  (has_handle (llm_service app) = true ->
   llm_service (snd (invoke prompt config app)) = llm_service app).
Proof. exact (invoke_frame prompt config app). Qed.

End Oracle.

Section Graph.

Context `{TP : ThirdParty}.

Implicit Types (app : App) (state : QueryState).

Definition rewrite_config : option Config :=
  Some [("temperature", CfgFloat (3 # 10))].

Definition answer_config : option Config :=
  Some [("temperature", CfgFloat (2 # 10)); ("max_tokens", CfgInt 1000)].

(** The clean-up of the rewritten text: strip blanks, strip double quotes,
    strip blanks again. *)
Definition clean_rewrite (text : string) : string :=
  Py.strip (Py.strip_chars [Py.dquote] (Py.strip text)).

Lemma rewrite_question_spec state app :
  rewrite_question state app =
    match invoke (rewrite_prompt (question state)) rewrite_config app with
    | (Ok text, app') => (Ok (with_rewritten state (clean_rewrite text)), app')
    | (Raise _, app') => (Ok (with_rewritten state (question state)), app')
    end.
Proof.
  unfold rewrite_question, try_except. cbv [bind]. fold rewrite_config.
  destruct (invoke _ rewrite_config app) as [[text|e] app']; reflexivity.
Qed.

(** X8. [rewrite_question] never raises and changes nothing but the
    rewritten question: when the Oracle fails the rewritten question is the
    question as asked; and the question the grading stage then uses is never
    empty for a non-empty question, because an empty rewrite falls back to the
    question as asked. *)
Theorem rewrite_question_never_blocks state app :
  exists rewritten app',
    rewrite_question state app = (Ok (with_rewritten state rewritten), app') /\
    (is_ok (fst (invoke (rewrite_prompt (question state)) rewrite_config app))
       = false ->
     rewritten = question state) /\
    question (with_rewritten state rewritten) = question state /\
    documents (with_rewritten state rewritten) = documents state /\
    (question state <> "" ->
     grading_question (with_rewritten state rewritten) <> "").
Proof.
  rewrite rewrite_question_spec.
  destruct (invoke _ rewrite_config app) as [[text|e] app']; simpl;
    eexists _, _; (split; [reflexivity|]); (split; [|split; [|split]]);
    try reflexivity; try discriminate.
  - intros Hq. unfold grading_question. simpl.
    destruct (String.eqb_spec (clean_rewrite text) ""); congruence.
  - intros Hq. unfold grading_question. simpl.
    destruct (String.eqb_spec (question state) ""); congruence.
Qed.

Lemma generate_answer_ok_inv state app state' app' :
  generate_answer state app = (Ok state', app') ->
  exists graded text,
    graded_docs state = Some graded /\
    invoke (answer_prompt (question state)
                          (answer_context (select_relevant graded)))
           answer_config app = (Ok text, app') /\
    state' = mkState (question state) (documents state)
                     (rewritten_question state) (Some graded) (Some text)
                     (thread_id state) (Some (select_relevant graded)).
Proof.
  unfold generate_answer, try_except. cbv [bind]. fold answer_config.
  destruct (graded_docs state) as [graded|] eqn:G; [|discriminate].
  simpl.
  destruct (invoke _ answer_config app) as [[text|e] app1] eqn:E;
    [|discriminate].
  intros [= <- <-]. exists graded, text. auto.
Qed.

Lemma grade_documents_ok_inv state app state' app' :
  grade_documents state app = (Ok state', app') ->
  exists graded,
    state' = with_graded state graded /\
    length graded = length (documents state) /\
    forall g, In g graded ->
      exists doc, In doc (documents state) /\
        g_content g = content doc /\ g_source g = source doc.
Proof.
  rewrite grade_documents_oracle.
  destruct (oracle_grading _ _ app) as [[responses|e] app1] eqn:E;
    intros [= <- <-]; eexists; (split; [reflexivity|]); split.
  - pose proof (oracle_grading_length _ _ _ _ _ E) as Hlen.
    unfold graded_entries.
    rewrite sort_desc_length, length_map, length_combine. lia.
  - intros g Hin. apply sort_desc_In in Hin.
    apply in_map_iff in Hin. destruct Hin as ([doc r] & <- & Hin).
    exists doc. split; [eapply in_combine_l, Hin|]. split; reflexivity.
  - apply length_map.
  - intros g Hin. apply in_map_iff in Hin.
    destruct Hin as (doc & <- & Hin). exists doc. auto.
Qed.

Lemma select_relevant_nonempty graded :
  graded <> [] -> select_relevant graded <> [].
Proof.
  intros Hne. rewrite select_relevant_cases.
  destruct (existsb above_half graded) eqn:E.
  - apply existsb_exists in E. destruct E as (d & Hin & Hd).
    assert (Hf : In d (List.filter above_half graded))
      by (apply filter_In; auto).
    intros H. rewrite H in Hf. contradiction.
  - destruct graded as [|g [|g' l]]; [contradiction| |]; discriminate.
Qed.

Lemma process_state_ok_inv state app state' app' :
  process_state state app = (Ok state', app') ->
  question state' = question state /\
  documents state' = documents state /\
  thread_id state' = thread_id state /\
  exists graded text,
    graded_docs state' = Some graded /\
    length graded = length (documents state) /\
    answer state' = Some text /\
    relevant_docs state' = Some (select_relevant graded) /\
    (documents state <> [] -> select_relevant graded <> []) /\
    (forall g, In g (select_relevant graded) ->
       exists doc, In doc (documents state) /\
         g_content g = content doc /\ g_source g = source doc).
Proof.
  unfold process_state, try_except. cbv [bind].
  rewrite rewrite_question_spec.
  assert (Hr : exists r a1,
             match invoke (rewrite_prompt (question state)) rewrite_config app
             with
             | (Ok text, a) => (Ok (with_rewritten state (clean_rewrite text)), a)
             | (Raise _, a) => (Ok (with_rewritten state (question state)), a)
             end = (Ok (with_rewritten state r), a1)).
  { destruct (invoke _ rewrite_config app) as [[text|e] a]; eauto. }
  destruct Hr as (r & a1 & ->).
  destruct (grade_documents (with_rewritten state r) a1) as [[s2|e2] a2] eqn:E2.
  2:{ destruct (grade_documents_total (with_rewritten state r) a1)
        as (? & ? & H). congruence. }
  destruct (generate_answer s2 a2) as [[s3|e3] a3] eqn:E3; [|discriminate].
  intros [= <- <-].
  apply grade_documents_ok_inv in E2.
  destruct E2 as (graded & -> & Hlen & Hsrc).
  apply generate_answer_ok_inv in E3.
  destruct E3 as (graded' & text & Hg & _ & ->). simpl in Hg.
  injection Hg as <-. simpl in *.
  repeat split.
  exists graded, text. repeat split; try assumption.
  - intros Hdocs. apply select_relevant_nonempty.
    destruct graded; [|discriminate].
    destruct (documents state); [contradiction|discriminate].
  - intros g Hin. apply Hsrc, select_relevant_incl, Hin.
Qed.

(** X9. When the graph run succeeds, the state it returns still holds the
    question, the documents and the thread id it was given; it holds one
    graded entry per document, an answer, and the selected entries; every
    selected entry is the content and source of one of the documents; and the
    selection is non-empty whenever there was a document, so the answer is
    always drawn from some evidence. *)
Theorem process_state_result state app state' app' :
  process_state state app = (Ok state', app') ->
  question state' = question state /\
  documents state' = documents state /\
  thread_id state' = thread_id state /\
  exists graded text,
    graded_docs state' = Some graded /\
    length graded = length (documents state) /\
    answer state' = Some text /\
    relevant_docs state' = Some (select_relevant graded) /\
    (documents state <> [] -> select_relevant graded <> []) /\
    (forall g, In g (select_relevant graded) ->
       exists doc, In doc (documents state) /\
         g_content g = content doc /\ g_source g = source doc).
Proof. exact (process_state_ok_inv state app state' app'). Qed.

End Graph.

Section Index.

Context `{TP : ThirdParty}.

Implicit Types (app : App) (question : string).

(** X10. A [rebuild] that raises leaves no index behind: the former corpus
    is gone, [has_documents()] is false and [retrieve] raises the
    "no documents" error; conversations and chat handles are untouched. *)
Theorem failed_rebuild_leaves_no_index docs app e app' question :
  rebuild docs app = (Raise e, app') ->
  has_documents (retrieval_pipeline app') = false /\
  pipeline_documents (retrieval_pipeline app') = [] /\
  ensemble_retriever (retrieval_pipeline app') = None /\
  retrieve question app' = (Raise not_ready, app') /\
  memory_service app' = memory_service app /\
  llm_service app' = llm_service app.
Proof.
  intros H.
  assert (Hp : pipeline_documents (retrieval_pipeline app') = [] /\
               ensemble_retriever (retrieval_pipeline app') = None /\
               memory_service app' = memory_service app /\
               llm_service app' = llm_service app).
  { revert H.
    unfold rebuild, bind, ext, reset, update_pipeline, modify. simpl.
    destruct (split_documents docs (world app)) as [[splits|e0] w1]; simpl.
    2:{ intros [= <- <-]. repeat split. }
    destruct (OpenAIEmbeddings_init w1) as [[emb|e0] w2]; simpl.
    2:{ intros [= <- <-]. repeat split. }
    destruct (FAISS_from_documents splits emb w2) as [[vs|e0] w3]; simpl.
    2:{ intros [= <- <-]. repeat split. }
    destruct (BM25_from_documents splits 6 w3) as [[kw|e0] w4]; simpl.
    2:{ intros [= <- <-]. repeat split. }
    discriminate. }
  destruct Hp as (Hd & He & Hm & Hl).
  assert (Hn : has_documents (retrieval_pipeline app') = false)
    by (unfold has_documents; rewrite Hd; reflexivity).
  repeat split; try assumption.
  now apply retrieve_not_ready.
Qed.

(** X11. A [rebuild] that completes replaces the index: the pipeline holds
    exactly the documents given, and the state it leaves does not depend on
    what the pipeline held before; conversations and chat handles are
    untouched. *)
Theorem rebuild_replaces_index docs app app' :
  rebuild docs app = (Ok tt, app') ->
  pipeline_documents (retrieval_pipeline app') = docs /\
  memory_service app' = memory_service app /\
  llm_service app' = llm_service app /\
  forall before,
    rebuild docs (mkApp (world app) (llm_service app) (memory_service app)
                        before)
      = (Ok tt, app').
Proof.
  intros H. apply rebuild_ok_iff in H.
  destruct H as (splits&w1&emb&w2&vs&w3&kw&w4&H1&H2&H3&H4&->).
  repeat split. intros before. apply rebuild_ok_iff.
  exists splits, w1, emb, w2, vs, w3, kw, w4. auto.
Qed.

Lemma snippet_of_length question doc :
  (length (snippet_of question doc) <= 1)%nat.
Proof.
  unfold snippet_of. destruct (kept_paragraphs question doc); simpl; lia.
Qed.

Lemma flat_map_snippets_length question docs :
  (length (flat_map (snippet_of question) docs) <= length docs)%nat.
Proof.
  induction docs as [|doc docs IH]; simpl; [lia|].
  rewrite length_app. pose proof (snippet_of_length question doc). lia.
Qed.

Lemma retrieved_length question docs :
  (length (retrieved question docs) <= length docs)%nat.
Proof.
  unfold retrieved.
  pose proof (flat_map_snippets_length question docs) as H.
  destruct (flat_map _ _); [|exact H].
  destruct docs; simpl; lia.
Qed.

Lemma retrieved_sources question docs entry :
  In entry (retrieved question docs) ->
  exists doc, In doc docs /\ source entry = source_of doc.
Proof.
  unfold retrieved.
  destruct (flat_map (snippet_of question) docs) as [|s ss] eqn:E.
  - destruct docs as [|first rest]; [contradiction|].
    intros [<-|[]]. exists first. split; [now left|reflexivity].
  - rewrite <- E. intros Hin. apply in_flat_map in Hin.
    destruct Hin as (doc & Hdoc & Hin). exists doc. split; [exact Hdoc|].
    unfold snippet_of in Hin.
    destruct (kept_paragraphs question doc); [contradiction|].
    destruct Hin as [<-|[]]. reflexivity.
Qed.

(** X12. [retrieve] changes neither the index, the conversations nor the
    chat handles, whether it returns or raises. When it returns, it returns
    at most one entry per document of the ranking, and the source of every
    entry is the source of a ranked document ("Unknown source" when that
    document's metadata has none). *)
Theorem retrieve_reads_only question app :
  retrieval_pipeline (snd (retrieve question app)) = retrieval_pipeline app /\
  memory_service (snd (retrieve question app)) = memory_service app /\
  llm_service (snd (retrieve question app)) = llm_service app /\
  (forall result app',
     retrieve question app = (Ok result, app') ->
     exists e ranking,
       ensemble_retriever (retrieval_pipeline app) = Some e /\
       ensemble_ranking e question (world app) = (Ok ranking, world app') /\
       (length result <= length ranking)%nat /\
       forall entry, In entry result ->
         exists doc, In doc (map fst ranking) /\
           source entry = source_of doc).
Proof.
  assert (Hframe :
            retrieval_pipeline (snd (retrieve question app))
              = retrieval_pipeline app /\
            memory_service (snd (retrieve question app)) = memory_service app
            /\ llm_service (snd (retrieve question app)) = llm_service app).
  { destruct (has_documents (retrieval_pipeline app)) eqn:Hdocs.
    - destruct (ensemble_retriever (retrieval_pipeline app)) as [e|] eqn:He.
      + rewrite (retrieve_ready _ _ e Hdocs He).
        destruct (ensemble_ranking e question (world app)) as [[r|err] w'];
          repeat split.
      + unfold has_documents in Hdocs. rewrite He, andb_false_r in Hdocs.
        discriminate.
    - rewrite retrieve_not_ready by assumption. repeat split. }
  destruct Hframe as (H1 & H2 & H3).
  split; [exact H1|]. split; [exact H2|]. split; [exact H3|].
  intros result app' H. apply retrieve_ok_inv in H.
  destruct H as (e & ranking & _ & He & Hr & ->).
  exists e, ranking. split; [exact He|]. split; [exact Hr|]. split.
  - pose proof (retrieved_length question (map fst ranking)) as Hl.
    now rewrite length_map in Hl.
  - apply retrieved_sources.
Qed.

End Index.

Section Router.

Context `{TP : ThirdParty}.

Implicit Types (app : App) (question thread_id : string).

Definition general_config : option Config :=
  Some [("callbacks", CfgCallbacks);
        ("tags", CfgTags ["general"; "llm"; "direct"])].

(** The handler of [query]: any exception becomes a 400. *)
Definition wrap_400 {A} (r : result A * App) : result A * App :=
  match r with
  | (Ok x, a) => (Ok x, a)
  | (Raise e, a) => (Raise (HTTPException 400 (str_exn e)), a)
  end.

(** The branch of [query] for a route. *)
Definition route_handler (route : QueryType) question thread_id
  : M QueryResponse :=
  match route with
  | MEMORY =>
      result <- handle_memory_question question thread_id ;;
      ret (mkResponse (fst (fst result)) [] (Some thread_id))
  | GENERAL =>
      result <- handle_general_question question thread_id ;;
      ret (mkResponse (fst result) [] (Some thread_id))
  | VECTORSTORE => query_vectorstore question thread_id
  end.

(** The thread id [query] works with, and the world after choosing it:
    the one of the request, or a fresh uuid when the request has none. *)
Definition thread_chosen (request : QueryRequest) app thread_id (w : World)
  : Prop :=
  (req_thread_id request = Some thread_id /\ thread_id <> "" /\ w = world app)
  \/ ((req_thread_id request = None \/ req_thread_id request = Some "") /\
      uuid4 (world app) = (Ok thread_id, w)).

Lemma router_query_routed request app thread_id w :
  thread_chosen request app thread_id w ->
  router_query request app =
    wrap_400
      match router_chain (req_question request) w with
      | (Ok route, w0) =>
          route_handler route (req_question request) thread_id
                        (with_world app w0)
      | (Raise e, w0) => (Raise e, with_world app w0)
      end.
Proof.
  intros H.
  assert (Hbody : forall (pick : M string),
            pick app = (Ok thread_id, with_world app w) ->
            try_except
              (thread_id <- pick ;;
               route <- ext (router_chain (req_question request)) ;;
               route_handler route (req_question request) thread_id)
              (fun e => raise (HTTPException 400 (str_exn e))) app
            = wrap_400
                match router_chain (req_question request) w with
                | (Ok route, w0) =>
                    route_handler route (req_question request) thread_id
                                  (with_world app w0)
                | (Raise e, w0) => (Raise e, with_world app w0)
                end).
  { intros pick E. unfold try_except, wrap_400. cbv [bind]. rewrite E.
    unfold ext. simpl.
    destruct (router_chain (req_question request) w) as [[route|e] w0];
      simpl; [|reflexivity].
    unfold with_world. simpl.
    destruct (route_handler route (req_question request) thread_id _)
      as [[r|e] a]; reflexivity. }
  assert (Hsame : router_query request app
                  = try_except
                      (thread_id <-
                         match req_thread_id request with
                         | Some t => if String.eqb t "" then ext uuid4 else ret t
                         | None => ext uuid4
                         end ;;
                       route <- ext (router_chain (req_question request)) ;;
                       route_handler route (req_question request) thread_id)
                      (fun e => raise (HTTPException 400 (str_exn e))) app).
  { unfold router_query, try_except. cbv [bind].
    destruct (match req_thread_id request with
              | Some t => if String.eqb t "" then ext uuid4 else ret t
              | None => ext uuid4
              end app) as [[t|e] a]; [|reflexivity].
    destruct (ext (router_chain (req_question request)) a) as [[route|e] a'];
      [|reflexivity].
    destruct route; reflexivity. }
  rewrite Hsame. apply Hbody.
  destruct H as [(Ht & Hne & ->)|(Ht & Hu)].
  - rewrite Ht. destruct (String.eqb_spec thread_id ""); [contradiction|].
    destruct app; reflexivity.
  - assert (Hext : ext uuid4 app = (Ok thread_id, with_world app w))
      by (unfold ext; rewrite Hu; reflexivity).
    destruct Ht as [-> | ->]; exact Hext.
Qed.

Lemma remember_spec question text thread_id app :
  fst (remember question text thread_id app) = Ok tt /\
  world (snd (remember question text thread_id app)) = world app /\
  llm_service (snd (remember question text thread_id app)) = llm_service app /\
  retrieval_pipeline (snd (remember question text thread_id app))
    = retrieval_pipeline app /\
  forall t,
    stored (snd (remember question text thread_id app)) t
    = if decide (thread_id = t)
      then (stored app thread_id
            ++ [HumanMessage question; AIMessage text])%list
      else stored app t.
Proof.
  repeat split. intros t.
  change (snd (remember question text thread_id app))
    with (snd (add_message thread_id (AIMessage text)
                 (snd (add_message thread_id (HumanMessage question) app)))).
  rewrite !stored_add_message.
  case_decide as Ht.
  - case_decide; [|contradiction]. rewrite <- List.app_assoc. reflexivity.
  - reflexivity.
Qed.

Lemma handle_general_question_spec question thread_id app :
  handle_general_question question thread_id app =
    match invoke question general_config app with
    | (Ok text, app1) =>
        (Ok (text, "general"), snd (remember question text thread_id app1))
    | (Raise e, app1) => (Raise e, app1)
    end.
Proof.
  unfold handle_general_question. cbv [bind]. fold general_config.
  destruct (invoke question general_config app) as [[text|e] app1];
    reflexivity.
Qed.

Lemma thread_status_stored thread_id app :
  get_thread_status thread_id app
  = (Ok (mkStatus thread_id (length (stored app thread_id))
                  (0 <? length (stored app thread_id))%nat
                  (map status_entry (stored app thread_id))),
     app).
Proof. reflexivity. Qed.

(** X13. A question routed to the general handler is sent to the Oracle as
    asked. When the Oracle answers, the response carries that answer and no
    references, the thread reads as before followed by the question and the
    answer, other threads are as before, and the thread status counts two
    more messages. When the Oracle fails, the request fails with a 400 and
    no message is recorded. *)
Theorem general_route_records_exchange request thread_id app w w0 :
  let question := req_question request in
  thread_chosen request app thread_id w ->
  router_chain question w = (Ok GENERAL, w0) ->
  (forall text app1,
     invoke question general_config (with_world app w0) = (Ok text, app1) ->
     exists app2,
       router_query request app
         = (Ok (mkResponse text [] (Some thread_id)), app2) /\
       stored app2 thread_id
         = (stored app thread_id
            ++ [HumanMessage question; AIMessage text])%list /\
       (forall other, other <> thread_id -> stored app2 other = stored app other)
       /\ fst (get_thread_status thread_id app2)
          = Ok (mkStatus thread_id (length (stored app thread_id) + 2) true
                  (map status_entry (stored app thread_id)
                   ++ [("human", question); ("ai", text)])%list)) /\
  (forall e app1,
     invoke question general_config (with_world app w0) = (Raise e, app1) ->
     router_query request app = (Raise (HTTPException 400 (str_exn e)), app1)
     /\ memory_service app1 = memory_service app).
Proof.
  intros question Ht Hroute.
  rewrite (router_query_routed _ _ _ _ Ht). fold question. rewrite Hroute.
  unfold route_handler. cbv [bind]. rewrite handle_general_question_spec.
  pose proof (invoke_frame question general_config (with_world app w0))
    as (Hmem & _ & _).
  split.
  - intros text app1 E. rewrite E in *. simpl in Hmem.
    destruct (remember_spec question text thread_id app1)
      as (_ & _ & _ & _ & Hst).
    assert (Hold : forall t, stored app1 t = stored app t)
      by (intros t; unfold stored; now rewrite Hmem).
    exists (snd (remember question text thread_id app1)).
    split; [reflexivity|]. split; [|split].
    + rewrite Hst, Hold. case_decide; [reflexivity|contradiction].
    + intros other Hne. rewrite Hst.
      case_decide; [congruence|apply Hold].
    + rewrite thread_status_stored. cbn [fst]. rewrite Hst, Hold.
      case_decide; [|contradiction].
      rewrite length_app, map_app. cbn [length map status_entry].
      replace (0 <? length (stored app thread_id) + 2)%nat with true
        by (symmetry; apply Nat.ltb_lt; lia).
      reflexivity.
  - intros e app1 E. rewrite E in *. simpl in Hmem. split; [reflexivity|].
    exact Hmem.
Qed.

Lemma handle_memory_question_spec question thread_id app :
  handle_memory_question question thread_id app =
    match memory_chain question (lines (map role_line (stored app thread_id)))
                       (world app) with
    | (Ok (kind, text), w1) =>
        (Ok (text, "memory", kind),
         snd (remember question text thread_id (with_world app w1)))
    | (Raise e, w1) => (Raise e, with_world app w1)
    end.
Proof.
  unfold handle_memory_question. cbv [bind]. rewrite get_messages_stored.
  unfold ext.
  destruct (memory_chain question _ (world app)) as [[[kind text]|e] w1];
    reflexivity.
Qed.

(** X14. A question routed to the memory handler is answered from the
    thread as it stood before the question: the chain receives one line per
    stored message, "User: ..." or "Assistant: ...", in order. When the chain
    answers, the response carries its content and no references, and the
    thread then ends with the question and that content; when the chain
    fails, the request fails with a 400 and the thread is unchanged. *)
Theorem memory_route_reads_then_records request thread_id app w w0 :
  let question := req_question request in
  let history := lines (map role_line (stored app thread_id)) in
  thread_chosen request app thread_id w ->
  router_chain question w = (Ok MEMORY, w0) ->
  (forall kind text w1,
     memory_chain question history w0 = (Ok (kind, text), w1) ->
     exists app2,
       router_query request app
         = (Ok (mkResponse text [] (Some thread_id)), app2) /\
       stored app2 thread_id
         = (stored app thread_id
            ++ [HumanMessage question; AIMessage text])%list) /\
  (forall e w1,
     memory_chain question history w0 = (Raise e, w1) ->
     router_query request app
       = (Raise (HTTPException 400 (str_exn e)), with_world app w1)).
Proof.
  intros question history Ht Hroute.
  rewrite (router_query_routed _ _ _ _ Ht). fold question. rewrite Hroute.
  unfold route_handler. cbv [bind]. rewrite handle_memory_question_spec.
  change (stored (with_world app w0) thread_id) with (stored app thread_id).
  change (world (with_world app w0)) with w0. fold history.
  split.
  - intros kind text w1 E. rewrite E.
    destruct (remember_spec question text thread_id
                (with_world (with_world app w0) w1))
      as (_ & _ & _ & _ & Hst).
    exists (snd (remember question text thread_id
                   (with_world (with_world app w0) w1))).
    split; [reflexivity|]. rewrite Hst.
    case_decide; [reflexivity|contradiction].
  - intros e w1 E. rewrite E. reflexivity.
Qed.

(** X15. A question routed to the knowledge base when no documents are
    loaded, or when the ensemble retriever returns no document, is answered
    with a fixed notice and no references: the Oracle is not called, nothing
    is recorded in the thread, and the request does not fail. *)
Theorem vectorstore_route_with_nothing_to_cite request thread_id app w w0 :
  let question := req_question request in
  thread_chosen request app thread_id w ->
  router_chain question w = (Ok VECTORSTORE, w0) ->
  (has_documents (retrieval_pipeline app) = false ->
   router_query request app
     = (Ok (mkResponse no_documents_answer [] (Some thread_id)),
        with_world app w0)) /\
  (forall e w1,
     has_documents (retrieval_pipeline app) = true ->
     ensemble_retriever (retrieval_pipeline app) = Some e ->
     ensemble_ranking e question w0 = (Ok [], w1) ->
     router_query request app
       = (Ok (mkResponse nothing_found_answer [] (Some thread_id)),
          with_world app w1)).
Proof.
  intros question Ht Hroute.
  rewrite (router_query_routed _ _ _ _ Ht). fold question. rewrite Hroute.
  unfold route_handler, query_vectorstore. cbv [bind gets]. simpl.
  split.
  - intros ->. reflexivity.
  - intros e w1 Hdocs He Hr. rewrite Hdocs. simpl.
    unfold try_except.
    rewrite (retrieve_ready question (with_world app w0) e Hdocs He).
    simpl. rewrite Hr. reflexivity.
Qed.

End Router.

Section Answers.

Context `{TP : ThirdParty}.

Implicit Types (app : App) (question thread_id : string).

Lemma answer_with_graph_ok question retrieved_docs state thread_id app
    state' app1 graded text :
  process_state state app = (Ok state', app1) ->
  relevant_docs state' = Some (select_relevant graded) ->
  select_relevant graded <> [] ->
  answer state' = Some text ->
  answer_with_graph question retrieved_docs state thread_id app =
    (Ok (mkResponse text
           (sort_desc relevance_score
              (graded_references (select_relevant graded)))
           (Some thread_id)),
     snd (remember question text thread_id app1)).
Proof.
  intros Hp Hrel Hne Hans. unfold answer_with_graph, try_except.
  cbv [bind]. rewrite Hp, Hrel, Hans.
  destruct (select_relevant graded); [contradiction|]. reflexivity.
Qed.

(** X16. When the graph run succeeds for a knowledge-base question, the
    response carries the synthesized answer and one reference per selected
    chunk: its source without the directories, its grade as relevance score
    and the first 500 characters of its content. The references are a
    rearrangement of the selected chunks by descending relevance (no grade
    being nan), there is at least one, and the question and the answer are
    appended to the thread. *)
Theorem graph_answer_cites_selected
    request thread_id app w w0 retrieved_docs app1 state' app2 :
  let question := req_question request in
  thread_chosen request app thread_id w ->
  router_chain question w = (Ok VECTORSTORE, w0) ->
  has_documents (retrieval_pipeline app) = true ->
  retrieve question (with_world app w0) = (Ok retrieved_docs, app1) ->
  retrieved_docs <> [] ->
  process_state (initial_state question retrieved_docs thread_id) app1
    = (Ok state', app2) ->
  exists graded text,
    graded_docs state' = Some graded /\
    answer state' = Some text /\
    let selected := select_relevant graded in
    let refs := sort_desc relevance_score (graded_references selected) in
    router_query request app
      = (Ok (mkResponse text refs (Some thread_id)),
         snd (remember question text thread_id app2)) /\
    Permutation refs (graded_references selected) /\
    refs <> [] /\
    (no_nan relevance_score refs -> descending relevance_score refs) /\
    (forall r, In r refs ->
       exists g, In g selected /\
         ref_source r = basename (g_source g) /\
         relevance_score r = grade g /\
         snippet r = Py.prefix 500 (g_content g)) /\
    stored (snd (remember question text thread_id app2)) thread_id
      = (stored app2 thread_id
         ++ [HumanMessage question; AIMessage text])%list.
Proof.
  intros question Ht Hroute Hdocs Hr Hne Hp.
  destruct (process_state_ok_inv _ _ _ _ Hp)
    as (_ & _ & _ & graded & text & Hg & _ & Hans & Hrel & Hsel & _).
  assert (Hselected : select_relevant graded <> []).
  { apply Hsel. simpl. destruct retrieved_docs; [contradiction|discriminate]. }
  exists graded, text. split; [exact Hg|]. split; [exact Hans|].
  intros selected refs.
  split; [|split; [|split; [|split; [|split]]]].
  - rewrite (router_query_routed _ _ _ _ Ht). fold question. rewrite Hroute.
    unfold route_handler.
    rewrite (query_vectorstore_graph question thread_id (with_world app w0)
               _ _ Hdocs Hr Hne).
    rewrite (answer_with_graph_ok _ _ _ _ _ _ _ graded text Hp Hrel
               Hselected Hans).
    reflexivity.
  - apply sort_desc_perm.
  - intros H. apply (f_equal (@length _)) in H.
    unfold refs in H. rewrite sort_desc_length in H.
    unfold graded_references in H. rewrite length_map in H.
    fold selected in Hselected. destruct selected; [contradiction|].
    discriminate.
  - intros Hnan. apply sort_desc_descending.
    apply (no_nan_perm relevance_score refs); [apply sort_desc_perm|exact Hnan].
  - intros r Hin. apply sort_desc_In in Hin.
    apply in_map_iff in Hin. destruct Hin as (g & <- & Hin).
    exists g. repeat split. exact Hin.
  - destruct (remember_spec question text thread_id app2)
      as (_ & _ & _ & _ & Hst).
    rewrite Hst. case_decide; [reflexivity|contradiction].
Qed.

Lemma query_vectorstore_thread question thread_id app response app' :
  query_vectorstore question thread_id app = (Ok response, app') ->
  resp_thread_id response = Some thread_id.
Proof.
  unfold query_vectorstore. cbv [bind gets].
  destruct (has_documents (retrieval_pipeline app)); simpl.
  2:{ intros [= <- _]. reflexivity. }
  unfold try_except. cbv [bind].
  destruct (retrieve question app) as [[retrieved|e] app1]; [|discriminate].
  destruct retrieved as [|d ds].
  { intros [= <- _]. reflexivity. }
  set (state := mkState _ _ _ _ _ _ _).
  unfold answer_with_graph, try_except. cbv [bind].
  destruct (process_state state app1) as [[st|e] app2].
  - simpl. destruct (answer st) as [text|]; simpl.
    + intros [= <- _]. reflexivity.
    + rewrite handle_research_fallback_spec.
      destruct (invoke _ fallback_config _) as [[text|e] app3];
        [|discriminate].
      intros [= <- _]. reflexivity.
  - rewrite handle_research_fallback_spec.
    destruct (invoke _ fallback_config _) as [[text|e'] app3];
      [|discriminate].
    intros [= <- _]. reflexivity.
Qed.

Lemma route_handler_thread route question thread_id app response app' :
  route_handler route question thread_id app = (Ok response, app') ->
  resp_thread_id response = Some thread_id.
Proof.
  destruct route; simpl.
  - cbv [bind]. rewrite handle_memory_question_spec.
    destruct (memory_chain _ _ _) as [[[kind text]|e] w1]; [|discriminate].
    intros [= <- _]. reflexivity.
  - apply query_vectorstore_thread.
  - cbv [bind]. rewrite handle_general_question_spec.
    destruct (invoke _ general_config app) as [[text|e] app1];
      [|discriminate].
    intros [= <- _]. reflexivity.
Qed.

(** X17. Every response of [query] carries the thread id the exchange was
    filed under: the thread id of the request when it has a non-empty one,
    and otherwise the fresh uuid drawn for it, on every route and also when
    the answer comes from the fallback. *)
Theorem query_echoes_thread_id request app thread_id w response app' :
  thread_chosen request app thread_id w ->
  router_query request app = (Ok response, app') ->
  resp_thread_id response = Some thread_id.
Proof.
  intros Ht. rewrite (router_query_routed _ _ _ _ Ht). unfold wrap_400.
  destruct (router_chain (req_question request) w) as [[route|e] w0];
    [|discriminate].
  destruct (route_handler route (req_question request) thread_id _)
    as [[r|e] a] eqn:E; [|discriminate].
  intros [= <- _]. exact (route_handler_thread _ _ _ _ _ _ E).
Qed.

(** X18. [reset_thread] fails only with the 404 "not found" error, and then
    changes nothing. When it succeeds it reports the thread id it was given,
    the thread reads as empty afterwards, and every other thread, the index
    and the chat handles are as before. *)
Theorem reset_thread_outcomes thread_id app :
  (forall e app',
     reset_thread thread_id app = (Raise e, app') ->
     e = thread_not_found thread_id /\ app' = app /\
     stored app thread_id = []) /\
  (forall r app',
     reset_thread thread_id app = (Ok r, app') ->
     r = mkReset "success" "Thread reset successfully" thread_id /\
     stored app' thread_id = [] /\
     (forall other, other <> thread_id -> stored app' other = stored app other)
     /\ retrieval_pipeline app' = retrieval_pipeline app
     /\ llm_service app' = llm_service app
     /\ world app' = world app).
Proof.
  pose proof (clear_thread_forgets_only_that_thread_aux thread_id app)
    as Hclear.
  unfold reset_thread, try_except. cbv [bind].
  rewrite thread_exists_spec.
  destruct (conversations (memory_service app) !! thread_id) as [l|] eqn:E;
    simpl.
  - split; [discriminate|]. intros r app' [= <- <-].
    destruct Hclear as (Hgone & Hothers).
    repeat split; assumption.
  - split; [|discriminate]. intros e app' [= <- <-].
    repeat split. unfold stored. now rewrite E.
Qed.

End Answers.

(** * The document routes and the PDF loader

    [src/routers/docs_router.py], [src/utils/pdf_utils.py], the start-up hook
    of [src/main.py] and the endpoint [reset_vectordb] of the query router. *)

From Stdlib Require Import DecimalString.

(** An uploaded file, as far as the code looks at it. *)
Record UploadFile : Type := mkUpload {
  filename : option string
}.

(** [results] of [upload_documents]: file name and pages, file name and
    error. *)
Record UploadResults : Type := mkResults {
  successful : list (option string * nat);
  failed : list (option string * string)
}.

(** The response of [upload_documents]. *)
Record UploadReport : Type := mkReport {
  report_message : string;
  details : UploadResults;
  file_count : nat
}.

(** The file system and the PDF parser. *)
Class Files (TP : ThirdParty) : Type := {
  (** [os.makedirs(path, exist_ok=True)] *)
  makedirs : string -> Comp World unit;
  (** [await file.read()] *)
  file_read : UploadFile -> Comp World string;
  (** [with open(path, "wb") as f: f.write(content)] *)
  write_bytes : string -> string -> Comp World unit;
  (** [PyPDFLoader(path).load()] *)
  pdf_load : string -> Comp World (list Document);
  (** [os.path.exists], [os.remove], [os.listdir] *)
  path_exists : string -> Comp World bool;
  remove : string -> Comp World unit;
  listdir : string -> Comp World (list string);
  (** The value of [exn] that stands for a bare [Exception(msg)]. *)
  plain_exception : string -> exn;
  (** The dictionary given as [detail] of an [HTTPException], as text. *)
  render_detail : UploadReport -> string
}.

(** [s.endswith(suffix)] *)
Fixpoint endswith (suffix s : string) : bool :=
  if String.eqb s suffix then true
  else match s with
       | String _ s' => endswith suffix s'
       | EmptyString => false
       end.

(** [os.path.join(a, b)] on POSIX *)
Definition path_join (a b : string) : string :=
  match b with
  | String "/" _ => b
  | _ => if String.eqb a "" || endswith "/" a then a ++ b
         else a ++ "/" ++ b
  end.

(** [str(n)] for a length *)
Definition str_nat (n : nat) : string :=
  NilEmpty.string_of_uint (Nat.to_uint n).

Definition DOCS_FOLDER : string := "src/docs".

(** [for doc in documents[1:]: combined_doc.page_content += "\n\n" + ...] *)
Fixpoint append_pages (combined_doc : Document) (rest : list Document)
  : Document :=
  match rest with
  | [] => combined_doc
  | doc :: rest' =>
      append_pages
        (mkDocument (page_content combined_doc ++ Py.nl2 ++ page_content doc)
                    (metadata combined_doc))
        rest'
  end.

(** The pages of one PDF made one document, as both loaders do. *)
Definition combine_pages (documents : list Document) : list Document :=
  match documents with
  | [] => []
  | first :: rest => [append_pages first rest]
  end.

Section Documents.

Context `{TP : ThirdParty} `{FS : !Files TP}.

(** [process_uploaded_pdf] of pdf_utils.py *)
Definition process_uploaded_pdf (file : UploadFile)
  : Comp World (list Document) :=
  makedirs DOCS_FOLDER ;;;
  name <-
    match filename file with
    | Some name => ret name
    | None => raise (TypeError "expected str, bytes or os.PathLike object, not NoneType")
    end ;;
  let file_path := path_join DOCS_FOLDER name in
  content <- file_read file ;;
  write_bytes file_path content ;;;
  try_except
    (documents <- pdf_load file_path ;;
     ret (combine_pages documents))
    (fun e =>
       present <- path_exists file_path ;;
       (if present : bool then remove file_path else ret tt) ;;;
       raise (plain_exception ("Error processing PDF: " ++ str_exn e))).

(** The loop of [load_pdfs_from_directory], with its accumulator. *)
Fixpoint load_pdfs_loop (directory : string) (names : list string)
    (documents : list Document) : Comp World (list Document) :=
  match names with
  | [] => ret documents
  | name :: rest =>
      if endswith ".pdf" name then
        documents <-
          try_except
            (docs <- pdf_load (path_join directory name) ;;
             ret (documents ++ combine_pages docs)%list)
            (fun _ => ret documents) ;;
        load_pdfs_loop directory rest documents
      else load_pdfs_loop directory rest documents
  end.

(** [load_pdfs_from_directory] of pdf_utils.py *)
Definition load_pdfs_from_directory (directory : string)
  : Comp World (list Document) :=
  present <- path_exists directory ;;
  if negb present then ret []
  else
    names <- listdir directory ;;
    load_pdfs_loop directory names [].

(** [startup_event] of main.py *)
Definition startup_event : M unit :=
  try_except
    (initial_docs <- ext (load_pdfs_from_directory DOCS_FOLDER) ;;
     match initial_docs with
     | _ :: _ => rebuild initial_docs
     | [] => ret tt
     end)
    (fun _ => ret tt).

Definition add_failed (acc : UploadResults * list Document)
    (name : option string) (error : string)
  : UploadResults * list Document :=
  (mkResults (successful (fst acc)) (failed (fst acc) ++ [(name, error)])%list,
   snd acc).

(** The body of the loop of [upload_documents] for one file. *)
Definition upload_one (file : UploadFile)
    (acc : UploadResults * list Document)
  : M (UploadResults * list Document) :=
  try_except
    (name <-
       match filename file with
       | Some name => ret name
       | None => raise (AttributeError "'NoneType' object has no attribute 'endswith'")
       end ;;
     if negb (endswith ".pdf" name)
     then ret (add_failed acc (filename file) "Only PDF files are supported")
     else
       docs <- ext (process_uploaded_pdf file) ;;
       match docs with
       | _ :: _ =>
           ret (mkResults
                  (successful (fst acc) ++ [(filename file, length docs)])%list
                  (failed (fst acc)),
                (snd acc ++ docs)%list)
       | [] =>
           ret (add_failed acc (filename file) "No content could be extracted")
       end)
    (fun e => ret (add_failed acc (filename file) (str_exn e))).

Fixpoint upload_loop (files : list UploadFile)
    (acc : UploadResults * list Document)
  : M (UploadResults * list Document) :=
  match files with
  | [] => ret acc
  | file :: rest => acc <- upload_one file acc ;; upload_loop rest acc
  end.

Definition upload_message (results : UploadResults) : string :=
  "Processed " ++ str_nat (length (successful results))
  ++ " files successfully, " ++ str_nat (length (failed results)) ++ " failed".

(** [upload_documents] of docs_router.py *)
Definition upload_documents (files : list UploadFile) : M UploadReport :=
  try_except
    ((match files with
      | [] => raise (HTTPException 400 "No files provided")
      | _ :: _ => ret tt
      end) ;;;
     acc <- upload_loop files (mkResults [] [], []) ;;
     let results := fst acc in
     let all_docs := snd acc in
     (match all_docs with
      | _ :: _ => rebuild all_docs
      | [] => ret tt
      end) ;;;
     let response :=
       mkReport (upload_message results) results (length all_docs) in
     match successful results, failed results with
     | [], _ :: _ => raise (HTTPException 400 (render_detail response))
     | _, _ => ret response
     end)
    (fun e => raise (HTTPException 500 (str_exn e))).

Record DocumentStatus : Type := mkDocumentStatus {
  status_has_documents : bool;
  status_document_count : nat
}.

(** [get_document_status] of docs_router.py *)
Definition get_document_status : M DocumentStatus :=
  try_except
    (p <- gets retrieval_pipeline ;;
     let has_docs := has_documents p in
     ret (mkDocumentStatus has_docs
            (if has_docs then length (pipeline_documents p) else 0%nat)))
    (fun e => raise (HTTPException 500 (str_exn e))).

Record VectordbReset : Type := mkVectordbReset {
  vectordb_status : string;
  vectordb_message : string;
  vectordb_document_count : nat;
  vectordb_has_documents : bool
}.

(** [reset_vectordb] of query_router.py *)
Definition reset_vectordb : M VectordbReset :=
  try_except
    (reset ;;;
     ret (mkVectordbReset "success" "Vector database reset successfully"
                          0 false))
    (fun e => raise (HTTPException 500 (str_exn e))).

End Documents.

Section DocumentFacts.

Context `{TP : ThirdParty} `{FS : !Files TP}.

Implicit Types (app : App) (w : World).

Lemma string_app_assoc (a b c : string) : (a ++ b) ++ c = a ++ b ++ c.
Proof.
  induction a as [|ch a IH]; [reflexivity|].
  change (String ch ((a ++ b) ++ c) = String ch (a ++ b ++ c)).
  now rewrite IH.
Qed.

Lemma append_pages_spec first rest :
  page_content (append_pages first rest)
    = Py.join Py.nl2 (map page_content (first :: rest)) /\
  metadata (append_pages first rest) = metadata first.
Proof.
  revert first. induction rest as [|doc rest IH]; intros first.
  - split; reflexivity.
  - cbn [append_pages]. destruct (IH (mkDocument
        (page_content first ++ Py.nl2 ++ page_content doc) (metadata first)))
      as [Hc Hm].
    split; [|exact Hm]. rewrite Hc. cbn [map page_content].
    destruct rest as [|doc' rest']; cbn [map Py.join].
    + reflexivity.
    + rewrite !string_app_assoc. reflexivity.
Qed.

(** X19. The pages of a PDF are made one document: no page gives no
    document; otherwise exactly one document comes back, with the metadata of
    the first page and the texts of all pages, in order, joined by blank
    lines. *)
Theorem combine_pages_joins_pages (pages : list Document) :
  (pages = [] -> combine_pages pages = []) /\
  (forall first rest,
     pages = first :: rest ->
     exists doc,
       combine_pages pages = [doc] /\
       page_content doc = Py.join Py.nl2 (map page_content pages) /\
       metadata doc = metadata first).
Proof.
  split.
  - intros ->. reflexivity.
  - intros first rest ->. eexists. split; [reflexivity|].
    apply append_pages_spec.
Qed.

Lemma combine_pages_length (pages : list Document) :
  (length (combine_pages pages) <= 1)%nat.
Proof. destruct pages; simpl; lia. Qed.

Lemma process_uploaded_pdf_ok_length file w docs w' :
  process_uploaded_pdf file w = (Ok docs, w') -> (length docs <= 1)%nat.
Proof.
  unfold process_uploaded_pdf, try_except. cbv [bind].
  destruct (makedirs DOCS_FOLDER w) as [[[]|e] w1]; [|discriminate].
  destruct (filename file) as [name|]; [|discriminate]. simpl.
  destruct (file_read file w1) as [[content|e] w2]; [|discriminate].
  destruct (write_bytes _ content w2) as [[[]|e] w3]; [|discriminate].
  destruct (pdf_load _ w3) as [[pages|e] w4].
  - intros [= <- _]. apply combine_pages_length.
  - destruct (path_exists _ w4) as [[present|e'] w5]; [|discriminate].
    destruct present.
    + destruct (remove _ w5) as [[[]|e'] w6]; discriminate.
    + discriminate.
Qed.

(** X20. [process_uploaded_pdf] saves the upload under the docs folder
    before it parses it. When the parser returns, the result is the pages
    combined, so at most one document. When the parser raises and the saved
    file is still there, the file is removed and the error is raised again as
    "Error processing PDF: ..." with the text of the original error. *)
Theorem process_uploaded_pdf_outcomes file name content w w1 w2 w3 :
  let file_path := path_join DOCS_FOLDER name in
  filename file = Some name ->
  makedirs DOCS_FOLDER w = (Ok tt, w1) ->
  file_read file w1 = (Ok content, w2) ->
  write_bytes file_path content w2 = (Ok tt, w3) ->
  (forall pages w4,
     pdf_load file_path w3 = (Ok pages, w4) ->
     process_uploaded_pdf file w = (Ok (combine_pages pages), w4) /\
     (length (combine_pages pages) <= 1)%nat) /\
  (forall e w4 w5 w6,
     pdf_load file_path w3 = (Raise e, w4) ->
     path_exists file_path w4 = (Ok true, w5) ->
     remove file_path w5 = (Ok tt, w6) ->
     process_uploaded_pdf file w
       = (Raise (plain_exception ("Error processing PDF: " ++ str_exn e)),
          w6)) /\
  (forall e w4 w5,
     pdf_load file_path w3 = (Raise e, w4) ->
     path_exists file_path w4 = (Ok false, w5) ->
     process_uploaded_pdf file w
       = (Raise (plain_exception ("Error processing PDF: " ++ str_exn e)),
          w5)).
Proof.
  intros file_path Hname Hmk Hread Hwrite.
  unfold process_uploaded_pdf, try_except. cbv [bind].
  rewrite Hmk, Hname. simpl. rewrite Hread. fold file_path. rewrite Hwrite.
  split; [|split].
  - intros pages w4 ->. split; [reflexivity|apply combine_pages_length].
  - intros e w4 w5 w6 -> -> ->. reflexivity.
  - intros e w4 w5 -> ->. reflexivity.
Qed.

(** What the upload loop keeps true of its accumulator: one document per
    successful file, each reported with one page. *)
Definition upload_invariant (acc : UploadResults * list Document) : Prop :=
  length (snd acc) = length (successful (fst acc)) /\
  List.Forall (fun entry => snd entry = 1%nat) (successful (fst acc)).

Definition processed (acc : UploadResults * list Document) : nat :=
  length (successful (fst acc)) + length (failed (fst acc)).

Lemma upload_one_spec file acc app :
  exists acc' app',
    upload_one file acc app = (Ok acc', app') /\
    processed acc' = S (processed acc) /\
    (upload_invariant acc -> upload_invariant acc') /\
    memory_service app' = memory_service app /\
    llm_service app' = llm_service app /\
    retrieval_pipeline app' = retrieval_pipeline app /\
    ((forall name, filename file = Some name -> endswith ".pdf" name = false) ->
     filename file <> None ->
     app' = app /\
     acc' = add_failed acc (filename file) "Only PDF files are supported").
Proof.
  assert (Hfail : forall error,
             processed (add_failed acc (filename file) error)
               = S (processed acc) /\
             (upload_invariant acc ->
              upload_invariant (add_failed acc (filename file) error))).
  { intros error. unfold processed, add_failed, upload_invariant. simpl.
    rewrite length_app. simpl. split; [lia|auto]. }
  unfold upload_one, try_except. cbv [bind].
  destruct (filename file) as [name|] eqn:Hn; simpl.
  2:{ eexists _, _. split; [reflexivity|].
      destruct (Hfail (str_exn (AttributeError
                  "'NoneType' object has no attribute 'endswith'")))
        as [H1 H2].
      split; [exact H1|]. split; [exact H2|]. do 3 (split; [reflexivity|]).
      intros _ Hsome. now elim Hsome. }
  destruct (endswith ".pdf" name) eqn:Hpdf; simpl.
  2:{ eexists _, _. split; [reflexivity|].
      destruct (Hfail "Only PDF files are supported") as [H1 H2].
      split; [exact H1|]. split; [exact H2|]. do 3 (split; [reflexivity|]).
      intros _ _. split; [destruct app|]; reflexivity. }
  unfold ext.
  destruct (process_uploaded_pdf file (world app)) as [[docs|e] w'] eqn:Hp;
    simpl.
  - destruct docs as [|d ds]; simpl.
    + eexists _, _. split; [reflexivity|].
      destruct (Hfail "No content could be extracted") as [H1 H2].
      split; [exact H1|]. split; [exact H2|]. do 3 (split; [reflexivity|]).
      intros Hall _. specialize (Hall name eq_refl). congruence.
    + eexists _, _. split; [reflexivity|].
      apply process_uploaded_pdf_ok_length in Hp. simpl in Hp.
      assert (ds = []) by (destruct ds; [reflexivity|simpl in Hp; lia]).
      subst ds.
      split; [|split; [|do 3 (split; [reflexivity|])]].
      * unfold processed. simpl. rewrite length_app. simpl. lia.
      * unfold upload_invariant. simpl. intros [Hlen Hall].
        rewrite !length_app. simpl. split; [lia|].
        apply Forall_app. split; [exact Hall|]. repeat constructor.
      * intros Hall _. specialize (Hall name eq_refl). congruence.
  - eexists _, _. split; [reflexivity|].
    destruct (Hfail (str_exn e)) as [H1 H2].
    split; [exact H1|]. split; [exact H2|]. do 3 (split; [reflexivity|]).
    intros Hall _. specialize (Hall name eq_refl). congruence.
Qed.

Lemma upload_loop_spec files acc app :
  exists acc' app',
    upload_loop files acc app = (Ok acc', app') /\
    processed acc' = (length files + processed acc)%nat /\
    (upload_invariant acc -> upload_invariant acc') /\
    memory_service app' = memory_service app /\
    llm_service app' = llm_service app /\
    retrieval_pipeline app' = retrieval_pipeline app.
Proof.
  revert acc app. induction files as [|file rest IH]; intros acc app.
  - exists acc, app. split; [reflexivity|]. split; [reflexivity|].
    split; [tauto|]. repeat split.
  - cbn [upload_loop]. cbv [bind].
    destruct (upload_one_spec file acc app)
      as (acc1 & app1 & -> & Hn & Hinv & Hm & Hl & Hp & _).
    destruct (IH acc1 app1) as (acc2 & app2 & -> & Hn2 & Hinv2 & Hm2 & Hl2 & Hp2).
    exists acc2, app2. split; [reflexivity|].
    split; [simpl; lia|]. split; [auto|].
    split; [congruence|]. split; congruence.
Qed.

Lemma rebuild_frame docs app :
  memory_service (snd (rebuild docs app)) = memory_service app /\
  llm_service (snd (rebuild docs app)) = llm_service app.
Proof.
  unfold rebuild, bind, ext, reset, update_pipeline, modify. simpl.
  destruct (split_documents docs (world app)) as [[splits|e0] w1]; simpl;
    [|split; reflexivity].
  destruct (OpenAIEmbeddings_init w1) as [[emb|e0] w2]; simpl;
    [|split; reflexivity].
  destruct (FAISS_from_documents splits emb w2) as [[vs|e0] w3]; simpl;
    [|split; reflexivity].
  destruct (BM25_from_documents splits 6 w3) as [[kw|e0] w4]; simpl;
    split; reflexivity.
Qed.

(** X21. Whatever goes wrong, [upload_documents] fails with status 500: the
    400 errors it raises itself, for an empty list of files and for a batch
    in which every file failed, are caught by its own handler and raised
    again as 500 with the text of the 400 error as detail. An empty list
    changes nothing. *)
Theorem upload_documents_fails_with_500 files app :
  (forall e app',
     upload_documents files app = (Raise e, app') ->
     exists detail, e = HTTPException 500 detail) /\
  upload_documents [] app
    = (Raise (HTTPException 500
                (str_exn (HTTPException 400 "No files provided"))), app).
Proof.
  split; [|reflexivity].
  intros e app'. unfold upload_documents, try_except.
  match goal with
  | |- context [match ?body app with _ => _ end] =>
      destruct (body app) as [[r|e0] a]
  end.
  - discriminate.
  - intros [= <- _]. eauto.
Qed.

(** X22. A batch without a single file named [*.pdf] is turned down without
    touching anything: no file is written, the index and the conversations
    are as before, and the request fails (with status 500, carrying the 400
    report in which every file is listed as "Only PDF files are
    supported"). *)
Theorem upload_rejects_other_files files app :
  files <> [] ->
  (forall file, In file files ->
     exists name, filename file = Some name /\ endswith ".pdf" name = false) ->
  let results :=
    mkResults []
      (map (fun file => (filename file, "Only PDF files are supported"))
           files) in
  upload_documents files app
    = (Raise (HTTPException 500
                (str_exn (HTTPException 400
                   (render_detail
                      (mkReport (upload_message results) results 0))))),
       app).
Proof.
  intros Hne Hall results.
  assert (Hloop : forall fs acc,
             (forall file, In file fs ->
                exists name, filename file = Some name /\
                             endswith ".pdf" name = false) ->
             upload_loop fs acc app
             = (Ok (mkResults (successful (fst acc))
                      (failed (fst acc)
                       ++ map (fun file =>
                                 (filename file, "Only PDF files are supported"))
                              fs)%list,
                    snd acc), app)).
  { induction fs as [|file rest IH]; intros acc Hfs.
    - simpl. rewrite List.app_nil_r. destruct acc as [[s f] d]. reflexivity.
    - cbn [upload_loop]. cbv [bind].
      destruct (upload_one_spec file acc app)
        as (acc1 & app1 & E & _ & _ & _ & _ & _ & Hrej).
      destruct (Hfs file (or_introl eq_refl)) as (name & Hn & Hpdf).
      destruct Hrej as [-> ->].
      { intros n Hn'. congruence. }
      { congruence. }
      rewrite E, IH by (intros f Hf; apply Hfs; now right).
      unfold add_failed. simpl. rewrite <- List.app_assoc. reflexivity. }
  unfold upload_documents, try_except. cbv [bind].
  destruct files as [|file rest]; [contradiction|].
  cbn [raise ret].
  rewrite (Hloop (file :: rest) (mkResults [] [], []) Hall).
  reflexivity.
Qed.

(** X23. When [upload_documents] returns, every file of the batch is
    reported once, as successful or as failed, and at least one is
    successful; each successful file counts one page and contributes one
    document, so [file_count] is the number of successful files; the index
    now holds exactly that many documents, those of this batch in place of
    what was indexed before, and [has_documents()] is true. Conversations and
    chat handles are untouched. *)
Theorem upload_documents_success files app report app' :
  upload_documents files app = (Ok report, app') ->
  (length (successful (details report)) + length (failed (details report))
   = length files)%nat /\
  successful (details report) <> [] /\
  file_count report = length (successful (details report)) /\
  List.Forall (fun entry => snd entry = 1%nat) (successful (details report)) /\
  length (pipeline_documents (retrieval_pipeline app')) = file_count report /\
  has_documents (retrieval_pipeline app') = true /\
  memory_service app' = memory_service app /\
  llm_service app' = llm_service app.
Proof.
  unfold upload_documents, try_except. cbv [bind].
  destruct files as [|file rest]; [discriminate|]. cbn [ret].
  destruct (upload_loop_spec (file :: rest) (mkResults [] [], []) app)
    as ([results all_docs] & app1 & -> & Hn & Hinv & Hm & Hl & Hp).
  destruct Hinv as [Hlen Hpages]; [split; [reflexivity|constructor]|].
  unfold processed in Hn. simpl in Hn, Hlen, Hpages. cbn [fst snd].
  destruct all_docs as [|d ds].
  - destruct (successful results) as [|s ss] eqn:Hs; [|discriminate Hlen].
    destruct (failed results) as [|f fs] eqn:Hf; [simpl in Hn; lia|].
    discriminate.
  - pose proof (rebuild_frame (d :: ds) app1) as [Hrm Hrl].
    destruct (rebuild (d :: ds) app1) as [[[]|e] app2] eqn:Hr; [|discriminate].
    simpl in Hrm, Hrl.
    apply rebuild_ok_iff in Hr.
    destruct Hr as (splits&w1&emb&w2&vs&w3&kw&w4&_&_&_&_&Happ2).
    destruct (successful results) as [|s ss] eqn:Hs; [discriminate Hlen|].
    intros [= <- <-]. subst app2. simpl. rewrite Hs.
    split; [simpl in *; lia|]. split; [discriminate|].
    split; [simpl in *; lia|]. split; [exact Hpages|].
    split; [reflexivity|]. split; [reflexivity|]. split; assumption.
Qed.

End DocumentFacts.

Section Status.

Context `{TP : ThirdParty} `{FS : !Files TP}.

Implicit Types (app : App) (w : World).

(** X24. [get_document_status] reports a document count that is zero
    exactly when it reports no documents, and changes nothing. Right after a
    [rebuild] that completed, it reports the number of documents given, and
    documents present exactly when that number is not zero. *)
Theorem document_status_counts app :
  exists status,
    get_document_status app = (Ok status, app) /\
    status_has_documents status = has_documents (retrieval_pipeline app) /\
    (status_document_count status = 0%nat <->
     status_has_documents status = false) /\
    (forall docs before,
       rebuild docs before = (Ok tt, app) ->
       status_document_count status = length docs /\
       (status_has_documents status = true <-> docs <> [])).
Proof.
  eexists. split; [reflexivity|]. cbn [status_has_documents
    status_document_count]. split; [reflexivity|]. split.
  - unfold has_documents.
    destruct (pipeline_documents (retrieval_pipeline app)) as [|d ds]; simpl.
    + split; reflexivity.
    + destruct (is_some (vectorstore _) && is_some (ensemble_retriever _));
        simpl; split; (reflexivity || discriminate).
  - intros docs before H. apply rebuild_ok_iff in H.
    destruct H as (splits&w1&emb&w2&vs&w3&kw&w4&_&_&_&_&->). simpl.
    rewrite has_documents_rebuilt.
    destruct docs; simpl; split; try reflexivity; split;
      (discriminate || reflexivity || (intros H; now elim H)).
Qed.

(** X25. [reset_vectordb] always succeeds and reports no documents and a
    count of zero, which is what [get_document_status] reports afterwards;
    [retrieve] then raises the "no documents" error; the conversations and
    the chat handles are untouched. *)
Theorem reset_vectordb_report_is_true app question :
  let app1 :=
    mkApp (world app) (llm_service app) (memory_service app) empty_pipeline in
  reset_vectordb app
    = (Ok (mkVectordbReset "success" "Vector database reset successfully"
                           0 false), app1) /\
  get_document_status app1 = (Ok (mkDocumentStatus false 0), app1) /\
  retrieve question app1 = (Raise not_ready, app1).
Proof. repeat split. Qed.

Lemma load_pdfs_loop_spec directory names documents w :
  exists more w',
    load_pdfs_loop directory names documents w
      = (Ok (documents ++ more)%list, w') /\
    (length more <= length (List.filter (endswith ".pdf") names))%nat.
Proof.
  revert documents w. induction names as [|name rest IH]; intros documents w.
  - exists [], w. split; [|simpl; lia]. simpl.
    now rewrite List.app_nil_r.
  - cbn [load_pdfs_loop List.filter].
    destruct (endswith ".pdf" name).
    + unfold try_except. cbv [bind ret].
      destruct (pdf_load (path_join directory name) w) as [[pages|e] w1].
      * destruct (IH (documents ++ combine_pages pages)%list w1)
          as (more & w' & -> & Hlen).
        exists (combine_pages pages ++ more)%list, w'.
        rewrite List.app_assoc. split; [reflexivity|].
        rewrite length_app. pose proof (combine_pages_length pages).
        simpl. lia.
      * destruct (IH documents w1) as (more & w' & -> & Hlen).
        exists more, w'. split; [reflexivity|]. simpl. lia.
    + destruct (IH documents w) as (more & w' & -> & Hlen).
      exists more, w'. split; [reflexivity|]. lia.
Qed.

Lemma load_pdfs_skips_what_fails_aux directory w w1 :
  path_exists directory w = (Ok false, w1) ->
  forall documents w2,
    load_pdfs_from_directory directory w = (Ok documents, w2) ->
    documents = [] /\ w2 = w1.
Proof.
  intros H documents w2. unfold load_pdfs_from_directory. cbv [bind].
  rewrite H. intros [= <- <-]. auto.
Qed.

(** X26. [load_pdfs_from_directory] returns no document for a directory
    that does not exist. For a directory that lists, it does not raise even
    when a PDF cannot be parsed: such a file is skipped, files not named
    [*.pdf] are not read, and every other PDF gives at most one document, so
    there are at most as many documents as files named [*.pdf]. *)
Theorem load_pdfs_skips_what_fails directory w :
  (forall w1,
     path_exists directory w = (Ok false, w1) ->
     load_pdfs_from_directory directory w = (Ok [], w1)) /\
  (forall names w1 w2,
     path_exists directory w = (Ok true, w1) ->
     listdir directory w1 = (Ok names, w2) ->
     exists documents w3,
       load_pdfs_from_directory directory w = (Ok documents, w3) /\
       (length documents
        <= length (List.filter (endswith ".pdf") names))%nat /\
       ((forall name, In name names -> endswith ".pdf" name = false) ->
        documents = [] /\ w3 = w2)).
Proof.
  unfold load_pdfs_from_directory. cbv [bind]. split.
  - intros w1 ->. reflexivity.
  - intros names w1 w2 -> Hls. simpl. rewrite Hls.
    destruct (load_pdfs_loop_spec directory names [] w2)
      as (more & w3 & E & Hlen).
    exists more, w3. simpl in E. split; [exact E|]. split; [exact Hlen|].
    intros Hnone.
    assert (Hskip : forall ns docs,
               (forall name, In name ns -> endswith ".pdf" name = false) ->
               load_pdfs_loop directory ns docs w2 = (Ok docs, w2)).
    { induction ns as [|n ns IH]; intros docs Hns; [reflexivity|].
      cbn [load_pdfs_loop]. rewrite (Hns n) by now left.
      apply IH. intros name Hin. apply Hns. now right. }
    rewrite (Hskip names [] Hnone) in E. injection E as <- <-. auto.
Qed.

(** X27. [startup_event] never raises, whatever the loader or [rebuild] do,
    and leaves the conversations and the chat handles as they are; when the
    docs folder does not exist it leaves the index as it is too. *)
Theorem startup_event_never_raises app :
  exists app',
    startup_event app = (Ok tt, app') /\
    memory_service app' = memory_service app /\
    llm_service app' = llm_service app /\
    (forall w1,
       path_exists DOCS_FOLDER (world app) = (Ok false, w1) ->
       app' = with_world app w1).
Proof.
  unfold startup_event, try_except. cbv [bind]. unfold ext.
  destruct (load_pdfs_from_directory DOCS_FOLDER (world app))
    as [[docs|e] w1] eqn:E.
  - destruct docs as [|d ds].
    + eexists. split; [reflexivity|]. repeat split.
      intros w2 H.
      destruct (load_pdfs_skips_what_fails_aux DOCS_FOLDER (world app) w2 H
                  _ _ E) as [_ ->].
      reflexivity.
    + set (a := mkApp w1 _ _ _).
      pose proof (rebuild_frame (d :: ds) a) as [Hm Hl].
      destruct (rebuild (d :: ds) a) as [[[]|e] app2]; simpl in Hm, Hl;
        eexists; (split; [reflexivity|]); (split; [exact Hm|]);
        (split; [exact Hl|]); intros w2 H;
        destruct (load_pdfs_skips_what_fails_aux DOCS_FOLDER (world app) w2 H
                    _ _ E) as [Hd _]; discriminate Hd.
  - eexists. split; [reflexivity|]. repeat split.
    intros w2 H. unfold load_pdfs_from_directory in E. cbv [bind] in E.
    rewrite H in E. discriminate E.
Qed.

End Status.

(** * Degrading to the single-shot synthesis *)

Section Degrading.

Context `{TP : ThirdParty}.

Implicit Types (app : App) (question thread_id : string).

Lemma string_app_empty (a : string) : a ++ "" = a.
Proof.
  induction a as [|ch a IH]; [reflexivity|].
  change (String ch (a ++ "") = String ch a). now rewrite IH.
Qed.

(** A part of a joined string is a part of the result. *)
Lemma join_holds_part (sep part : string) (parts : list string) :
  In part parts ->
  exists before after, Py.join sep parts = before ++ part ++ after.
Proof.
  induction parts as [|p rest IH]; [contradiction|].
  destruct rest as [|p' rest'].
  - intros [<-|[]]. exists "", "". cbn [Py.join].
    change (p = p ++ ""). now rewrite string_app_empty.
  - intros [<-|Hin].
    + exists "", (sep ++ Py.join sep (p' :: rest')). reflexivity.
    + destruct (IH Hin) as (before & after & E).
      exists (p ++ sep ++ before), after.
      change (Py.join sep (p :: p' :: rest'))
        with (p ++ sep ++ Py.join sep (p' :: rest')).
      rewrite E, !string_app_assoc. reflexivity.
Qed.

(** The part of the fallback prompt that shows one retrieved entry. *)
Definition shown_entry (doc : Doc) : string :=
  "From " ++ source doc ++ ":" ++ String Py.nl (content doc).

Lemma fallback_prompt_shows_entries question docs doc :
  In doc docs ->
  exists before after,
    fallback_prompt question docs = before ++ shown_entry doc ++ after.
Proof.
  intros Hin.
  destruct (join_holds_part Py.nl2 (shown_entry doc) (map shown_entry docs))
    as (before & after & E).
  { apply in_map_iff. exists doc. auto. }
  exists ("Context from papers:" ++ String Py.nl before),
         (after ++ Py.nl2 ++ "Question: " ++ focused_question question).
  unfold fallback_prompt, fallback_context. fold shown_entry.
  change (map (fun d => shown_entry d) docs) with (map shown_entry docs).
  rewrite E.
  change (String Py.nl (before ++ shown_entry doc ++ after))
    with (String Py.nl before ++ shown_entry doc ++ after).
  rewrite !string_app_assoc. reflexivity.
Qed.

Lemma fallback_prompt_asks_question question docs :
  exists before after,
    fallback_prompt question docs = before ++ question ++ after.
Proof.
  eexists ("Context from papers:" ++ String Py.nl (fallback_context docs)
           ++ Py.nl2 ++ "Question: "
           ++ "Based ONLY on the provided research papers, answer the following question: "),
          _.
  unfold fallback_prompt, focused_question.
  rewrite !string_app_assoc. reflexivity.
Qed.

Lemma fallback_references_nth docs i doc :
  nth_error docs i = Some doc ->
  nth_error (fallback_references docs) i
    = Some (mkRef (basename (source doc)) (score doc)
                  (Py.prefix 500 (content doc))).
Proof.
  intros H. unfold fallback_references. rewrite nth_error_map, H.
  reflexivity.
Qed.

(** A grading call that raises does not stop the graph run: every document
    is graded with its retrieval score and the run goes on to the
    synthesis. *)
Lemma process_state_grading_raises state app state1 app1 e app2 :
  rewrite_question state app = (Ok state1, app1) ->
  oracle_grading (grading_question state1) (documents state1) app1
    = (Raise e, app2) ->
  process_state state app
    = generate_answer
        (with_graded state1 (map ungraded_entry (documents state1))) app2.
Proof.
  intros Hr Hg. unfold process_state, try_except. cbv [bind].
  rewrite Hr, grade_documents_oracle, Hg.
  destruct (generate_answer _ app2) as [[s|e'] a]; reflexivity.
Qed.

(** The vectorstore branch of [query] once the retrieval has returned
    entries. *)
Lemma router_query_graph request thread_id app w w0 retrieved_docs app1 :
  thread_chosen request app thread_id w ->
  router_chain (req_question request) w = (Ok VECTORSTORE, w0) ->
  has_documents (retrieval_pipeline app) = true ->
  retrieve (req_question request) (with_world app w0)
    = (Ok retrieved_docs, app1) ->
  retrieved_docs <> [] ->
  router_query request app =
    wrap_400
      (wrap_400
         (answer_with_graph (req_question request) retrieved_docs
            (initial_state (req_question request) retrieved_docs thread_id)
            thread_id app1)).
Proof.
  intros Ht Hroute Hdocs Hr Hne.
  rewrite (router_query_routed _ _ _ _ Ht), Hroute. unfold route_handler.
  rewrite (query_vectorstore_graph _ thread_id (with_world app w0)
             _ _ Hdocs Hr Hne).
  destruct (answer_with_graph _ _ _ _ app1) as [[r|e] a]; reflexivity.
Qed.

(** C7, as amended. For a question routed to the knowledge base, with
    documents loaded and a non-empty retrieval, whatever thread id the
    request has or is given. The graph run raises only when its synthesis
    raises: a rewrite that fails keeps the question as asked, and a grading
    call that fails grades every chunk with its retrieval score and lets the
    run go on. When the graph run raises, the handler runs the single-shot
    synthesis: one call whose prompt shows every retrieved entry as
    retrieved and the question as asked. If that call answers, the request
    succeeds with this answer, one reference per retrieved entry carrying
    its retrieval score, and the exchange appended to the thread. The
    request fails, with a 400 error, exactly when that call raises too. *)
Theorem graph_failure_degrades_to_fallback
    request thread_id app w w0 retrieved_docs app1 :
  let question := req_question request in
  let state := initial_state question retrieved_docs thread_id in
  thread_chosen request app thread_id w ->
  router_chain question w = (Ok VECTORSTORE, w0) ->
  has_documents (retrieval_pipeline app) = true ->
  retrieve question (with_world app w0) = (Ok retrieved_docs, app1) ->
  retrieved_docs <> [] ->
  (forall e app2,
     process_state state app1 = (Raise e, app2) ->
     (exists state1 a1 state2 a2,
        rewrite_question state app1 = (Ok state1, a1) /\
        grade_documents state1 a1 = (Ok state2, a2) /\
        generate_answer state2 a2 = (Raise e, app2)) /\
     (forall answer app3,
        invoke (fallback_prompt question retrieved_docs) fallback_config app2
          = (Ok answer, app3) ->
        router_query request app =
          (Ok (mkResponse answer (fallback_references retrieved_docs)
                          (Some thread_id)),
           snd (remember question answer thread_id app3)) /\
        stored (snd (remember question answer thread_id app3)) thread_id
          = (stored app3 thread_id
             ++ [HumanMessage question; AIMessage answer])%list) /\
     (forall e' app3,
        invoke (fallback_prompt question retrieved_docs) fallback_config app2
          = (Raise e', app3) ->
        router_query request app =
          (Raise (HTTPException 400
                    (str_exn (HTTPException 400 (str_exn e')))),
           app3))) /\
  (forall state1 a1 e a2,
     rewrite_question state app1 = (Ok state1, a1) ->
     oracle_grading (grading_question state1) (documents state1) a1
       = (Raise e, a2) ->
     process_state state app1
       = generate_answer
           (with_graded state1 (map ungraded_entry (documents state1))) a2) /\
  (forall e app',
     router_query request app = (Raise e, app') ->
     exists e0 app2 e',
       process_state state app1 = (Raise e0, app2) /\
       invoke (fallback_prompt question retrieved_docs) fallback_config app2
         = (Raise e', app') /\
       e = HTTPException 400 (str_exn (HTTPException 400 (str_exn e')))) /\
  length (fallback_references retrieved_docs) = length retrieved_docs /\
  (forall i doc,
     nth_error retrieved_docs i = Some doc ->
     nth_error (fallback_references retrieved_docs) i
       = Some (mkRef (basename (source doc)) (score doc)
                     (Py.prefix 500 (content doc)))) /\
  (exists before after,
     fallback_prompt question retrieved_docs = before ++ question ++ after) /\
  (forall doc,
     In doc retrieved_docs ->
     exists before after,
       fallback_prompt question retrieved_docs
         = before ++ shown_entry doc ++ after).
Proof.
  intros question state Ht Hroute Hdocs Hr Hne.
  pose proof (router_query_graph _ _ _ _ _ _ _ Ht Hroute Hdocs Hr Hne) as Hq.
  fold question in Hq. fold state in Hq.
  split; [|split; [|split; [|split; [|split; [|split]]]]].
  - intros e app2 Hgraph.
    rewrite (answer_with_graph_raise _ _ _ _ _ _ _ Hgraph),
      handle_research_fallback_spec in Hq.
    split; [exact (process_state_raise_inv _ _ _ _ Hgraph)|]. split.
    + intros answer app3 E. rewrite E in Hq. split; [exact Hq|].
      destruct (remember_spec question answer thread_id app3)
        as (_ & _ & _ & _ & Hst).
      rewrite Hst. case_decide; [reflexivity|contradiction].
    + intros e' app3 E. rewrite E in Hq. exact Hq.
  - intros state1 a1 e a2. apply process_state_grading_raises.
  - intros e app' Hfail. rewrite Hq in Hfail.
    destruct (process_state state app1) as [[state'|e0] app2] eqn:Hgraph.
    + destruct (process_state_ok_inv _ _ _ _ Hgraph)
        as (_ & _ & _ & graded & text & _ & _ & Hans & Hrel & Hsel & _).
      assert (Hselected : select_relevant graded <> []).
      { apply Hsel. unfold state. simpl.
        destruct retrieved_docs; [contradiction|discriminate]. }
      rewrite (answer_with_graph_ok _ _ _ _ _ _ _ graded text Hgraph Hrel
                 Hselected Hans) in Hfail.
      discriminate Hfail.
    + rewrite (answer_with_graph_raise _ _ _ _ _ _ _ Hgraph),
        handle_research_fallback_spec in Hfail.
      destruct (invoke _ fallback_config app2) as [[answer|e'] app3] eqn:E;
        [discriminate Hfail|].
      injection Hfail as <- <-. exists e0, app2, e'. auto.
  - unfold fallback_references. apply length_map.
  - intros i doc. apply fallback_references_nth.
  - apply fallback_prompt_asks_question.
  - intros doc. apply fallback_prompt_shows_entries.
Qed.

End Degrading.

(** * More concrete worlds *)

Module Demo2.

Import Demo.

(** As [Demo.third_party], with the route the router chain picks, the
    constructors that succeed and whether the dense store can be built left
    open. The memory chain answers with the history it was given. *)
Definition third_party
    (chat : ChatModel -> list ChatMessage -> result string)
    (ranking : string -> list (Document * Py.pyfloat))
    (route : QueryType) (constructs : ChatModel -> bool)
    (store_builds : bool) : ThirdParty :=
  {| World := unit;
     construct := fun model =>
       if constructs model then ret tt
       else raise (ExternalError "missing API key");
     chat_invoke := fun model messages _ w => (chat model messages, w);
     str_exn := exn_text;
     format_2f := fun _ => "n.nn";
     Embeddings := unit;
     FAISS := list Document;
     BM25Retriever := list Document;
     split_documents := fun docs => ret docs;
     OpenAIEmbeddings_init := ret tt;
     FAISS_from_documents := fun docs _ =>
       if store_builds then ret docs
       else raise (ExternalError "embedding service unavailable");
     BM25_from_documents := fun docs _ => ret docs;
     ensemble_ranking := fun _ question => ret (ranking question);
     router_chain := fun _ => ret route;
     memory_chain := fun _ history => ret ("history", history);
     uuid4 := ret "00000000-0000-4000-8000-000000000000" |}.

(** An Oracle that serves every prompt: it grades a chunk about attention
    0.9 and any other chunk 0.2. *)
Definition helpful (model : ChatModel) (messages : list ChatMessage)
  : result string :=
  match messages with
  | [UserMessage _] => Ok "pong"
  | [SystemMessage _; UserMessage prompt] =>
      if Py.contains "Rate the relevance" prompt then
        if Py.contains "attention" prompt then Ok "0.9" else Ok "0.2"
      else Ok "Self-attention relates the positions of a sequence."
  | _ => Raise (ExternalError "bad request")
  end.

Definition always (model : ChatModel) : bool := true.
Definition never (model : ChatModel) : bool := false.
Definition backup_only (model : ChatModel) : bool :=
  match model with ChatTogether => false | ChatOpenAI => true end.

Definition tp_general : ThirdParty :=
  third_party oracle ranking GENERAL always true.
Definition tp_memory : ThirdParty :=
  third_party oracle ranking MEMORY always true.
Definition tp_helpful : ThirdParty :=
  third_party helpful ranking VECTORSTORE always true.
Definition tp_unranked : ThirdParty :=
  third_party oracle (fun _ => []) VECTORSTORE always true.
Definition tp_no_keys : ThirdParty :=
  third_party oracle ranking VECTORSTORE never true.
Definition tp_backup_key : ThirdParty :=
  third_party oracle ranking VECTORSTORE backup_only true.
Definition tp_no_store : ThirdParty :=
  third_party oracle ranking VECTORSTORE always false.

(** The application with the given chat handles and nothing else. *)
Definition start (T : ThirdParty) (w : @World T) (handles : LLMService)
  : @App T :=
  mkApp w handles (mkMemory ∅) empty_pipeline.

Definition page (text : string) : Document :=
  mkDocument text {[ "source" := "src/docs/paper.pdf" ]}.

(** A file system with one PDF of two pages, one PDF without pages and one
    file that is not a PDF; any other path fails to parse. A bare
    [Exception] is shown as a [RuntimeError]. *)
Definition files (docs_folder_exists : bool) : Files tp :=
  {| makedirs := fun _ => ret tt;
     file_read := fun _ => ret "%PDF-1.4";
     write_bytes := fun _ _ => ret tt;
     pdf_load := fun path =>
       if String.eqb path "src/docs/paper.pdf"
       then ret [page "Attention is all you need."; page "We study heads."]
       else if String.eqb path "src/docs/blank.pdf" then ret []
       else raise (ExternalError "EOF marker not found");
     path_exists := fun _ => ret docs_folder_exists;
     remove := fun _ => ret tt;
     listdir := fun _ => ret ["paper.pdf"; "notes.txt"; "broken.pdf"];
     plain_exception := RuntimeError;
     render_detail := report_message |}.

Definition fs : Files tp := files true.
Definition fs_without_folder : Files tp := files false.

Definition paper_upload : UploadFile := mkUpload (Some "paper.pdf").
Definition notes_upload : UploadFile := mkUpload (Some "notes.txt").
Definition broken_upload : UploadFile := mkUpload (Some "broken.pdf").

End Demo2.

(** * The further properties on the concrete worlds *)

Module MoreExamples.

Import Demo2.

Lemma add_message_then_get_witness :
  get_messages (TP := Demo.tp) "t1" None
    (snd (add_message (TP := Demo.tp) "t1" (HumanMessage "again") Demo.chatted))
  = (Ok [HumanMessage "hello"; AIMessage "hi"; HumanMessage "again"],
     snd (add_message (TP := Demo.tp) "t1" (HumanMessage "again") Demo.chatted)) /\
  fst (get_messages (TP := Demo.tp) "t2" None
         (snd (add_message (TP := Demo.tp) "t1" (HumanMessage "again") Demo.chatted)))
  = fst (get_messages (TP := Demo.tp) "t2" None Demo.chatted).
Proof.
  destruct (add_message_then_get (TP := Demo.tp) "t1" (HumanMessage "again") Demo.chatted)
    as (_ & Hget & _ & Hother).
  split.
  - apply (Hget [HumanMessage "hello"; AIMessage "hi"]). reflexivity.
  - apply (Hother "t2" None). discriminate.
Defined.

Lemma get_messages_last_k_witness :
  (exists dropped kept,
     stored (TP := Demo.tp) Demo.chatted "t1" = (dropped ++ kept)%list /\
     length kept = Nat.min (Z.to_nat 1) (length (stored (TP := Demo.tp) Demo.chatted "t1"))
     /\ get_messages (TP := Demo.tp) "t1" (Some 1%Z) Demo.chatted = (Ok kept, Demo.chatted)) /\
  get_messages (TP := Demo.tp) "t1" (Some (-1)%Z) Demo.chatted
  = (Ok (skipn (Z.to_nat (- (-1))) (stored (TP := Demo.tp) Demo.chatted "t1")), Demo.chatted).
Proof.
  split.
  - destruct (get_messages_last_k (TP := Demo.tp) "t1" 1%Z Demo.chatted) as (Hpos & _).
    apply Hpos. lia.
  - destruct (get_messages_last_k (TP := Demo.tp) "t1" (-1)%Z Demo.chatted)
      as (_ & _ & _ & Hneg).
    apply Hneg. lia.
Defined.

Lemma clear_thread_forgets_only_that_thread_witness :
  stored (TP := Demo.tp) (snd (clear_thread (TP := Demo.tp) "t2" Demo.chatted)) "t1"
  = stored (TP := Demo.tp) Demo.chatted "t1" /\
  snd (clear_thread (TP := Demo.tp) "t1" Demo.app0) = Demo.app0.
Proof.
  split.
  - destruct (clear_thread_forgets_only_that_thread (TP := Demo.tp) "t2" Demo.chatted)
      as (_ & _ & _ & Hother & _).
    apply Hother. discriminate.
  - destruct (clear_thread_forgets_only_that_thread (TP := Demo.tp) "t1" Demo.app0)
      as (_ & _ & _ & _ & Hunknown).
    apply Hunknown. reflexivity.
Defined.

Definition no_handles : LLMService := mkLLM None None.

Lemma setup_llm_sets_what_constructs_witness :
  exists app',
    setup_llm (TP := tp_backup_key) (start tp_backup_key tt no_handles)
      = (Ok tt, app') /\
    _primary_llm (llm_service app') = None /\
    _backup_llm (llm_service app') = Some ChatOpenAI.
Proof.
  destruct (setup_llm_sets_what_constructs (TP := tp_backup_key)
              (start tp_backup_key tt no_handles))
    as (app' & Hrun & _ & Hprimary & Hbackup & _).
  exists app'. split; [exact Hrun|]. split.
  - apply Hprimary. reflexivity.
  - apply Hbackup. reflexivity.
Defined.

Lemma invoke_with_one_backend_witness :
  invoke (TP := Demo.tp_probe_only) "What is attention?" None
         (start Demo.tp_probe_only tt (mkLLM None (Some ChatOpenAI)))
  = single_call (TP := Demo.tp_probe_only) ChatOpenAI "What is attention?" None
      (start Demo.tp_probe_only tt (mkLLM None (Some ChatOpenAI))) tt /\
  invoke (TP := Demo.tp_probe_only) "What is attention?" None
         (start Demo.tp_probe_only tt (mkLLM (Some ChatTogether) None))
  = single_call (TP := Demo.tp_probe_only) ChatTogether "What is attention?" None
      (start Demo.tp_probe_only tt (mkLLM (Some ChatTogether) None)) tt.
Proof.
  split.
  - destruct (invoke_with_one_backend (TP := Demo.tp_probe_only)
                "What is attention?" None
                (start Demo.tp_probe_only tt (mkLLM None (Some ChatOpenAI))))
      as [Hbackup _].
    apply Hbackup; reflexivity.
  - destruct (invoke_with_one_backend (TP := Demo.tp_probe_only)
                "What is attention?" None
                (start Demo.tp_probe_only tt (mkLLM (Some ChatTogether) None)))
      as [_ Hprimary].
    destruct (Hprimary ChatTogether eq_refl eq_refl) as [Hanswered _].
    apply (Hanswered "pong" tt). reflexivity.
Defined.

Lemma invoke_sets_up_when_no_client_witness :
  invoke (TP := tp_no_keys) "What is attention?" None
         (start tp_no_keys tt no_handles)
  = (Raise no_llm, start tp_no_keys tt no_handles).
Proof.
  pose proof (invoke_sets_up_when_no_client (TP := tp_no_keys)
                "What is attention?" None
                (start tp_no_keys tt no_handles) eq_refl) as H.
  exact H.
Defined.

Lemma invoke_keeps_services_witness :
  llm_service (snd (invoke (TP := Demo.tp) "What is attention?" None Demo.app0))
  = llm_service Demo.app0.
Proof.
  destruct (invoke_keeps_services (TP := Demo.tp) "What is attention?" None Demo.app0)
    as (_ & _ & Hhandles).
  apply Hhandles. reflexivity.
Defined.

Lemma rewrite_question_never_blocks_witness :
  exists rewritten,
    fst (rewrite_question (TP := Demo.tp) Demo.to_grade Demo.app0)
      = Ok (with_rewritten Demo.to_grade rewritten) /\
    grading_question (with_rewritten Demo.to_grade rewritten) <> "".
Proof.
  destruct (rewrite_question_never_blocks (TP := Demo.tp) Demo.to_grade Demo.app0)
    as (rewritten & app' & Hrun & _ & _ & _ & Hnonempty).
  exists rewritten. split.
  - rewrite Hrun. reflexivity.
  - apply Hnonempty. discriminate.
Defined.

Definition helped : @App tp_helpful :=
  snd (rebuild (TP := tp_helpful) Demo.corpus (start tp_helpful tt Demo.both_llms)).

Lemma process_state_result_witness :
  exists state' app',
    process_state (TP := tp_helpful) Demo.to_grade helped = (Ok state', app') /\
    question state' = question Demo.to_grade /\
    exists graded text,
      answer state' = Some text /\
      relevant_docs state' = Some (select_relevant graded) /\
      select_relevant graded <> [].
Proof.
  destruct (process_state (TP := tp_helpful) Demo.to_grade helped)
    as [[state'|e] app'] eqn:E; [|vm_compute in E; discriminate E].
  exists state', app'. split; [reflexivity|].
  destruct (process_state_result (TP := tp_helpful) Demo.to_grade helped _ _ E)
    as (Hq & _ & _ & graded & text & _ & _ & Hanswer & Hrel & Hsome & _).
  split; [exact Hq|]. exists graded, text.
  split; [exact Hanswer|]. split; [exact Hrel|].
  apply Hsome. discriminate.
Defined.

Lemma failed_rebuild_leaves_no_index_witness :
  exists e app',
    rebuild (TP := tp_no_store) Demo.corpus (start tp_no_store tt Demo.both_llms)
      = (Raise e, app') /\
    has_documents (retrieval_pipeline app') = false /\
    retrieve (TP := tp_no_store) Demo.question app' = (Raise not_ready, app').
Proof.
  destruct (rebuild (TP := tp_no_store) Demo.corpus (start tp_no_store tt Demo.both_llms))
    as [[[]|e] app'] eqn:E; [vm_compute in E; discriminate E|].
  exists e, app'. split; [reflexivity|].
  destruct (failed_rebuild_leaves_no_index (TP := tp_no_store) Demo.corpus _ e app'
              Demo.question E) as (Hnone & _ & _ & Hretrieve & _).
  split; assumption.
Defined.

Lemma rebuild_replaces_index_witness :
  pipeline_documents (retrieval_pipeline Demo.loaded) = Demo.corpus /\
  rebuild (TP := Demo.tp) Demo.corpus Demo.loaded = (Ok tt, Demo.loaded).
Proof.
  destruct (rebuild_replaces_index (TP := Demo.tp) Demo.corpus Demo.app0 Demo.loaded eq_refl)
    as (Hdocs & _ & _ & Hany).
  split; [exact Hdocs|].
  exact (Hany (retrieval_pipeline Demo.loaded)).
Defined.

Lemma retrieve_reads_only_witness :
  exists e ranked,
    ensemble_retriever (retrieval_pipeline Demo.loaded) = Some e /\
    ensemble_ranking (ThirdParty := Demo.tp) e Demo.question (world Demo.loaded)
      = (Ok ranked, world Demo.loaded) /\
    (length [Demo.survey_entry] <= length ranked)%nat /\
    forall entry, In entry [Demo.survey_entry] ->
      exists doc, In doc (map fst ranked) /\ source entry = source_of doc.
Proof.
  assert (H : retrieve (TP := Demo.tp) Demo.question Demo.loaded = (Ok [Demo.survey_entry], Demo.loaded))
    by (vm_compute; reflexivity).
  destruct (retrieve_reads_only (TP := Demo.tp) Demo.question Demo.loaded)
    as (_ & _ & _ & Hresult).
  exact (Hresult _ _ H).
Defined.

Definition asked : QueryRequest := mkRequest Demo.question (Some "t1").

Definition asked_anonymously : QueryRequest := mkRequest Demo.question None.

Lemma chosen_t1 (T : ThirdParty) (app : @App T) :
  thread_chosen (TP := T) asked app "t1" (world app).
Proof. left. split; [reflexivity|]. split; [discriminate|reflexivity]. Defined.

Lemma general_route_records_exchange_witness :
  exists app2,
    router_query (TP := tp_general) asked
                 (start tp_general tt Demo.both_llms)
      = (Ok (mkResponse "An answer drawn from the papers." [] (Some "t1")),
         app2) /\
    stored (TP := tp_general) app2 "t1"
      = [HumanMessage Demo.question;
         AIMessage "An answer drawn from the papers."].
Proof.
  destruct (general_route_records_exchange (TP := tp_general) asked "t1"
              (start tp_general tt Demo.both_llms) tt tt
              (chosen_t1 _ _) eq_refl) as [Hanswered _].
  destruct (Hanswered "An answer drawn from the papers."
              (start tp_general tt Demo.both_llms) eq_refl)
    as (app2 & Hrun & Hthread & _).
  exists app2. split; [exact Hrun|exact Hthread].
Defined.

Definition greeted : @App tp_memory :=
  snd (add_message (TP := tp_memory) "t1" (HumanMessage "hello")
         (start tp_memory tt Demo.both_llms)).

Lemma memory_route_reads_then_records_witness :
  exists app2,
    router_query (TP := tp_memory) asked greeted
      = (Ok (mkResponse "User: hello" [] (Some "t1")), app2) /\
    stored (TP := tp_memory) app2 "t1"
      = [HumanMessage "hello"; HumanMessage Demo.question;
         AIMessage "User: hello"].
Proof.
  destruct (memory_route_reads_then_records (TP := tp_memory) asked "t1"
              greeted tt tt (chosen_t1 _ _) eq_refl) as [Hanswered _].
  destruct (Hanswered "history" "User: hello" tt eq_refl)
    as (app2 & Hrun & Hthread).
  exists app2. split; [exact Hrun|exact Hthread].
Defined.

Definition unranked : @App tp_unranked :=
  snd (rebuild (TP := tp_unranked) Demo.corpus
         (start tp_unranked tt Demo.both_llms)).

Lemma vectorstore_route_with_nothing_to_cite_witness :
  router_query (TP := Demo.tp) asked Demo.app0
    = (Ok (mkResponse no_documents_answer [] (Some "t1")), Demo.app0) /\
  router_query (TP := tp_unranked) asked unranked
    = (Ok (mkResponse nothing_found_answer [] (Some "t1")), unranked).
Proof.
  split.
  - destruct (vectorstore_route_with_nothing_to_cite (TP := Demo.tp) asked
                "t1" Demo.app0 tt tt (chosen_t1 _ _) eq_refl) as [Hnone _].
    apply Hnone. reflexivity.
  - destruct (vectorstore_route_with_nothing_to_cite (TP := tp_unranked) asked
                "t1" unranked tt tt (chosen_t1 _ _) eq_refl) as [_ Hempty].
    eapply (Hempty _ tt); reflexivity.
Defined.

Lemma graph_answer_cites_selected_witness :
  exists graded text app',
    router_query (TP := tp_helpful) asked helped
      = (Ok (mkResponse text
               (sort_desc relevance_score
                  (graded_references (select_relevant graded)))
               (Some "t1")), app') /\
    sort_desc relevance_score (graded_references (select_relevant graded))
      <> [].
Proof.
  assert (Hr : retrieve (TP := tp_helpful) (req_question asked)
                 (with_world (TP := tp_helpful) helped tt)
               = (Ok [Demo.survey_entry], helped))
    by (vm_compute; reflexivity).
  destruct (process_state (TP := tp_helpful)
              (initial_state (req_question asked) [Demo.survey_entry] "t1")
              helped) as [[state'|e] app2] eqn:E;
    [|vm_compute in E; discriminate E].
  assert (Hne : [Demo.survey_entry] <> []) by discriminate.
  destruct (graph_answer_cites_selected (TP := tp_helpful) asked "t1" helped
              tt tt [Demo.survey_entry] helped state' app2
              (chosen_t1 _ _) eq_refl eq_refl Hr Hne E)
    as (graded & text & _ & _ & Hrun & _ & Hsome & _).
  exists graded, text. eexists. split; [exact Hrun|exact Hsome].
Defined.

Lemma query_echoes_thread_id_witness :
  (exists response app',
     router_query (TP := Demo.tp) asked Demo.loaded = (Ok response, app') /\
     resp_thread_id response = Some "t1") /\
  (exists response app',
     router_query (TP := Demo.tp) asked_anonymously Demo.loaded
       = (Ok response, app') /\
     resp_thread_id response = Some "00000000-0000-4000-8000-000000000000").
Proof.
  split.
  - destruct (router_query (TP := Demo.tp) asked Demo.loaded)
      as [[response|e] app'] eqn:E; [|vm_compute in E; discriminate E].
    exists response, app'. split; [reflexivity|].
    exact (query_echoes_thread_id (TP := Demo.tp) asked Demo.loaded "t1" tt
             response app' (chosen_t1 _ _) E).
  - destruct (router_query (TP := Demo.tp) asked_anonymously Demo.loaded)
      as [[response|e] app'] eqn:E; [|vm_compute in E; discriminate E].
    exists response, app'. split; [reflexivity|].
    apply (query_echoes_thread_id (TP := Demo.tp) asked_anonymously Demo.loaded
             "00000000-0000-4000-8000-000000000000" tt response app');
      [|exact E].
    right. split; [left; reflexivity|reflexivity].
Defined.

Lemma reset_thread_outcomes_witness :
  (exists r app',
     reset_thread (TP := Demo.tp) "t1" Demo.chatted = (Ok r, app') /\
     stored (TP := Demo.tp) app' "t1" = [] /\
     retrieval_pipeline app' = retrieval_pipeline Demo.chatted) /\
  (exists e app',
     reset_thread (TP := Demo.tp) "t1" Demo.app0 = (Raise e, app') /\
     e = thread_not_found "t1" /\ app' = Demo.app0).
Proof.
  split.
  - destruct (reset_thread (TP := Demo.tp) "t1" Demo.chatted)
      as [[r|e] app'] eqn:E; [|vm_compute in E; discriminate E].
    exists r, app'. split; [reflexivity|].
    destruct (reset_thread_outcomes (TP := Demo.tp) "t1" Demo.chatted)
      as [_ Hok].
    destruct (Hok r app' E) as (_ & Hgone & _ & Hindex & _).
    split; assumption.
  - destruct (reset_thread (TP := Demo.tp) "t1" Demo.app0)
      as [[r|e] app'] eqn:E; [vm_compute in E; discriminate E|].
    exists e, app'. split; [reflexivity|].
    destruct (reset_thread_outcomes (TP := Demo.tp) "t1" Demo.app0)
      as [Hfail _].
    destruct (Hfail e app' E) as (He & Happ & _).
    split; assumption.
Defined.

Definition two_pages : list Document :=
  [page "Attention is all you need."; page "We study heads."].

Lemma combine_pages_joins_pages_witness :
  exists doc,
    combine_pages two_pages = [doc] /\
    page_content doc
      = Py.join Py.nl2 ["Attention is all you need."; "We study heads."] /\
    metadata doc = metadata (page "Attention is all you need.").
Proof.
  destruct (combine_pages_joins_pages two_pages) as [_ Hsome].
  exact (Hsome (page "Attention is all you need.") [page "We study heads."]
               eq_refl).
Defined.

Lemma process_uploaded_pdf_outcomes_witness :
  process_uploaded_pdf (TP := Demo.tp) (FS := fs) paper_upload tt
    = (Ok (combine_pages two_pages), tt) /\
  process_uploaded_pdf (TP := Demo.tp) (FS := fs) broken_upload tt
    = (Raise (RuntimeError "Error processing PDF: EOF marker not found"), tt).
Proof.
  split.
  - destruct (process_uploaded_pdf_outcomes (TP := Demo.tp) (FS := fs)
                paper_upload "paper.pdf" "%PDF-1.4" tt tt tt tt
                eq_refl eq_refl eq_refl eq_refl) as [Hparsed _].
    apply (Hparsed two_pages tt). reflexivity.
  - destruct (process_uploaded_pdf_outcomes (TP := Demo.tp) (FS := fs)
                broken_upload "broken.pdf" "%PDF-1.4" tt tt tt tt
                eq_refl eq_refl eq_refl eq_refl) as (_ & Hremoved & _).
    apply (Hremoved (ExternalError "EOF marker not found") tt tt tt);
      reflexivity.
Defined.

Lemma upload_documents_fails_with_500_witness :
  exists e detail app',
    upload_documents (TP := Demo.tp) (FS := fs) [broken_upload] Demo.app0
      = (Raise e, app') /\
    e = HTTPException 500 detail.
Proof.
  destruct (upload_documents (TP := Demo.tp) (FS := fs) [broken_upload]
              Demo.app0) as [[r|e] app'] eqn:E;
    [vm_compute in E; discriminate E|].
  destruct (upload_documents_fails_with_500 (TP := Demo.tp) (FS := fs)
              [broken_upload] Demo.app0) as [Hfail _].
  destruct (Hfail e app' E) as (detail & He).
  exists e, detail, app'. split; [reflexivity|exact He].
Defined.

Lemma upload_rejects_other_files_witness :
  exists detail,
    upload_documents (TP := Demo.tp) (FS := fs) [notes_upload] Demo.loaded
      = (Raise (HTTPException 500 detail), Demo.loaded).
Proof.
  eexists.
  apply (upload_rejects_other_files (TP := Demo.tp) (FS := fs)
           [notes_upload] Demo.loaded).
  - discriminate.
  - intros file [<-|[]]. exists "notes.txt". split; reflexivity.
Defined.

Lemma upload_documents_success_witness :
  exists report app',
    upload_documents (TP := Demo.tp) (FS := fs)
      [paper_upload; notes_upload; broken_upload] Demo.loaded
      = (Ok report, app') /\
    (length (successful (details report)) + length (failed (details report))
     = 3)%nat /\
    length (pipeline_documents (retrieval_pipeline app')) = file_count report
    /\ has_documents (retrieval_pipeline app') = true.
Proof.
  destruct (upload_documents (TP := Demo.tp) (FS := fs)
              [paper_upload; notes_upload; broken_upload] Demo.loaded)
    as [[report|e] app'] eqn:E; [|vm_compute in E; discriminate E].
  exists report, app'. split; [reflexivity|].
  destruct (upload_documents_success (TP := Demo.tp) (FS := fs) _ _ _ _ E)
    as (Hall & _ & _ & _ & Hindex & Hready & _).
  split; [exact Hall|]. split; assumption.
Defined.

Lemma document_status_counts_witness :
  exists status,
    get_document_status (TP := Demo.tp) Demo.loaded = (Ok status, Demo.loaded)
    /\ status_document_count status = 3%nat
    /\ status_has_documents status = true.
Proof.
  destruct (document_status_counts (TP := Demo.tp) Demo.loaded)
    as (status & Hrun & _ & _ & Hrebuilt).
  destruct (Hrebuilt Demo.corpus Demo.app0 eq_refl) as [Hcount Hsome].
  exists status. split; [exact Hrun|]. split; [exact Hcount|].
  apply Hsome. discriminate.
Defined.

Lemma load_pdfs_skips_what_fails_witness :
  load_pdfs_from_directory (TP := Demo.tp) (FS := fs_without_folder)
    DOCS_FOLDER tt = (Ok [], tt) /\
  exists documents w,
    load_pdfs_from_directory (TP := Demo.tp) (FS := fs) DOCS_FOLDER tt
      = (Ok documents, w) /\
    (length documents <= 2)%nat.
Proof.
  split.
  - destruct (load_pdfs_skips_what_fails (TP := Demo.tp)
                (FS := fs_without_folder) DOCS_FOLDER tt) as [Hmissing _].
    apply Hmissing. reflexivity.
  - destruct (load_pdfs_skips_what_fails (TP := Demo.tp) (FS := fs)
                DOCS_FOLDER tt) as [_ Hlisted].
    destruct (Hlisted ["paper.pdf"; "notes.txt"; "broken.pdf"] tt tt
                eq_refl eq_refl) as (documents & w & Hrun & Hlen & _).
    exists documents, w. split; [exact Hrun|exact Hlen].
Defined.

Lemma startup_event_never_raises_witness :
  startup_event (TP := Demo.tp) (FS := fs_without_folder) Demo.loaded
    = (Ok tt, Demo.loaded).
Proof.
  destruct (startup_event_never_raises (TP := Demo.tp)
              (FS := fs_without_folder) Demo.loaded)
    as (app' & Hrun & _ & _ & Hmissing).
  rewrite Hrun. f_equal. exact (Hmissing tt eq_refl).
Defined.

End MoreExamples.

(** * Corner cases on concrete worlds *)

Module Corners.

Import Demo2.

(** An Oracle whose grades do not sort: 0.3 for a chunk about attention, nan
    for a chunk about the weather and 0.4 for any other chunk. *)
Definition erratic (model : ChatModel) (messages : list ChatMessage)
  : result string :=
  match messages with
  | [UserMessage _] => Ok "pong"
  | [SystemMessage _; UserMessage prompt] =>
      if Py.contains "Rate the relevance" prompt then
        if Py.contains "attention" prompt then Ok "0.3"
        else if Py.contains "weather" prompt then Ok "nan"
        else Ok "0.4"
      else Ok "An answer drawn from the papers."
  | _ => Raise (ExternalError "bad request")
  end.

Definition tp_erratic : ThirdParty :=
  third_party erratic Demo.ranking VECTORSTORE always true.

(** Three retrieved entries to grade. *)
Definition three_to_grade : QueryState :=
  mkState "How do they work?"
          [mkDoc "Transformers use self-attention mechanisms."
                 "papers/attention.pdf" Py.one;
           mkDoc "Tomorrow the weather stays mild." "papers/weather.pdf"
                 Py.one;
           mkDoc "Nothing of note." "papers/note.pdf" Py.one]
          None None None "t1" None.

(** The graded list [grade_documents] leaves for them. *)
Definition out_of_order : list GradedDoc :=
  [Demo.graded "Transformers use self-attention mechanisms."
               "papers/attention.pdf" (Py.Fin (3 # 10));
   Demo.graded "Tomorrow the weather stays mild." "papers/weather.pdf" Py.Nan;
   Demo.graded "Nothing of note." "papers/note.pdf" (Py.Fin (4 # 10))].

Definition shuffled : list GradedDoc :=
  [Demo.graded "a" "a.pdf" (Py.Fin (2 # 10));
   Demo.graded "b" "b.pdf" (Py.Fin (4 # 10));
   Demo.graded "c" "c.pdf" (Py.Fin (3 # 10))].

(** C2: of the grades 0.2, 0.4, 0.3 the selection keeps 0.2 and 0.4 and
    leaves out 0.3, which is not the two best; and the list need not be
    sorted when it comes from [grade_documents]: for the answers 0.3, nan,
    0.4 the graded list stays in that order, and the selection keeps the
    chunks graded 0.3 and nan and leaves out the chunk graded 0.4. *)
Lemma first_two_are_not_the_best_two :
  select_relevant shuffled = firstn 2 shuffled /\
  ~ selects_top_two shuffled /\
  grade_documents (TP := tp_erratic) three_to_grade
                  (start tp_erratic tt Demo.both_llms)
    = (Ok (with_graded three_to_grade out_of_order),
       start tp_erratic tt Demo.both_llms) /\
  select_relevant out_of_order = firstn 2 out_of_order /\
  ~ selects_top_two out_of_order.
Proof.
  split; [reflexivity|]. split.
  { intros H.
    specialize (H (Demo.graded "a" "a.pdf" (Py.Fin (2 # 10)))
                  (Demo.graded "c" "c.pdf" (Py.Fin (3 # 10)))).
    assert (E : Py.lt (Py.Fin (2 # 10)) (Py.Fin (3 # 10)) = false).
    { apply H.
      - left. reflexivity.
      - right. right. left. reflexivity.
      - intros [E|[E|[]]]; discriminate E. }
    discriminate E. }
  split; [vm_compute; reflexivity|]. split; [reflexivity|].
  intros H.
  specialize (H (Demo.graded "Transformers use self-attention mechanisms."
                             "papers/attention.pdf" (Py.Fin (3 # 10)))
                (Demo.graded "Nothing of note." "papers/note.pdf"
                             (Py.Fin (4 # 10)))).
  assert (E : Py.lt (Py.Fin (3 # 10)) (Py.Fin (4 # 10)) = false).
  { apply H.
    - left. reflexivity.
    - right. right. left. reflexivity.
    - intros [E|[E|[]]]; discriminate E. }
  discriminate E.
Qed.


(** A third party whose dense store cannot be built from no chunk at all,
    and is built from any other list. *)
Definition strict_store : ThirdParty :=
  {| World := unit;
     construct := fun _ => ret tt;
     chat_invoke := fun model messages _ w => (Demo.oracle model messages, w);
     str_exn := Demo.exn_text;
     format_2f := fun _ => "n.nn";
     Embeddings := unit;
     FAISS := list Document;
     BM25Retriever := list Document;
     split_documents := fun docs => ret docs;
     OpenAIEmbeddings_init := ret tt;
     FAISS_from_documents := fun docs _ =>
       match docs with
       | [] => raise (ExternalError "list index out of range")
       | _ :: _ => ret docs
       end;
     BM25_from_documents := fun docs _ => ret docs;
     ensemble_ranking := fun _ question => ret (Demo.ranking question);
     router_chain := fun _ => ret VECTORSTORE;
     memory_chain := fun _ history => ret ("history", history);
     uuid4 := ret "00000000-0000-4000-8000-000000000000" |}.

(** C4: when the dense store rejects an empty list of chunks, [rebuild([])]
    raises, although [rebuild] of the corpus completes; all it leaves are the
    embeddings. *)
Lemma rebuild_of_nothing_can_fail :
  rebuild (TP := strict_store) [] (start strict_store tt Demo.both_llms)
    = (Raise (ExternalError "list index out of range"),
       @mkApp strict_store tt Demo.both_llms (mkMemory ∅)
              (@mkPipeline strict_store None None None [] (Some tt))) /\
  fst (rebuild (TP := strict_store) Demo.corpus
               (start strict_store tt Demo.both_llms)) = Ok tt /\
  ~ rebuild_of_nothing_is_valid (TP := strict_store)
      (start strict_store tt Demo.both_llms).
Proof.
  split; [reflexivity|]. split; [reflexivity|].
  intros (app' & H). discriminate H.
Qed.

(** An Oracle that fails every grading call and serves everything else:
    the synthesis of the graph and the single-shot synthesis get different
    answers. *)
Definition grading_down (model : ChatModel) (messages : list ChatMessage)
  : result string :=
  match messages with
  | [UserMessage _] => Ok "pong"
  | [SystemMessage _; UserMessage prompt] =>
      if Py.contains "Rate the relevance" prompt
      then Raise (ExternalError "rate limit exceeded")
      else if Py.contains "Based on these research paper excerpts" prompt
      then Ok "An answer from the graded excerpts."
      else if Py.contains "Based ONLY on the provided research papers" prompt
      then Ok "An answer from the single-shot synthesis."
      else Ok "How does self-attention relate positions?"
  | _ => Raise (ExternalError "bad request")
  end.

Definition tp_grading_down : ThirdParty :=
  third_party grading_down Demo.ranking VECTORSTORE always true.

Definition ungraded : @App tp_grading_down :=
  snd (rebuild (TP := tp_grading_down) Demo.corpus
         (start tp_grading_down tt Demo.both_llms)).

(** C7: every grading call raises, yet the graph run returns and the request
    is answered with the synthesis of the graph, over the chunk graded with
    its retrieval score, not with the single-shot synthesis. *)
Lemma grading_failure_does_not_degrade :
  retrieve (TP := tp_grading_down) Demo.question ungraded
    = (Ok [Demo.survey_entry], ungraded) /\
  oracle_grading (TP := tp_grading_down)
    "How does self-attention relate positions?" [Demo.survey_entry] ungraded
    = (Raise (ExternalError "rate limit exceeded"), ungraded) /\
  (exists state',
     process_state (TP := tp_grading_down)
       (initial_state Demo.question [Demo.survey_entry] "t1") ungraded
       = (Ok state', ungraded) /\
     rewritten_question state'
       = Some "How does self-attention relate positions?" /\
     graded_docs state'
       = Some [mkGraded "We study attention in depth." "papers/survey.pdf"
                        Py.one None (Some Py.one)] /\
     answer state' = Some "An answer from the graded excerpts.") /\
  router_query (TP := tp_grading_down) MoreExamples.asked ungraded
    = (Ok (mkResponse "An answer from the graded excerpts."
             [mkRef "survey.pdf" Py.one "We study attention in depth."]
             (Some "t1")),
       snd (remember (TP := tp_grading_down) Demo.question
              "An answer from the graded excerpts." "t1" ungraded)) /\
  handle_research_fallback (TP := tp_grading_down) Demo.question
    [Demo.survey_entry] "t1" ungraded
    = (Ok (mkResponse "An answer from the single-shot synthesis."
             [mkRef "survey.pdf" Py.one "We study attention in depth."]
             (Some "t1")),
       snd (remember (TP := tp_grading_down) Demo.question
              "An answer from the single-shot synthesis." "t1" ungraded)) /\
  fst (router_query (TP := tp_grading_down) MoreExamples.asked ungraded)
    <> fst (handle_research_fallback (TP := tp_grading_down) Demo.question
              [Demo.survey_entry] "t1" ungraded).
Proof.
  assert (Hgraph : router_query (TP := tp_grading_down) MoreExamples.asked
                     ungraded
                   = (Ok (mkResponse "An answer from the graded excerpts."
                            [mkRef "survey.pdf" Py.one
                                   "We study attention in depth."]
                            (Some "t1")),
                      snd (remember (TP := tp_grading_down) Demo.question
                             "An answer from the graded excerpts." "t1"
                             ungraded)))
    by (vm_compute; reflexivity).
  assert (Hsingle : handle_research_fallback (TP := tp_grading_down)
                      Demo.question [Demo.survey_entry] "t1" ungraded
                    = (Ok (mkResponse
                             "An answer from the single-shot synthesis."
                             [mkRef "survey.pdf" Py.one
                                    "We study attention in depth."]
                             (Some "t1")),
                       snd (remember (TP := tp_grading_down) Demo.question
                              "An answer from the single-shot synthesis."
                              "t1" ungraded)))
    by (vm_compute; reflexivity).
  split; [vm_compute; reflexivity|]. split; [vm_compute; reflexivity|].
  split.
  { eexists. split; [vm_compute; reflexivity|].
    split; [reflexivity|]. split; reflexivity. }
  split; [exact Hgraph|]. split; [exact Hsingle|].
  rewrite Hgraph, Hsingle. discriminate.
Qed.

Lemma graph_failure_degrades_to_fallback_witness :
  process_state (TP := Demo.tp)
    (initial_state Demo.question [Demo.survey_entry] "t1") Demo.loaded
    = (Raise (ExternalError "synthesis unavailable"), Demo.loaded) /\
  router_query (TP := Demo.tp) MoreExamples.asked Demo.loaded
    = (Ok (mkResponse "An answer drawn from the papers."
                      [mkRef "survey.pdf" Py.one "We study attention in depth."]
                      (Some "t1")),
       snd (remember (TP := Demo.tp) Demo.question
              "An answer drawn from the papers." "t1" Demo.loaded)) /\
  router_query (TP := Demo.tp) MoreExamples.asked_anonymously Demo.loaded
    = (Ok (mkResponse "An answer drawn from the papers."
                      [mkRef "survey.pdf" Py.one "We study attention in depth."]
                      (Some "00000000-0000-4000-8000-000000000000")),
       snd (remember (TP := Demo.tp) Demo.question
              "An answer drawn from the papers."
              "00000000-0000-4000-8000-000000000000" Demo.loaded)).
Proof.
  assert (Hdocs : [Demo.survey_entry] <> []) by discriminate.
  assert (Hret : retrieve (TP := Demo.tp) Demo.question
                   (with_world (TP := Demo.tp) Demo.loaded tt)
                 = (Ok [Demo.survey_entry], Demo.loaded))
    by (vm_compute; reflexivity).
  assert (Hgraph : forall thread_id,
            process_state (TP := Demo.tp)
              (initial_state Demo.question [Demo.survey_entry] thread_id)
              Demo.loaded
            = (Raise (ExternalError "synthesis unavailable"), Demo.loaded))
    by (intros thread_id; vm_compute; reflexivity).
  split; [apply Hgraph|]. split.
  - destruct (graph_failure_degrades_to_fallback (TP := Demo.tp)
                MoreExamples.asked "t1" Demo.loaded tt tt
                [Demo.survey_entry] Demo.loaded
                (MoreExamples.chosen_t1 _ _) eq_refl eq_refl Hret Hdocs)
      as [Hraise _].
    destruct (Hraise _ _ (Hgraph "t1")) as (_ & Hok & _).
    apply (Hok "An answer drawn from the papers." Demo.loaded).
    vm_compute; reflexivity.
  - assert (Hdrawn : thread_chosen (TP := Demo.tp)
                       MoreExamples.asked_anonymously Demo.loaded
                       "00000000-0000-4000-8000-000000000000" tt)
      by (right; split; [left; reflexivity|reflexivity]).
    destruct (graph_failure_degrades_to_fallback (TP := Demo.tp)
                MoreExamples.asked_anonymously
                "00000000-0000-4000-8000-000000000000" Demo.loaded tt tt
                [Demo.survey_entry] Demo.loaded
                Hdrawn eq_refl eq_refl Hret Hdocs)
      as [Hraise _].
    destruct (Hraise _ _ (Hgraph _)) as (_ & Hok & _).
    apply (Hok "An answer drawn from the papers." Demo.loaded).
    vm_compute; reflexivity.
Defined.

End Corners.
